(** * rtv: the lazy, index-addressable content model (rtv/content.py)

    A shallow embedding of [Content], [SubmissionContent], [SubredditContent]
    and [SubscriptionContent], with the properties of the specification
    stated and settled against it.

    Conventions.  Python integers are [Z]; list positions are [nat] obtained
    with [Z.to_nat] after the source's own sign tests.  A Python dict with a
    fixed set of string keys is a record; a key that may be absent is an
    [option] field.  Dicts that are shared and mutated in place (the comment
    records of a submission) live in an object store and are named by their
    address, so that object identity is a fact of the model. *)

From Stdlib Require Import ZArith Lia String DecimalString.
From stdpp Require Import base option list.

Local Open Scope Z_scope.

(** ** Exceptions and outcomes *)

(** The exceptions the modelled code raises or meets.  [Upstream] stands for
    whatever the content API raises inside a guarded call (network, auth,
    parse); its payload only tells two such exceptions apart. *)
Inductive exn : Type :=
| IndexError
| KeyError
| ValueError
| StopIteration
| AssertionError
| SubredditError
| SubscriptionError
| Upstream (code : nat).

(** What a call produces.  [Stuck] is not a Python outcome: the model reached
    an address with no object behind it, or a loop used up its fuel.  The
    lemmas below show that it does not occur on well-formed states. *)
Inductive result (A : Type) : Type :=
| Ok (a : A)
| Raise (e : exn)
| Stuck.
Arguments Ok {A} a.
Arguments Raise {A} e.
Arguments Stuck {A}.

(** A method body: it reads and writes [self] and ends in a [result].  The
    state is returned on every path, because an exception leaves the
    mutations made before it in place. *)
Definition M (S A : Type) : Type := S -> result A * S.

Definition ret {S A} (a : A) : M S A := fun s => (Ok a, s).
Definition raise {S A} (e : exn) : M S A := fun s => (Raise e, s).
Definition stuck {S A} : M S A := fun s => (Stuck, s).
Definition bind {S A B} (m : M S A) (k : A -> M S B) : M S B :=
  fun s => match m s with
           | (Ok a, s') => k a s'
           | (Raise e, s') => (Raise e, s')
           | (Stuck, s') => (Stuck, s')
           end.
Definition gets {S A} (f : S -> A) : M S A := fun s => (Ok (f s), s).
Definition modify {S} (f : S -> S) : M S unit := fun s => (Ok tt, f s).

Declare Scope py_scope.
Delimit Scope py_scope with py.
Notation "x <- m ;; k" := (bind m (fun x => k))
  (at level 100, m at next level, right associativity) : py_scope.
Notation "m ;;; k" := (bind m (fun _ => k))
  (at level 100, right associativity) : py_scope.

(** ** The upstream comment tree (praw objects) *)

(** The attributes of a praw [Comment] that [strip_praw_comment] reads.  An
    attribute read with [getattr(.., default)] is an [option].  The creation
    time is left out: its projection reads the clock. *)
Record praw_comment : Type := PrawComment {
  body : string;
  score : Z;
  author : option string;
  submission_author : option string;
  author_flair_text : option string;
  likes : option bool;
  gilded : Z;
  permalink : option string;
}.

(** A node of the reply tree: a comment with its [_replies] field ([None]
    when the field is unset), or a [MoreComments] marker with its [count] and
    the name under which the content API resolves it. *)
#[local] Set Warnings "-register-all".
Inductive node : Type :=
| Comment (c : praw_comment) (_replies : option (list node))
| MoreComments (count : Z) (handle : nat).

(** Number of nodes of a tree, the node itself included. *)
Fixpoint node_size (n : node) : nat :=
  match n with
  | Comment _ (Some l) =>
      S ((fix sizes (l : list node) : nat :=
            match l with
            | [] => O
            | x :: r => (node_size x + sizes r)%nat
            end) l)
  | Comment _ None => 1%nat
  | MoreComments _ _ => 1%nat
  end.

Definition forest_size (l : list node) : nat :=
  foldr (fun x acc => (node_size x + acc)%nat) O l.

(** The work list of [flatten_comments]: each node with the value of its
    [nested_level] attribute. *)
Definition leveled : Type := node * Z.

Definition stack_size (stack : list leveled) : nat :=
  forest_size (map fst stack).

(** [for item in l: item.nested_level = lvl] *)
Definition set_nested_level (lvl : Z) (l : list node) : list leveled :=
  map (fun n => (n, lvl)) l.

(** The [while stack:] loop of [flatten_comments], lines 44-62.  The loop is
    not structural (an unset [_replies] is repaired from the work list), so
    it runs on fuel; [flatten_comments] supplies enough of it.  Nodes are
    values here: a repair shows in the entry of the repaired node, while the
    copy of that node inside the entry of its parent, listed before it, keeps
    the unset field.  The depth and the order of the entries do not depend
    on it, and nothing below reads the replies of a listed node. *)
Fixpoint flatten_loop (fuel : nat) (stack : list leveled)
    (retval : list leveled) : result (list leveled) :=
  match stack with
  | [] => Ok retval
  | (item, lvl) :: stack =>
      match fuel with
      | O => Stuck
      | S fuel =>
          match item with
          | MoreComments count _ =>
              if count =? 0 then flatten_loop fuel stack retval
              else flatten_loop fuel stack (retval ++ [(item, lvl)])
          | Comment c None =>
              (* item._replies = [stack.pop(0)] *)
              match stack with
              | [] => Raise IndexError
              | (adopted, _) :: stack =>
                  flatten_loop fuel ((adopted, lvl + 1) :: stack)
                    (retval ++ [(Comment c (Some [adopted]), lvl)])
              end
          | Comment c (Some nested) =>
              flatten_loop fuel (set_nested_level (lvl + 1) nested ++ stack)
                (retval ++ [(item, lvl)])
          end
      end
  end.

(** [Content.flatten_comments(comments, root_level=0)] *)
Definition flatten_comments (comments : list node) (root_level : Z)
    : result (list leveled) :=
  let stack := set_nested_level root_level comments in
  flatten_loop (stack_size stack) stack [].

(** *** What the specification says flattening computes *)

(** The preorder walk of a tree, each node with its depth: a node at depth
    [lvl], then its children, left to right, at depth [lvl + 1]. *)
Fixpoint preorder (lvl : Z) (n : node) : list leveled :=
  match n with
  | Comment _ (Some l) =>
      (n, lvl) ::
      (fix walk (l : list node) : list leveled :=
         match l with
         | [] => []
         | x :: r => preorder (lvl + 1) x ++ walk r
         end) l
  | _ => [(n, lvl)]
  end.

Definition preorder_forest (lvl : Z) (l : list node) : list leveled :=
  foldr (fun x acc => preorder lvl x ++ acc) [] l.

(** A well-formed tree: every reply list is set, no marker counts zero. *)
Fixpoint well_formed (n : node) : bool :=
  match n with
  | Comment _ (Some l) =>
      (fix all (l : list node) : bool :=
         match l with
         | [] => true
         | x :: r => well_formed x && all r
         end) l
  | Comment _ None => false
  | MoreComments count _ => negb (count =? 0)
  end.

Definition well_formed_forest (l : list node) : bool :=
  forallb well_formed l.

Definition is_zero_marker (n : node) : bool :=
  match n with
  | MoreComments count _ => count =? 0
  | _ => false
  end.

(** The walk of a whole work list: each entry at its own level. *)
Definition preorder_stack (stack : list leveled) : list leveled :=
  foldr (fun e acc => preorder (snd e) (fst e) ++ acc) [] stack.

Definition well_formed_stack (stack : list leveled) : bool :=
  forallb (fun e => well_formed (fst e)) stack.

(** ** Text layout *)

(** Two library functions sit under [wrap_text]: Python's [str.splitlines]
    and [kitchen.text.display.wrap].  The model takes them as given. *)
Class TextLayout : Type := {
  splitlines : string -> list string;
  wrap : string -> Z -> list string;
}.

(** [Content.wrap_text(text, width)] *)
Definition wrap_text `{TextLayout} (text : string) (width : Z) : list string :=
  flat_map
    (fun paragraph =>
       match wrap paragraph width with
       | [] => [""%string]
       | lines => lines
       end)
    (splitlines text).

(** [len(l)] *)
Definition len {A} (l : list A) : Z := Z.of_nat (length l).

(** ** The guard around blocking calls *)

(** Modelled from the spec: the loader object ([rtv/objects.py], of which the
    source tree has only the callers).  Section 4.1: the guarded action runs
    in line; when it raises, the exception is "captured and re-raised (or
    stored for inspection)"; "only one scope may be active at a time", and
    "nested invocation is a programming error (fail loudly, not silently)".
    The callers read two attributes, [depth] (open scopes) and [exception]
    (what the last scope caught).  An exception of the content API is stored
    and the scope then ends normally; [StopIteration] and [AssertionError],
    for which the callers have their own handling, are stored and
    re-raised. *)
Record LoadScreen : Type := mkLoadScreen {
  depth : nat;
  exception : option exn;
}.

(** Opening a scope.  With no scope open it succeeds, and what an earlier
    scope caught is forgotten.  While a scope is open it fails and leaves the
    loader as it is; the failure is an [AssertionError], the exception with
    which the callers' own check of the depth (line 310) reports a nested
    scope. *)
Definition enter (l : LoadScreen) : result LoadScreen :=
  if Nat.eqb (depth l) 0 then
    Ok {| depth := S (depth l); exception := None |}
  else Raise AssertionError.

Definition exit (e : option exn) (l : LoadScreen) : LoadScreen :=
  {| depth := pred (depth l); exception := e |}.

(** Does the scope end normally after [e] was raised inside it? *)
Definition swallowed (e : exn) : bool :=
  match e with
  | Upstream _ => true
  | _ => false
  end.

(** [with loader(): x = action()], for an action that produced [outcome]
    inside the scope opened by [enter]: the scope is closed, and the value of
    [x] comes back when the action returned one. *)
Definition leave {A} (outcome : result A) (l : LoadScreen)
    : result (option A) * LoadScreen :=
  match outcome with
  | Ok a => (Ok (Some a), exit None l)
  | Raise e =>
      if swallowed e then (Ok None, exit (Some e) l)
      else (Raise e, exit (Some e) l)
  | Stuck => (Stuck, l)
  end.

(** ** The abstract content interface *)

(** [Content.get(index, n_cols)] is abstract; every content class brings its
    own.  [S] is the object's state, [R] what [get] hands back. *)
Class Content (S R : Type) : Type := get : Z -> Z -> M S R.

(** One resumption of the generator [Content.iterate(index, step, n_cols)]:
    it yields a record and moves on, or it finishes.  An exception other
    than [IndexError] leaves the generator and reaches its consumer. *)
Inductive resumed (S R : Type) : Type :=
| Yield (r : R) (index : Z) (s : S)
| Stop (s : S)
| Throw (e : exn) (s : S)
| Wedged (s : S).
Arguments Yield {S R} r index s.
Arguments Stop {S R} s.
Arguments Throw {S R} e s.
Arguments Wedged {S R} s.

Definition iterate_next {S R} `{!Content S R} (index step n_cols : Z) (s : S)
    : resumed S R :=
  if (step <? 0) && (index <? 0) then Stop s
  else
    match get index n_cols s with
    | (Ok r, s') => Yield r (index + step) s'
    | (Raise IndexError, s') => Stop s'
    | (Raise e, s') => Throw e s'
    | (Stuck, s') => Wedged s'
    end.

(** The generator run to its end by a consumer that takes everything, as
    [list(content.iterate(index, step, n_cols))] would: the records yielded,
    each with the index it was read at.  With [step >= 0] the generator need
    not finish, hence the fuel: one unit per resumption. *)
Fixpoint iterate {S R} `{!Content S R} (fuel : nat) (index step n_cols : Z)
    : M S (list (Z * R)) :=
  fun s =>
    match fuel with
    | O => (Stuck, s)
    | S fuel =>
        match iterate_next index step n_cols s with
        | Yield r index' s' =>
            match iterate fuel index' step n_cols s' with
            | (Ok rest, s'') => (Ok ((index, r) :: rest), s'')
            | other => other
            end
        | Stop s' => (Ok [], s')
        | Throw e s' => (Raise e, s')
        | Wedged s' => (Stuck, s')
        end
    end.

(** ** Records *)

(** An address in the store of comment dicts. *)
Abbreviation loc := nat.

(** What [strip_praw_submission] reads of a praw submission, as far as the
    methods below go; [comments] is the root list of its reply tree. *)
Record praw_submission : Type := PrawSubmission {
  sub_title : string;
  sub_selftext : string;
  sub_permalink : string;
  sub_comments : list node;
}.

(** The dict of a submission.  The keys that [strip_praw_submission] copies
    from the object once and that nothing writes again (author, score,
    flair, url classification, ...) are reached through [s_object]. *)
Record submission_data : Type := SubmissionData {
  s_object : praw_submission;
  s_title : string;
  s_text : string;
  s_permalink : string;
  s_index : option Z;
  s_split_title : option (list string);
  s_split_text : option (list string);
  s_n_rows : option Z;
  s_offset : option Z;
}.

(** [Content.strip_praw_submission(sub)], on the keys above; the dict has
    ['type'] = ['Submission']. *)
Definition strip_praw_submission (sub : praw_submission) : submission_data :=
  {| s_object := sub;
     s_title := sub_title sub;
     s_text := sub_selftext sub;
     s_permalink := sub_permalink sub;
     s_index := None;
     s_split_title := None;
     s_split_text := None;
     s_n_rows := None;
     s_offset := None |}.

(** The dict of a comment, of a [MoreComments] marker or of a hidden comment.
    [c_count] and [c_cache] are the keys ['count'] and ['cache'], absent from
    a comment's dict; the display keys are absent until [get] writes them.
    The other keys of a comment are copied from [c_object] once. *)
Record comment_data : Type := CommentData {
  c_object : option node;
  c_level : Z;
  c_type : string;
  c_count : option Z;
  c_body : string;
  c_cache : option (list loc);
  c_offset : option Z;
  c_split_body : option (list string);
  c_n_rows : option Z;
}.

Definition set_offset (v : Z) (d : comment_data) : comment_data :=
  {| c_object := c_object d; c_level := c_level d; c_type := c_type d;
     c_count := c_count d; c_body := c_body d; c_cache := c_cache d;
     c_offset := Some v;
     c_split_body := c_split_body d; c_n_rows := c_n_rows d |}.

Definition set_split_body (v : list string) (d : comment_data) : comment_data :=
  {| c_object := c_object d; c_level := c_level d; c_type := c_type d;
     c_count := c_count d; c_body := c_body d; c_cache := c_cache d;
     c_offset := c_offset d;
     c_split_body := Some v; c_n_rows := c_n_rows d |}.

Definition set_n_rows (v : Z) (d : comment_data) : comment_data :=
  {| c_object := c_object d; c_level := c_level d; c_type := c_type d;
     c_count := c_count d; c_body := c_body d; c_cache := c_cache d;
     c_offset := c_offset d;
     c_split_body := c_split_body d; c_n_rows := Some v |}.

(** [Content.strip_praw_comment(comment)], for a node whose [nested_level]
    is [lvl]. *)
Definition strip_praw_comment (e : leveled) : comment_data :=
  let '(comment, lvl) := e in
  match comment with
  | MoreComments count _ =>
      {| c_object := Some comment; c_level := lvl;
         c_type := "MoreComments"; c_count := Some count;
         c_body := "More comments"; c_cache := None;
         c_offset := None; c_split_body := None; c_n_rows := None |}
  | Comment c _ =>
      {| c_object := Some comment; c_level := lvl;
         c_type := "Comment"; c_count := None;
         c_body := body c; c_cache := None;
         c_offset := None; c_split_body := None; c_n_rows := None |}
  end.

(** What [strip_praw_subscription] reads of a praw subreddit. *)
Record praw_subscription : Type := PrawSubscription {
  display_name : string;
  subscription_title : string;
}.

(** The dict of a subscription (['type'] = ['Subscription']). *)
Record subscription_data : Type := SubscriptionData {
  u_object : praw_subscription;
  u_name : string;
  u_title : string;
  u_split_title : option (list string);
  u_n_rows : option Z;
  u_offset : option Z;
}.

(** [Content.strip_praw_subscription(subscription)] *)
Definition strip_praw_subscription (subscription : praw_subscription)
    : subscription_data :=
  {| u_object := subscription;
     u_name := "/r/" ++ display_name subscription;
     u_title := subscription_title subscription;
     u_split_title := None; u_n_rows := None; u_offset := None |}.

(** [lst[a:b] = xs] for [0 <= a <= b], the only slices the source assigns. *)
Definition splice {A} (a b : Z) (xs l : list A) : list A :=
  take (Z.to_nat a) l ++ xs ++ drop (Z.to_nat b) l.

(** What [get] hands back for a submission: the submission's dict or one of
    the comment dicts, by reference. *)
Inductive ref : Type :=
| SubmissionRef
| CommentRef (l : loc).

(** The answer of the content API to [more.comments(update=True)]. *)
Inductive fetched : Type :=
| Fetched (comments : list node)
| FetchRaised (e : exn).

(** ** SubmissionContent *)

Module SubmissionContent.

(** The instance attributes, and [store]: the comment dicts the object has
    created, by address.  [_comment_data] lists addresses. *)
Record t : Type := Build {
  indent_size : Z;
  max_indent_level : Z;
  name : string;
  order : option string;
  _loader : LoadScreen;
  _submission : praw_submission;
  _submission_data : submission_data;
  _comment_data : list loc;
  store : list comment_data;
}.

Definition set_loader (v : LoadScreen) (self : t) : t :=
  Build (indent_size self) (max_indent_level self) (name self) (order self)
    v (_submission self) (_submission_data self) (_comment_data self)
    (store self).

Definition set_submission_data (v : submission_data) (self : t) : t :=
  Build (indent_size self) (max_indent_level self) (name self) (order self)
    (_loader self) (_submission self) v (_comment_data self) (store self).

Definition set_comment_data (v : list loc) (self : t) : t :=
  Build (indent_size self) (max_indent_level self) (name self) (order self)
    (_loader self) (_submission self) (_submission_data self) v (store self).

Definition set_store (v : list comment_data) (self : t) : t :=
  Build (indent_size self) (max_indent_level self) (name self) (order self)
    (_loader self) (_submission self) (_submission_data self)
    (_comment_data self) v.

(** A new dict: it gets the next free address. *)
Definition alloc (d : comment_data) : M t loc :=
  fun self => (Ok (length (store self)), set_store (store self ++ [d]) self).

Fixpoint alloc_all (ds : list comment_data) : M t (list loc) :=
  match ds with
  | [] => ret []
  | d :: ds => (l <- alloc d ;; ls <- alloc_all ds ;; ret (l :: ls))%py
  end.

(** The dict behind an address. *)
Definition read (l : loc) : M t comment_data :=
  fun self =>
    match store self !! l with
    | Some d => (Ok d, self)
    | None => (Stuck, self)
    end.

(** [SubmissionContent.__init__(submission, loader, indent_size=2,
    max_indent_level=8, order=None)] *)
Definition init (submission : praw_submission) (loader : LoadScreen)
    (indent_size max_indent_level : Z) (order : option string) : result t :=
  let submission_data := strip_praw_submission submission in
  match flatten_comments (sub_comments submission) 0 with
  | Ok comments =>
      let self :=
        Build indent_size max_indent_level (s_permalink submission_data)
          order loader submission submission_data [] [] in
      match alloc_all (map strip_praw_comment comments) self with
      | (Ok ls, self) => Ok (set_comment_data ls self)
      | (Raise e, _) => Raise e
      | (Stuck, _) => Stuck
      end
  | Raise e => Raise e
  | Stuck => Stuck
  end.

(** [SubmissionContent.get(index, n_cols=70)] *)
Definition get `{TextLayout} (index n_cols : Z) : M t ref :=
  fun self =>
    if index <? -1 then (Raise IndexError, self)
    else if index =? -1 then
      let data := _submission_data self in
      let split_title := wrap_text (s_title data) (n_cols - 2) in
      let split_text := wrap_text (s_text data) (n_cols - 2) in
      let data :=
        {| s_object := s_object data; s_title := s_title data;
           s_text := s_text data; s_permalink := s_permalink data;
           s_index := s_index data;
           s_split_title := Some split_title;
           s_split_text := Some split_text;
           s_n_rows := Some (len (split_title ++ split_text) + 5);
           s_offset := Some 0 |} in
      (Ok SubmissionRef, set_submission_data data self)
    else
      match _comment_data self !! Z.to_nat index with
      | None => (Raise IndexError, self)
      | Some l =>
          match store self !! l with
          | None => (Stuck, self)
          | Some data =>
              let indent_level :=
                Z.min (c_level data) (max_indent_level self) in
              let offset := indent_level * indent_size self in
              let data := set_offset offset data in
              let data :=
                if (c_type data =? "Comment")%string then
                  let width := n_cols - offset in
                  let split_body := wrap_text (c_body data) width in
                  set_n_rows (len split_body + 1)
                    (set_split_body split_body data)
                else set_n_rows 1 data in
              (Ok (CommentRef l), set_store (<[l := data]> (store self)) self)
          end
      end.

#[global] Instance content `{TextLayout} : Content t ref := get.

(** The [for d in self.iterate(index + 1, 1, n_cols)] loop of [toggle],
    lines 289-294; [data] is the dict being hidden.  One unit of fuel per
    resumption of the generator. *)
Fixpoint hide_loop `{TextLayout} (fuel : nat) (data : loc)
    (index n_cols count : Z) (cache : list loc) : M t (Z * list loc) :=
  fun self =>
    match fuel with
    | O => (Stuck, self)
    | S fuel =>
        match iterate_next index 1 n_cols self with
        | Stop self => (Ok (count, cache), self)
        | Throw e self => (Raise e, self)
        | Wedged self => (Stuck, self)
        | Yield SubmissionRef _ self => (Raise KeyError, self)
        | Yield (CommentRef l) index self =>
            match store self !! l, store self !! data with
            | Some d, Some dat =>
                if c_level d <=? c_level dat then (Ok (count, cache), self)
                else
                  hide_loop fuel data index n_cols
                    (count + default 1 (c_count d)) (cache ++ [l]) self
            | _, _ => (Stuck, self)
            end
        end
    end.

(** [SubmissionContent.toggle(index, n_cols=70)]; [reply] is what the
    content API answers if the method asks it for more comments. *)
Definition toggle `{TextLayout} (reply : fetched) (index n_cols : Z)
    : M t unit :=
  (data <- get index 70 ;;
   match data with
   | SubmissionRef => ret tt
   | CommentRef l =>
       d <- read l ;;
       if (c_type d =? "Submission")%string then ret tt
       else if (c_type d =? "Comment")%string then
         fuel <- gets (fun self => S (length (_comment_data self))) ;;
         found <- hide_loop fuel l (index + 1) n_cols 1 [l] ;;
         let '(count, cache) := found in
         d <- read l ;;
         comment <- alloc
           {| c_object := None; c_level := c_level d;
              c_type := "HiddenComment"; c_count := Some count;
              c_body := "Hidden"; c_cache := Some cache;
              c_offset := None; c_split_body := None; c_n_rows := None |} ;;
         modify (fun self =>
           set_comment_data
             (splice index (index + len cache) [comment] (_comment_data self))
             self)
       else if (c_type d =? "HiddenComment")%string then
         match c_cache d with
         | None => raise KeyError
         | Some cache =>
             modify (fun self =>
               set_comment_data
                 (splice index (index + 1) cache (_comment_data self)) self)
         end
       else if (c_type d =? "MoreComments")%string then
         ldr <- (fun self => (enter (_loader self), self)) ;;
         let outcome :=
           if Nat.eqb (depth ldr) 1 then
             match reply with
             | Fetched comments => Ok comments
             | FetchRaised e => Raise e
             end
           else Raise AssertionError in
         comments <- (fun self =>
           let '(r, ldr) := leave outcome ldr in (r, set_loader ldr self)) ;;
         caught <- gets (fun self => exception (_loader self)) ;;
         match caught, comments with
         | None, Some comments =>
             match flatten_comments comments (c_level d) with
             | Ok comments =>
                 comment_data <- alloc_all (map strip_praw_comment comments) ;;
                 modify (fun self =>
                   set_comment_data
                     (splice index (index + 1) comment_data
                        (_comment_data self)) self)
             | Raise e => raise e
             | Stuck => stuck
             end
         | None, None => stuck
         | Some _, _ => ret tt
         end
       else raise ValueError
   end)%py.

End SubmissionContent.

(** ** Listings: SubredditContent and SubscriptionContent *)

(** The listing generator of the content API, seen from its consumer: the
    answers it will give to the coming calls of [next], in order, and
    [StopIteration] once they are used up.  [pulls] counts the calls made so
    far; nothing reads it, it is there to state how often the generator was
    asked.  A Python generator raises at most once, as its last answer. *)
Inductive answer (A : Type) : Type :=
| Item (a : A)
| Fails (e : exn).
Arguments Item {A} a.
Arguments Fails {A} e.

Record generator (A : Type) : Type := Generator {
  answers : list (answer A);
  pulls : nat;
}.
Arguments Generator {A} answers pulls.
Arguments answers {A} _.
Arguments pulls {A} _.

(** [next(generator)] *)
Definition next {A} (g : generator A) : result A * generator A :=
  match answers g with
  | [] => (Raise StopIteration, Generator [] (S (pulls g)))
  | Item a :: rest => (Ok a, Generator rest (S (pulls g)))
  | Fails e :: rest => (Raise e, Generator rest (S (pulls g)))
  end.

(** [SubredditContent] and [SubscriptionContent] are the same lazy cache, up
    to the dict they build from an element ([project], which also sees the
    index that was asked for) and the display keys [get] writes ([render]).
    [Listing] is that cache; the two classes instantiate it below.  The
    attributes are [name], [order], [_loader], the generator ([_submissions],
    [_subscriptions]) and the dicts resolved so far ([_submission_data],
    [_subscription_data]). *)
Module Listing.

Record t (A D : Type) : Type := Build {
  name : string;
  order : option string;
  _loader : LoadScreen;
  _source : generator A;
  _data : list D;
}.
Arguments Build {A D} name order _loader _source _data.
Arguments name {A D} _.
Arguments order {A D} _.
Arguments _loader {A D} _.
Arguments _source {A D} _.
Arguments _data {A D} _.

Section Cache.
Context {A D : Type}.
Variable project : Z -> A -> D.
Variable render : Z -> D -> D.

(** The [while index >= len(self._data)] loop of [get]: one guarded pull
    per round, one unit of fuel per round.  The [try] of line 410 covers the
    whole [with] statement, the opening of the scope included. *)
Fixpoint fill (fuel : nat) (index : Z) : M (t A D) unit :=
  fun self =>
    if index >=? len (_data self) then
      match fuel with
      | O => (Stuck, self)
      | S fuel =>
          match enter (_loader self) with
          | Ok ldr =>
              let '(outcome, source) := next (_source self) in
              let '(element, ldr) := leave outcome ldr in
              let self :=
                Build (name self) (order self) ldr source (_data self) in
              match element with
              | Ok element =>
                  match exception (_loader self), element with
                  | Some _, _ => (Raise IndexError, self)
                  | None, Some element =>
                      let data := project index element in
                      fill fuel index
                        (Build (name self) (order self) (_loader self)
                           (_source self) (_data self ++ [data]))
                  | None, None => (Stuck, self)
                  end
              | Raise StopIteration => (Raise IndexError, self)
              | Raise e => (Raise e, self)
              | Stuck => (Stuck, self)
              end
          | Raise StopIteration => (Raise IndexError, self)
          | Raise e => (Raise e, self)
          | Stuck => (Stuck, self)
          end
      end
    else (Ok tt, self).

(** [get(index, n_cols=70)].  It hands back the dict itself; the model
    returns the dict's contents at that moment. *)
Definition get (index n_cols : Z) : M (t A D) D :=
  fun self =>
    if index <? 0 then (Raise IndexError, self)
    else
      match
        fill (Z.to_nat (index + 1 - len (_data self))) index self
      with
      | (Ok _, self) =>
          match _data self !! Z.to_nat index with
          | Some data =>
              let data := render n_cols data in
              (Ok data,
               Build (name self) (order self) (_loader self)
                 (_source self) (<[Z.to_nat index := data]> (_data self)))
          | None => (Stuck, self)
          end
      | (Raise e, self) => (Raise e, self)
      | (Stuck, self) => (Stuck, self)
      end.

(** [__init__]: the attributes are set, then index 0 is probed; an
    [IndexError] of the probe becomes the constructor's own [error]. *)
Definition init (error : exn) (name : string) (order : option string)
    (loader : LoadScreen) (source : generator A) : result (t A D) :=
  match get 0 70 (Build name order loader source []) with
  | (Ok _, self) => Ok self
  | (Raise IndexError, _) => Raise error
  | (Raise e, _) => Raise e
  | (Stuck, _) => Stuck
  end.

End Cache.

End Listing.

(** [int] to [str], as ['{}'.format] prints it. *)
Definition str (n : Z) : string := NilZero.string_of_int (Z.to_int n).

Module SubredditContent.

Definition t : Type := Listing.t praw_submission submission_data.

(** Lines 418-421: the dict of a pulled submission, with the index that was
    asked for and the post number in front of the title. *)
Definition project (index : Z) (submission : praw_submission)
    : submission_data :=
  let data := strip_praw_submission submission in
  {| s_object := s_object data;
     s_title := str (index + 1) ++ ". " ++ s_title data;
     s_text := s_text data; s_permalink := s_permalink data;
     s_index := Some index;
     s_split_title := s_split_title data;
     s_split_text := s_split_text data;
     s_n_rows := s_n_rows data; s_offset := s_offset data |}.

(** Lines 425-428. *)
Definition render `{TextLayout} (n_cols : Z) (data : submission_data)
    : submission_data :=
  let split_title := wrap_text (s_title data) n_cols in
  {| s_object := s_object data; s_title := s_title data;
     s_text := s_text data; s_permalink := s_permalink data;
     s_index := s_index data;
     s_split_title := Some split_title;
     s_split_text := s_split_text data;
     s_n_rows := Some (len split_title + 3);
     s_offset := Some 0 |}.

(** [SubredditContent.get(index, n_cols=70)] *)
Definition get `{TextLayout} : Z -> Z -> M t submission_data :=
  Listing.get project render.

(** [SubredditContent.__init__(name, submissions, loader, order=None)] *)
Definition init `{TextLayout} (name : string)
    (submissions : generator praw_submission) (loader : LoadScreen)
    (order : option string) : result t :=
  Listing.init project render SubredditError name order loader submissions.

#[global] Instance content `{TextLayout} : Content t submission_data := get.

End SubredditContent.

Module SubscriptionContent.

Definition t : Type := Listing.t praw_subscription subscription_data.

(** Line 471. *)
Definition project (index : Z) (subscription : praw_subscription)
    : subscription_data :=
  strip_praw_subscription subscription.

(** Lines 474-477. *)
Definition render `{TextLayout} (n_cols : Z) (data : subscription_data)
    : subscription_data :=
  let split_title := wrap_text (u_title data) n_cols in
  {| u_object := u_object data; u_name := u_name data;
     u_title := u_title data;
     u_split_title := Some split_title;
     u_n_rows := Some (len split_title + 1);
     u_offset := Some 0 |}.

(** [SubscriptionContent.get(index, n_cols=70)] *)
Definition get `{TextLayout} : Z -> Z -> M t subscription_data :=
  Listing.get project render.

(** [SubscriptionContent.__init__(subscriptions, loader)] *)
Definition init `{TextLayout}
    (subscriptions : generator praw_subscription) (loader : LoadScreen)
    : result t :=
  Listing.init project render SubscriptionError "Subscriptions" None loader
    subscriptions.

#[global] Instance content `{TextLayout} : Content t subscription_data := get.

End SubscriptionContent.

(** ** Vocabulary of the properties *)

(** The keys of a comment dict that [get] never writes. *)
Definition core (d : comment_data)
    : option node * Z * string * option Z * string * option (list loc) :=
  (c_object d, c_level d, c_type d, c_count d, c_body d, c_cache d).

Definition cores (self : SubmissionContent.t) : list _ :=
  core <$> SubmissionContent.store self.

(** The dict [data] once [SubmissionContent.get] has written its display
    keys for a window of [n_cols] columns (lines 260-268). *)
Definition shown `{TextLayout} (self : SubmissionContent.t) (n_cols : Z)
    (data : comment_data) : comment_data :=
  let indent_level :=
    Z.min (c_level data) (SubmissionContent.max_indent_level self) in
  let offset := indent_level * SubmissionContent.indent_size self in
  let data := set_offset offset data in
  if (c_type data =? "Comment")%string then
    let split_body := wrap_text (c_body data) (n_cols - offset) in
    set_n_rows (len split_body + 1) (set_split_body split_body data)
  else set_n_rows 1 data.

(** [d.get('count', 1)] *)
Definition declared_count (d : comment_data) : Z := default 1 (c_count d).

(** Depth and declared count of the dict at an address ([0] at an address
    with no dict). *)
Definition level_at (self : SubmissionContent.t) (l : loc) : Z :=
  from_option c_level 0 (SubmissionContent.store self !! l).

Definition count_at (self : SubmissionContent.t) (l : loc) : Z :=
  from_option declared_count 0 (SubmissionContent.store self !! l).

(** The longest prefix of [ls] whose dicts all lie deeper than [lvl]. *)
Fixpoint deeper_run (self : SubmissionContent.t) (lvl : Z) (ls : list loc)
    : list loc :=
  match ls with
  | [] => []
  | l :: ls =>
      if level_at self l <=? lvl then [] else l :: deeper_run self lvl ls
  end.

Definition sum_counts (self : SubmissionContent.t) (ls : list loc) : Z :=
  foldr (fun l acc => count_at self l + acc) 0 ls.

(** Every address the object holds has a dict behind it, and a dict of type
    ['HiddenComment'] has its cache: what [__init__] sets up and [toggle]
    keeps. *)
Definition valid (self : SubmissionContent.t) (l : loc) : bool :=
  Nat.ltb l (length (SubmissionContent.store self)).

Definition dict_ok (self : SubmissionContent.t) (d : comment_data) : bool :=
  match c_cache d with
  | Some cache => forallb (valid self) cache
  | None => negb (c_type d =? "HiddenComment")%string
  end.

Definition wf (self : SubmissionContent.t) : bool :=
  forallb (valid self) (SubmissionContent._comment_data self)
  && forallb (dict_ok self) (SubmissionContent.store self).

(** What [wf] asks of a dict, read off its [core]. *)
Definition core_fine (n : nat)
    (c : option node * Z * string * option Z * string * option (list loc))
    : bool :=
  match snd c with
  | Some cache => forallb (fun l => Nat.ltb l n) cache
  | None => negb (snd (fst (fst (fst c))) =? "HiddenComment")%string
  end.

(** The attributes of a submission's content other than the comment list and
    the guard. *)
Definition frame (self : SubmissionContent.t) :=
  (SubmissionContent.indent_size self, SubmissionContent.max_indent_level self,
   SubmissionContent.name self, SubmissionContent.order self,
   SubmissionContent._submission self, SubmissionContent._submission_data self).

(** [self'] differs from [self] at most in the display keys of its comment
    dicts: what a [get] at a comment index leaves behind. *)
Definition only_shown (self self' : SubmissionContent.t) : Prop :=
  cores self' = cores self
  /\ SubmissionContent._comment_data self' = SubmissionContent._comment_data self
  /\ frame self' = frame self
  /\ SubmissionContent._loader self' = SubmissionContent._loader self.

(** [self'] has the dicts of [self], key for key, at every address outside
    [touched]. *)
Definition same_dicts_outside (touched : list loc)
    (self self' : SubmissionContent.t) : Prop :=
  forall l, l ∉ touched ->
    SubmissionContent.store self' !! l = SubmissionContent.store self !! l.

(** A generator in the Python sense: an exception is its last answer. *)
Fixpoint raises_last {A} (l : list (answer A)) : bool :=
  match l with
  | [] => true
  | Item _ :: rest => raises_last rest
  | Fails _ :: rest => match rest with [] => true | _ => false end
  end.

(** A run of later calls [get(j, w)], in order: their outcomes and the state
    they leave. *)
Fixpoint get_each {S R} `{!Content S R} (calls : list (Z * Z)) (s : S)
    : list (result R) * S :=
  match calls with
  | [] => ([], s)
  | (j, w) :: calls =>
      let '(r, s) := get j w s in
      let '(rs, s) := get_each calls s in
      (r :: rs, s)
  end.

(** [[hi; hi-1; ...; 0]] for [hi = n - 1]. *)
Fixpoint countdown (n : nat) : list Z :=
  match n with
  | O => []
  | S n => Z.of_nat n :: countdown n
  end.

(** ** Sample data *)

(** A text layout that keeps every text on one line. *)
Definition one_line : TextLayout :=
  {| splitlines := fun s => [s]; wrap := fun s _ => [s] |}.

Definition sample_comment (text : string) : praw_comment :=
  PrawComment text 1 (Some "alice"%string) (Some "bob"%string) None None 0 None.

Definition c1 : node := Comment (sample_comment "c1") (Some []).
Definition c2a : node := Comment (sample_comment "c2a") (Some []).
Definition c2b : node := Comment (sample_comment "c2b") (Some []).
Definition c2 : node := Comment (sample_comment "c2") (Some [c2a; c2b]).
Definition c3 : node := Comment (sample_comment "c3") (Some []).

(** Three top-level comments, the second with two children. *)
Definition sample_forest : list node := [c1; c2; c3].

Definition sample_submission : praw_submission :=
  PrawSubmission "title" "text" "/r/sample/1" sample_forest.

Definition idle : LoadScreen := mkLoadScreen 0 None.

(** The content object of [sample_submission], as [__init__] builds it. *)
Definition sample_content : SubmissionContent.t :=
  SubmissionContent.Build 2 8 "/r/sample/1" None idle sample_submission
    (strip_praw_submission sample_submission)
    [0; 1; 2; 3; 4]%nat
    (map strip_praw_comment [(c1, 0); (c2, 0); (c2a, 1); (c2b, 1); (c3, 0)]).

(** A listing of three submissions whose fourth pull raises. *)
Definition sample_listing : generator praw_submission :=
  Generator
    [Item sample_submission; Item sample_submission; Item sample_submission;
     Fails (Upstream 1)] 0.

Definition sample_subscriptions : generator praw_subscription :=
  Generator
    [Item (PrawSubscription "python" "Python");
     Item (PrawSubscription "coq" "Coq")] 0.

(** The subreddit content over [sample_listing] once indices 0 to 2 have been
    read: three dicts in the store, the raising pull still ahead. *)
Definition sample_subreddit : SubredditContent.t :=
  snd (@SubredditContent.get one_line 2 70
         (Listing.Build "/r/sample" None idle sample_listing [])).

(** The scenario of the specification taken literally: five upstream
    elements, the fourth of which raises.  Indices 0 to 2 have been read. *)
Definition sample_subreddit_five : SubredditContent.t :=
  snd (@SubredditContent.get one_line 2 70
         (Listing.Build "/r/sample" None idle
            (Generator
               [Item sample_submission; Item sample_submission;
                Item sample_submission; Fails (Upstream 1);
                Item sample_submission] 0) [])).

(** The subscription content over [sample_subscriptions], both read. *)
Definition sample_subscription : SubscriptionContent.t :=
  snd (@SubscriptionContent.get one_line 1 70
         (Listing.Build "Subscriptions" None idle sample_subscriptions [])).


(** The content of a submission with one comment and a marker for three
    more. *)
Definition sample_marker_content : SubmissionContent.t :=
  SubmissionContent.Build 2 8 "/r/sample/3" None idle
    (PrawSubmission "title" "text" "/r/sample/3" [c1; MoreComments 3 9])
    (strip_praw_submission
       (PrawSubmission "title" "text" "/r/sample/3" [c1; MoreComments 3 9]))
    [0; 1]%nat
    (map strip_praw_comment [(c1, 0); (MoreComments 3 9, 0)]).

(** ** Python string operations used by [from_name] *)

From Stdlib Require Import Ascii.

Local Open Scope string_scope.

(** [c in chars] *)
Definition char_in (c : Ascii.ascii) (chars : list Ascii.ascii) : bool :=
  existsb (Ascii.eqb c) chars.

(** [s.lstrip(chars)], [s.rstrip(chars)] and [s.strip(chars)] *)
Fixpoint lstrip (chars : list Ascii.ascii) (s : string) : string :=
  match s with
  | EmptyString => EmptyString
  | String c rest => if char_in c chars then lstrip chars rest else s
  end.

Fixpoint rstrip (chars : list Ascii.ascii) (s : string) : string :=
  match s with
  | EmptyString => EmptyString
  | String c rest =>
      match rstrip chars rest with
      | EmptyString =>
          if char_in c chars then EmptyString else String c EmptyString
      | kept => String c kept
      end
  end.

Definition strip (chars : list Ascii.ascii) (s : string) : string :=
  rstrip chars (lstrip chars s).

(** [c in s], for a one-character [c] *)
Fixpoint contains (c : Ascii.ascii) (s : string) : bool :=
  match s with
  | EmptyString => false
  | String c' rest => Ascii.eqb c' c || contains c rest
  end.

(** [s.split(c)], for a one-character separator *)
Fixpoint split (sep : Ascii.ascii) (s : string) : list string :=
  match s with
  | EmptyString => [EmptyString]
  | String c rest =>
      if Ascii.eqb c sep then EmptyString :: split sep rest
      else
        match split sep rest with
        | first :: others => String c first :: others
        | [] => [String c EmptyString]
        end
  end.

(** [s[n:]] *)
Fixpoint slice_from (n : nat) (s : string) : string :=
  match n, s with
  | O, _ => s
  | S n, String _ rest => slice_from n rest
  | S _, EmptyString => EmptyString
  end.

(** ** SubredditContent.from_name *)

(** The listing methods of the content API that [from_name] chooses from. *)
Inductive listing_method : Type :=
| get_front_page
| get_hot
| get_top
| get_rising
| get_new
| get_controversial.

(** The call [from_name] makes to obtain its generator. *)
Inductive request : Type :=
| UserSubmitted (sort : option string)
| Search (query : string) (subreddit : option string) (sort : option string)
| FrontListing (method : listing_method)
| SubredditListing (name : string) (method : listing_method).

(** The session object, as far as [from_name] uses it: whether it is an
    OAuth session, and the generator it hands out for a call. *)
Record reddit_session : Type := RedditSession {
  is_oauth_session : bool;
  listing : request -> generator praw_submission;
}.

(** How [from_name] can end before it constructs the object.
    [exceptions.AccountError] is raised nowhere else in the modelled code. *)
Inductive name_error : Type :=
| TooManyValues       (* ValueError: too many values to unpack *)
| UnrecognizedOrder   (* exceptions.SubredditError *)
| AccountError
| MissingMethod.      (* KeyError of dispatch[order] *)

(** Truth value of an optional string: [None] and [''] are false. *)
Definition truthy (s : option string) : bool :=
  match s with
  | Some EmptyString => false
  | Some _ => true
  | None => false
  end.

(** [order not in ['hot', 'top', 'rising', 'new', 'controversial', None]],
    negated. *)
Definition recognized_order (order : option string) : bool :=
  match order with
  | None => true
  | Some o =>
      existsb (String.eqb o) ["hot"; "top"; "rising"; "new"; "controversial"]
  end.

(** The two [dispatch] dicts of lines 378-395, by key. *)
Definition dispatch_front (order : option string) : option listing_method :=
  match order with
  | None => Some get_front_page
  | Some o =>
      if o =? "hot" then Some get_front_page
      else if o =? "top" then Some get_top
      else if o =? "rising" then Some get_rising
      else if o =? "new" then Some get_new
      else if o =? "controversial" then Some get_controversial
      else None
  end.

Definition dispatch_subreddit (order : option string)
    : option listing_method :=
  match order with
  | None => Some get_hot
  | Some o =>
      if o =? "hot" then Some get_hot
      else if o =? "top" then Some get_top
      else if o =? "rising" then Some get_rising
      else if o =? "new" then Some get_new
      else if o =? "controversial" then Some get_controversial
      else None
  end.

(** Lines 348-356 of [from_name]: the name is cleaned, and an order written
    after a slash is split off; it counts when no order was passed. *)
Definition unpack_name (name : string) (order : option string)
    : name_error + (string * option string) :=
  let name := strip [" "; "/"]%char name in
  let name := if String.prefix "r/" name then slice_from 2 name else name in
  if contains "/" name then
    match split "/" name with
    | [name; name_order] =>
        inr (name, if truthy order then order else Some name_order)
    | _ => inl TooManyValues
    end
  else inr (name, order).

(** Lines 357-396 of [from_name]: the display name, the check of the order,
    and the call that gives the submissions. *)
Definition choose_call (oauth : bool) (query : option string) (name : string)
    (order : option string)
    : name_error + (string * option string * request) :=
  let display_name := "/r/" ++ name in
  if negb (recognized_order order) then inl UnrecognizedOrder
  else if name =? "me" then
    if negb oauth then inl AccountError
    else if truthy order then inr (display_name, order, UserSubmitted order)
    else inr (display_name, order, UserSubmitted None)
  else if truthy query then
    if name =? "front" then
      inr (display_name, order, Search (default "" query) None order)
    else
      inr (display_name, order, Search (default "" query) (Some name) order)
  else if name =? "front" then
    match dispatch_front order with
    | Some method => inr (display_name, order, FrontListing method)
    | None => inl MissingMethod
    end
  else
    match dispatch_subreddit order with
    | Some method => inr (display_name, order, SubredditListing name method)
    | None => inl MissingMethod
    end.

(** Lines 347-396 of [from_name], up to the call. *)
Definition resolve_name (oauth : bool) (name : string)
    (order query : option string)
    : name_error + (string * option string * request) :=
  match unpack_name name order with
  | inl e => inl e
  | inr (name, order) => choose_call oauth query name order
  end.

(** [SubredditContent.from_name(reddit, name, loader, order=None,
    query=None)] *)
Definition from_name `{TextLayout} (reddit : reddit_session) (name : string)
    (loader : LoadScreen) (order query : option string)
    : name_error + result SubredditContent.t :=
  match resolve_name (is_oauth_session reddit) name order query with
  | inl e => inl e
  | inr (display_name, order, call) =>
      inr (SubredditContent.init display_name (listing reddit call) loader
             order)
  end.

Local Close Scope string_scope.

(** *** Vocabulary for names *)

(** Number of occurrences of a character. *)
Fixpoint count_char (c : Ascii.ascii) (s : string) : nat :=
  match s with
  | EmptyString => O
  | String c' rest =>
      ((if Ascii.eqb c' c then 1 else 0) + count_char c rest)%nat
  end.

(** Every character of [s] is one of [chars]. *)
Fixpoint all_in (chars : list Ascii.ascii) (s : string) : bool :=
  match s with
  | EmptyString => true
  | String c rest => char_in c chars && all_in chars rest
  end.

(** [s] is not empty and its first (last) character is none of [chars]. *)
Definition first_kept (chars : list Ascii.ascii) (s : string) : bool :=
  match s with
  | EmptyString => false
  | String c _ => negb (char_in c chars)
  end.

Fixpoint last_kept (chars : list Ascii.ascii) (s : string) : bool :=
  match s with
  | EmptyString => false
  | String c EmptyString => negb (char_in c chars)
  | String _ rest => last_kept chars rest
  end.

(** The name as [from_name] sees it after lines 348-350. *)
Definition cleaned_name (name : string) : string :=
  let name := strip [" "; "/"]%char name in
  if String.prefix "r/" name then slice_from 2 name else name.

(** A name that [from_name] does not clean any further: it neither starts
    nor ends with a blank or a slash, and does not start with [r/]. *)
Definition bare (name : string) : bool :=
  first_kept [" "; "/"]%char name
  && last_kept [" "; "/"]%char name
  && negb (String.prefix "r/" name).

(** A bare name without a slash: one path segment. *)
Definition segment (s : string) : bool :=
  bare s && negb (contains "/" s).

(** ** The url of a submission (strip_praw_submission, lines 115-116 and
    142-153) *)

(** [s.split(sep)] for a separator of one character or more: the separator
    is looked for from left to right, and a match is skipped as a whole.
    [skip] counts the characters of the current match still to skip. *)
Fixpoint split_str_from (sep : string) (skip : nat) (s : string)
    : list string :=
  match s with
  | EmptyString => [EmptyString]
  | String c rest =>
      match skip with
      | S skip => split_str_from sep skip rest
      | O =>
          if String.prefix sep s then
            EmptyString :: split_str_from sep (String.length sep - 1) rest
          else
            match split_str_from sep 0 rest with
            | first :: others => String c first :: others
            | [] => [String c EmptyString]
            end
      end
  end.

Definition split_str (sep s : string) : list string :=
  split_str_from sep 0 s.

(** [parts[-1]] of a list that is not empty. *)
Definition last_part (parts : list string) : string :=
  List.last parts EmptyString.

(** The strings that [https?://(www\.)?(np\.)?redd(it\.com|\.it)/r/] matches.
    [re.match] anchors the pattern at the start of the url, and the [.*]
    that ends it matches anything, the empty string included: a url matches
    when it starts with one of these. *)
Definition reddit_link_heads : list string :=
  flat_map (fun scheme =>
    flat_map (fun www =>
      flat_map (fun np =>
        map (fun host =>
               (scheme ++ "://" ++ www ++ np ++ host ++ "/r/")%string)
          ["reddit.com"%string; "redd.it"%string])
        ["np."%string; ""%string])
      ["www."%string; ""%string])
    ["http"%string; "https"%string].

(** [reddit_link.match(url)], as a truth value *)
Definition reddit_link_match (url : string) : bool :=
  existsb (fun head => String.prefix head url) reddit_link_heads.

(** Lines 142-153: the keys ['url_type'] and ['url'], from the permalink,
    the link and the name of the subreddit. *)
Definition classify_url (permalink url_full subreddit : string)
    : result (string * string) :=
  if (last_part (split_str "/r/" permalink)
      =? last_part (split_str "/r/" url_full))%string
  then Ok ("selfpost"%string, ("self." ++ subreddit)%string)
  else if reddit_link_match url_full then
    match split "/" url_full !! 4%nat with
    | Some name => Ok ("x-post"%string, ("self." ++ name)%string)
    | None => Raise IndexError
    end
  else Ok ("external"%string, url_full).

(** A string without its last character. *)
Fixpoint chop (s : string) : string :=
  match s with
  | EmptyString => EmptyString
  | String _ EmptyString => EmptyString
  | String c rest => String c (chop rest)
  end.

(** ** Content.humanize_timestamp *)

(** [Content.humanize_timestamp(utc_timestamp, verbose=False)], from the
    whole seconds elapsed since the timestamp, [int(timedelta.total_seconds())]:
    the clock is read outside.  [days // 30.4] is a floating-point division;
    the model takes its integer value as given, [months_of days]. *)
Definition humanize_timestamp (months_of : Z -> Z) (seconds : Z)
    (verbose : bool) : string :=
  if seconds <? 60 then
    if verbose then "moments ago"%string else "0min"%string
  else
    let minutes := seconds / 60 in
    if minutes <? 60 then
      if verbose then (str minutes ++ " minutes ago")%string
      else (str minutes ++ "min")%string
    else
      let hours := minutes / 60 in
      if hours <? 24 then
        if verbose then (str hours ++ " hours ago")%string
        else (str hours ++ "hr")%string
      else
        let days := hours / 24 in
        if days <? 30 then
          if verbose then (str days ++ " days ago")%string
          else (str days ++ "day")%string
        else
          let months := months_of days in
          if months <? 12 then
            if verbose then (str months ++ " months ago")%string
            else (str months ++ "month")%string
          else
            let years := months / 12 in
            if verbose then (str years ++ " years ago")%string
            else (str years ++ "yr")%string.

(** ** More sample data *)

(** An OAuth session whose every call gives [sample_listing]. *)
Definition sample_reddit : reddit_session :=
  RedditSession true (fun _ => sample_listing).

(** [sample_listing] before anything is read. *)
Definition fresh_subreddit : SubredditContent.t :=
  Listing.Build "/r/sample" None idle sample_listing [].

(** A submission whose last top-level comment has unset replies. *)
Definition broken_submission : praw_submission :=
  PrawSubmission "title" "text" "/r/sample/4"
    (sample_forest ++ [Comment (sample_comment "c4") None]).

(** * Properties *)

(** *** The loop against the preorder walk *)

Lemma node_size_replies c l :
  node_size (Comment c (Some l)) = S (forest_size l).
Proof. reflexivity. Qed.

Lemma preorder_replies lvl c l :
  preorder lvl (Comment c (Some l)) =
  (Comment c (Some l), lvl) :: preorder_forest (lvl + 1) l.
Proof. reflexivity. Qed.

Lemma well_formed_replies c l :
  well_formed (Comment c (Some l)) = well_formed_forest l.
Proof. reflexivity. Qed.

Lemma node_size_pos n : (1 <= node_size n)%nat.
Proof. destruct n as [c [l|]|]; simpl; lia. Qed.

Lemma stack_size_app s1 s2 :
  stack_size (s1 ++ s2) = (stack_size s1 + stack_size s2)%nat.
Proof.
  unfold stack_size. induction s1 as [|x r IH]; simpl; [reflexivity|].
  rewrite IH. lia.
Qed.

Lemma stack_size_set_nested_level lvl l :
  stack_size (set_nested_level lvl l) = forest_size l.
Proof.
  unfold stack_size, set_nested_level. rewrite map_map. simpl.
  now rewrite map_id.
Qed.

Lemma preorder_stack_app s1 s2 :
  preorder_stack (s1 ++ s2) = preorder_stack s1 ++ preorder_stack s2.
Proof.
  induction s1 as [|x r IH]; simpl; [reflexivity|].
  now rewrite IH, app_assoc.
Qed.

Lemma preorder_stack_set_nested_level lvl l :
  preorder_stack (set_nested_level lvl l) = preorder_forest lvl l.
Proof.
  induction l as [|x r IH]; simpl; [reflexivity|]. now rewrite IH.
Qed.

Lemma well_formed_stack_set_nested_level lvl l :
  well_formed_stack (set_nested_level lvl l) = well_formed_forest l.
Proof.
  induction l as [|x r IH]; simpl; [reflexivity|]. now rewrite IH.
Qed.

Lemma well_formed_stack_app s1 s2 :
  well_formed_stack (s1 ++ s2) = well_formed_stack s1 && well_formed_stack s2.
Proof. apply forallb_app. Qed.

Lemma flatten_loop_preorder fuel : forall stack retval,
  well_formed_stack stack = true ->
  (stack_size stack <= fuel)%nat ->
  flatten_loop fuel stack retval = Ok (retval ++ preorder_stack stack).
Proof.
  induction fuel as [|fuel IH]; intros [|[item lvl] stack] retval Hwf Hsz.
  - simpl. now rewrite app_nil_r.
  - exfalso. pose proof (node_size_pos item).
    unfold stack_size in Hsz. simpl in Hsz. lia.
  - simpl. now rewrite app_nil_r.
  - change (well_formed_stack ((item, lvl) :: stack))
      with (well_formed item && well_formed_stack stack) in Hwf.
    apply andb_prop in Hwf as [Hitem Hrest].
    change (stack_size ((item, lvl) :: stack))
      with (node_size item + stack_size stack)%nat in Hsz.
    destruct item as [c [nested|]|count handle].
    + rewrite node_size_replies in Hsz.
      rewrite well_formed_replies in Hitem.
      cbn [flatten_loop]. rewrite IH.
      * rewrite preorder_stack_app, preorder_stack_set_nested_level.
        cbn [preorder_stack foldr fst snd]. rewrite preorder_replies.
        now rewrite <- app_assoc.
      * rewrite well_formed_stack_app, well_formed_stack_set_nested_level.
        now rewrite Hitem, Hrest.
      * rewrite stack_size_app, stack_size_set_nested_level. lia.
    + discriminate Hitem.
    + simpl in Hitem. cbn [flatten_loop].
      destruct (count =? 0); [discriminate Hitem|].
      rewrite IH; [|assumption|simpl in Hsz; lia].
      cbn [preorder_stack foldr fst snd preorder].
      now rewrite <- app_assoc.
Qed.

(** Enough fuel: the loop never stops for lack of it, whatever the input. *)
Lemma flatten_loop_fuel fuel : forall stack retval,
  (stack_size stack <= fuel)%nat ->
  flatten_loop fuel stack retval <> Stuck.
Proof.
  induction fuel as [|fuel IH]; intros [|[item lvl] stack] retval Hsz;
    try (simpl; discriminate).
  - exfalso. pose proof (node_size_pos item).
    unfold stack_size in Hsz. simpl in Hsz. lia.
  - change (stack_size ((item, lvl) :: stack))
      with (node_size item + stack_size stack)%nat in Hsz.
    destruct item as [c [nested|]|count handle]; cbn [flatten_loop].
    + apply IH. rewrite node_size_replies in Hsz.
      rewrite stack_size_app, stack_size_set_nested_level. lia.
    + destruct stack as [|[adopted lvl'] stack]; [discriminate|].
      apply IH. unfold stack_size in *. simpl in *. lia.
    + simpl in Hsz. destruct (count =? 0); apply IH; lia.
Qed.

Lemma flatten_comments_returns comments root_level :
  flatten_comments comments root_level <> Stuck.
Proof. apply flatten_loop_fuel. lia. Qed.

(** The loop ends with a list, or with the [IndexError] of [stack.pop(0)]. *)
Lemma flatten_loop_ends fuel : forall stack retval,
  (stack_size stack <= fuel)%nat ->
  (exists out, flatten_loop fuel stack retval = Ok out)
  \/ flatten_loop fuel stack retval = Raise IndexError.
Proof.
  induction fuel as [|fuel IH]; intros [|[item lvl] stack] retval Hsz;
    try (left; eexists; reflexivity).
  - exfalso. pose proof (node_size_pos item).
    unfold stack_size in Hsz. simpl in Hsz. lia.
  - change (stack_size ((item, lvl) :: stack))
      with (node_size item + stack_size stack)%nat in Hsz.
    destruct item as [c [nested|]|count handle]; cbn [flatten_loop].
    + apply IH. rewrite node_size_replies in Hsz.
      rewrite stack_size_app, stack_size_set_nested_level. lia.
    + destruct stack as [|[adopted lvl'] stack]; [now right|].
      apply IH. unfold stack_size in *. simpl in *. lia.
    + simpl in Hsz. destruct (count =? 0); apply IH; lia.
Qed.

(** No marker that counts zero is ever appended to the output. *)
Lemma flatten_loop_no_zero_marker fuel : forall stack retval out,
  Forall (fun e => is_zero_marker (fst e) = false) retval ->
  flatten_loop fuel stack retval = Ok out ->
  Forall (fun e => is_zero_marker (fst e) = false) out.
Proof.
  induction fuel as [|fuel IH]; intros [|[item lvl] stack] retval out Hacc Hrun;
    simpl in Hrun; try discriminate; try (injection Hrun as <-; assumption).
  destruct item as [c [nested|]|count handle].
  - eapply IH; [|exact Hrun]. apply Forall_app; split; [assumption|].
    now repeat constructor.
  - destruct stack as [|[adopted lvl'] stack]; [discriminate|].
    eapply IH; [|exact Hrun]. apply Forall_app; split; [assumption|].
    now repeat constructor.
  - destruct (count =? 0) eqn:Hc; [now eapply IH; eauto|].
    eapply IH; [|exact Hrun]. apply Forall_app; split; [assumption|].
    repeat constructor. exact Hc.
Qed.

Lemma flatten_comments_no_zero_marker comments root_level out :
  flatten_comments comments root_level = Ok out ->
  Forall (fun e => is_zero_marker (fst e) = false) out.
Proof. apply flatten_loop_no_zero_marker. constructor. Qed.

(** ** Flattening *)

(** C4.  On a well-formed forest (every reply list set, no marker counting
    zero) [flatten_comments] returns the preorder walk of the forest: the
    roots at [root_level], every other node one level below its parent,
    depth first and left to right. *)
Theorem flatten_comments_preorder comments root_level :
  well_formed_forest comments = true ->
  flatten_comments comments root_level =
  Ok (preorder_forest root_level comments).
Proof.
  intros Hwf. unfold flatten_comments.
  rewrite flatten_loop_preorder.
  - now rewrite preorder_stack_set_nested_level.
  - now rewrite well_formed_stack_set_nested_level.
  - lia.
Qed.

(** The scenario of the specification: [c1; c2 (c2a, c2b); c3] flattens to
    [c1; c2; c2a; c2b; c3] with depths [0; 0; 1; 1; 0]. *)
Lemma flatten_comments_preorder_witness :
  flatten_comments sample_forest 0 =
  Ok [(c1, 0); (c2, 0); (c2a, 1); (c2b, 1); (c3, 0)].
Proof. apply (flatten_comments_preorder sample_forest 0). reflexivity. Defined.

(** C5, where the code departs from it.  A comment whose [_replies] is unset
    and that is the last element of the work list makes [stack.pop(0)] raise:
    [flatten_comments] ends in [IndexError]. *)
Theorem flatten_comments_unset_replies_last c root_level :
  flatten_comments [Comment c None] root_level = Raise IndexError.
Proof. reflexivity. Qed.

(** The same at the end of a longer work list, below a parent. *)
Example flatten_comments_unset_replies_nested :
  flatten_comments
    [c1; Comment (sample_comment "c2") (Some [Comment (sample_comment "x") None])]
    0 = Raise IndexError.
Proof. reflexivity. Qed.

(** The two repairs, where they apply: a marker counting zero is dropped, an
    unset [_replies] adopts the next element of the work list, one level
    down. *)
Example flatten_comments_repairs :
  flatten_comments
    [MoreComments 0 1; Comment (sample_comment "p") None; MoreComments 3 2; c3]
    0 =
  Ok [(Comment (sample_comment "p") (Some [MoreComments 3 2]), 0);
      (MoreComments 3 2, 1); (c3, 0)].
Proof. reflexivity. Qed.

(** ** SubmissionContent: what [get] does *)

Section SubmissionGet.
Context `{TextLayout}.

Lemma core_shown self n_cols d : core (shown self n_cols d) = core d.
Proof.
  unfold shown. cbn [set_offset c_type].
  now destruct (c_type d =? "Comment")%string.
Qed.

Lemma shown_shown self n_cols d :
  shown self n_cols (shown self n_cols d) = shown self n_cols d.
Proof.
  unfold shown. cbn [set_offset c_type c_level c_body].
  destruct (c_type d =? "Comment")%string eqn:Ht; cbn; rewrite ?Ht; reflexivity.
Qed.

Lemma get_comment self index n_cols l d :
  0 <= index ->
  SubmissionContent._comment_data self !! Z.to_nat index = Some l ->
  SubmissionContent.store self !! l = Some d ->
  SubmissionContent.get index n_cols self =
  (Ok (CommentRef l),
   SubmissionContent.set_store
     (<[l := shown self n_cols d]> (SubmissionContent.store self)) self).
Proof.
  intros Hi Hl Hd. unfold SubmissionContent.get.
  destruct (index <? -1) eqn:E1; [lia|].
  destruct (index =? -1) eqn:E2; [lia|].
  now rewrite Hl, Hd.
Qed.

Lemma get_out_of_range self index n_cols :
  0 <= index ->
  SubmissionContent._comment_data self !! Z.to_nat index = None ->
  SubmissionContent.get index n_cols self = (Raise IndexError, self).
Proof.
  intros Hi Hl. unfold SubmissionContent.get.
  destruct (index <? -1) eqn:E1; [lia|].
  destruct (index =? -1) eqn:E2; [lia|].
  now rewrite Hl.
Qed.

Lemma cores_set_store_shown self n_cols l d :
  SubmissionContent.store self !! l = Some d ->
  cores (SubmissionContent.set_store
           (<[l := shown self n_cols d]> (SubmissionContent.store self)) self)
  = cores self.
Proof.
  intros Hd. unfold cores. cbn. rewrite list_fmap_insert, core_shown.
  apply list_insert_id. now rewrite list_lookup_fmap, Hd.
Qed.

Lemma cores_lookup s1 s2 l d1 :
  cores s1 = cores s2 ->
  SubmissionContent.store s1 !! l = Some d1 ->
  exists d2, SubmissionContent.store s2 !! l = Some d2 /\ core d2 = core d1.
Proof.
  intros Hc Hd.
  assert (cores s2 !! l = Some (core d1)) as Hl.
  { rewrite <- Hc. unfold cores. now rewrite list_lookup_fmap, Hd. }
  unfold cores in Hl. rewrite list_lookup_fmap in Hl.
  destruct (SubmissionContent.store s2 !! l) as [d2|]; [|discriminate].
  exists d2. split; [reflexivity|]. cbn in Hl. congruence.
Qed.

Lemma cores_length s1 s2 :
  cores s1 = cores s2 ->
  length (SubmissionContent.store s1) = length (SubmissionContent.store s2).
Proof.
  intros Hc. apply (f_equal length) in Hc. unfold cores in Hc.
  now rewrite !length_fmap in Hc.
Qed.

Lemma level_at_cores s1 s2 l :
  cores s1 = cores s2 -> level_at s1 l = level_at s2 l.
Proof.
  intros Hc. unfold level_at.
  destruct (SubmissionContent.store s1 !! l) as [d1|] eqn:E1.
  - destruct (cores_lookup _ _ _ _ Hc E1) as (d2 & -> & Hcore).
    cbn. unfold core in Hcore. congruence.
  - apply lookup_ge_None in E1. rewrite (cores_length _ _ Hc) in E1.
    apply lookup_ge_None in E1. now rewrite E1.
Qed.

Lemma count_at_cores s1 s2 l :
  cores s1 = cores s2 -> count_at s1 l = count_at s2 l.
Proof.
  intros Hc. unfold count_at.
  destruct (SubmissionContent.store s1 !! l) as [d1|] eqn:E1.
  - destruct (cores_lookup _ _ _ _ Hc E1) as (d2 & -> & Hcore).
    cbn. unfold declared_count, core in *. congruence.
  - apply lookup_ge_None in E1. rewrite (cores_length _ _ Hc) in E1.
    apply lookup_ge_None in E1. now rewrite E1.
Qed.

Lemma deeper_run_cores s1 s2 lvl ls :
  cores s1 = cores s2 -> deeper_run s1 lvl ls = deeper_run s2 lvl ls.
Proof.
  intros Hc. induction ls as [|l ls IH]; [reflexivity|].
  cbn. now rewrite (level_at_cores _ _ l Hc), IH.
Qed.

Lemma sum_counts_cores s1 s2 ls :
  cores s1 = cores s2 -> sum_counts s1 ls = sum_counts s2 ls.
Proof.
  intros Hc. unfold sum_counts. induction ls as [|l ls IH]; [reflexivity|].
  cbn [foldr]. now rewrite (count_at_cores _ _ l Hc), IH.
Qed.

(** The longest deeper prefix is a prefix. *)
Lemma deeper_run_prefix self lvl ls :
  deeper_run self lvl ls ++ drop (length (deeper_run self lvl ls)) ls = ls.
Proof.
  induction ls as [|l ls IH]; [reflexivity|]. cbn.
  destruct (level_at self l <=? lvl); [reflexivity|].
  cbn. now rewrite IH.
Qed.

Lemma deeper_run_deeper self lvl ls :
  Forall (fun l => lvl < level_at self l) (deeper_run self lvl ls).
Proof.
  induction ls as [|l ls IH]; cbn; [constructor|].
  destruct (level_at self l <=? lvl) eqn:E; constructor; [lia|assumption].
Qed.

Lemma deeper_run_maximal self lvl ls :
  match drop (length (deeper_run self lvl ls)) ls with
  | [] => True
  | l :: _ => level_at self l <= lvl
  end.
Proof.
  induction ls as [|l ls IH]; cbn; [exact I|].
  destruct (level_at self l <=? lvl) eqn:E; cbn; [lia|assumption].
Qed.

End SubmissionGet.

(** ** SubmissionContent: hiding a comment *)

Section SubmissionToggle.
Context `{TextLayout}.

Lemma only_shown_refl self : only_shown self self.
Proof. now repeat split. Qed.

Lemma only_shown_trans s1 s2 s3 :
  only_shown s1 s2 -> only_shown s2 s3 -> only_shown s1 s3.
Proof.
  intros (?&?&?&?) (?&?&?&?). repeat split; congruence.
Qed.

Lemma only_shown_get_comment self n_cols l d :
  SubmissionContent.store self !! l = Some d ->
  only_shown self
    (SubmissionContent.set_store
       (<[l := shown self n_cols d]> (SubmissionContent.store self)) self).
Proof.
  intros Hd. repeat split. now apply cores_set_store_shown.
Qed.

Lemma valid_lookup self l :
  valid self l = true -> exists d, SubmissionContent.store self !! l = Some d.
Proof.
  unfold valid. intros Hl. apply Nat.ltb_lt in Hl.
  apply lookup_lt_is_Some_2 in Hl. destruct Hl as [d Hd]. now exists d.
Qed.

Lemma valid_cores s1 s2 l : cores s1 = cores s2 -> valid s1 l = valid s2 l.
Proof. intros Hc. unfold valid. now rewrite (cores_length _ _ Hc). Qed.

Lemma level_at_lookup self l d :
  SubmissionContent.store self !! l = Some d -> c_level d = level_at self l.
Proof. intros Hd. unfold level_at. now rewrite Hd. Qed.

Lemma count_at_lookup self l d :
  SubmissionContent.store self !! l = Some d ->
  default 1 (c_count d) = count_at self l.
Proof. intros Hd. unfold count_at. now rewrite Hd. Qed.

(** The loop of [toggle]: from [index] on it collects the longest run of
    dicts deeper than the one being hidden, adds up their declared counts,
    and leaves the object as it was up to display keys. *)
Lemma hide_loop_run n_cols data fuel : forall self index count cache,
  0 <= index ->
  forallb (valid self) (SubmissionContent._comment_data self) = true ->
  valid self data = true ->
  (length (SubmissionContent._comment_data self) - Z.to_nat index < fuel)%nat ->
  let run :=
    deeper_run self (level_at self data)
      (drop (Z.to_nat index) (SubmissionContent._comment_data self)) in
  exists self',
    SubmissionContent.hide_loop fuel data index n_cols count cache self =
    (Ok (count + sum_counts self run, cache ++ run), self')
    /\ only_shown self self'
    /\ same_dicts_outside
         (take (S (length run))
            (drop (Z.to_nat index) (SubmissionContent._comment_data self)))
         self self'.
Proof.
  induction fuel as [|fuel IH]; intros self index count cache Hi Hcd Hdata Hfuel;
    [lia|].
  cbn zeta. cbn [SubmissionContent.hide_loop]. unfold iterate_next.
  change (1 <? 0) with false. cbn [andb].
  unfold get, SubmissionContent.content.
  destruct (SubmissionContent._comment_data self !! Z.to_nat index)
    as [l|] eqn:Hl.
  - assert (valid self l = true) as Hvl.
    { rewrite forallb_forall in Hcd. apply Hcd.
      apply list_elem_of_In. eapply list_elem_of_lookup_2. exact Hl. }
    destruct (valid_lookup _ _ Hvl) as [d Hd].
    rewrite (get_comment self index n_cols l d Hi Hl Hd).
    pose proof (only_shown_get_comment self n_cols l d Hd) as Hshown.
    set (self1 := SubmissionContent.set_store _ self) in *.
    destruct Hshown as (Hc & Hcd1 & Hfr & Hld).
    assert (valid self1 l = true) as Hvl1 by now rewrite (valid_cores _ _ l Hc).
    assert (valid self1 data = true) as Hvd1
      by now rewrite (valid_cores _ _ data Hc).
    destruct (valid_lookup _ _ Hvl1) as [d1 Hd1].
    destruct (valid_lookup _ _ Hvd1) as [dat1 Hdat1].
    rewrite Hd1, Hdat1.
    rewrite (level_at_lookup _ _ _ Hd1), (level_at_lookup _ _ _ Hdat1).
    rewrite (count_at_lookup _ _ _ Hd1).
    rewrite !(level_at_cores _ _ _ Hc), (count_at_cores _ _ _ Hc).
    rewrite (drop_S _ _ _ Hl). cbn [deeper_run].
    destruct (level_at self l <=? level_at self data) eqn:Hcmp.
    + exists self1. split; [|split; [now repeat split|]].
      * cbn. now rewrite Z.add_0_r, app_nil_r.
      * intros l' Hl'. cbn in Hl'. apply not_elem_of_cons in Hl' as [Hne _].
        unfold self1. cbn. now apply list_lookup_insert_ne.
    + destruct (IH self1 (index + 1) (count + count_at self l) (cache ++ [l]))
        as (self' & Hrun & Hshown' & Hout'); try assumption; try lia.
      * rewrite Hcd1. unfold valid in *. now rewrite (cores_length _ _ Hc).
      * rewrite Hcd1. apply lookup_lt_Some in Hl. lia.
      * exists self'. split.
        -- rewrite Hrun. rewrite Hcd1.
           replace (Z.to_nat (index + 1)) with (S (Z.to_nat index)) by lia.
           rewrite (level_at_cores _ _ data Hc).
           rewrite (deeper_run_cores _ _ _ _ Hc), (sum_counts_cores _ _ _ Hc).
           cbn [sum_counts foldr]. rewrite <- app_assoc. cbn [app].
           unfold sum_counts. now rewrite Z.add_assoc.
        -- split; [eapply only_shown_trans; [|exact Hshown']; now repeat split|].
           intros l' Hl'. cbn [length take] in Hl'.
           apply not_elem_of_cons in Hl' as [Hne Hl'].
           rewrite Hout'.
           ++ unfold self1. cbn. now apply list_lookup_insert_ne.
           ++ rewrite Hcd1.
              replace (Z.to_nat (index + 1)) with (S (Z.to_nat index)) by lia.
              rewrite (level_at_cores _ _ data Hc).
              now rewrite (deeper_run_cores _ _ _ _ Hc).
  - rewrite (get_out_of_range self index n_cols Hi Hl).
    apply lookup_ge_None in Hl. rewrite (drop_ge _ _ Hl).
    exists self. split; [|split; [apply only_shown_refl|now intros l' _]].
    cbn. now rewrite Z.add_0_r, app_nil_r.
Qed.

Lemma shown_type self n_cols d : c_type (shown self n_cols d) = c_type d.
Proof. pose proof (core_shown self n_cols d) as E. unfold core in E. congruence. Qed.

Lemma store_lookup_shown self n_cols l d :
  SubmissionContent.store self !! l = Some d ->
  SubmissionContent.store
    (SubmissionContent.set_store
       (<[l := shown self n_cols d]> (SubmissionContent.store self)) self) !! l
  = Some (shown self n_cols d).
Proof.
  intros Hd. cbn. apply list_lookup_insert_eq. now apply lookup_lt_Some in Hd.
Qed.

(** [toggle] at a comment: the comment and the run below it are replaced by
    one new dict of type ['HiddenComment']. *)
Lemma toggle_hide reply index n_cols self l d :
  forallb (valid self) (SubmissionContent._comment_data self) = true ->
  0 <= index ->
  SubmissionContent._comment_data self !! Z.to_nat index = Some l ->
  SubmissionContent.store self !! l = Some d ->
  c_type d = "Comment"%string ->
  let run :=
    deeper_run self (c_level d)
      (drop (S (Z.to_nat index)) (SubmissionContent._comment_data self)) in
  exists self1,
    SubmissionContent.toggle reply index n_cols self = (Ok tt, self1)
    /\ SubmissionContent._comment_data self1 =
       take (Z.to_nat index) (SubmissionContent._comment_data self)
       ++ [length (SubmissionContent.store self)]
       ++ drop (S (Z.to_nat index) + length run)
            (SubmissionContent._comment_data self)
    /\ cores self1 =
       cores self
       ++ [(None, c_level d, "HiddenComment"%string,
            Some (1 + sum_counts self run), "Hidden"%string, Some (l :: run))]
    /\ frame self1 = frame self
    /\ SubmissionContent._loader self1 = SubmissionContent._loader self
    /\ (forall l' d',
          SubmissionContent.store self !! l' = Some d' ->
          l' ∉ l :: take (S (length run))
                      (drop (S (Z.to_nat index))
                         (SubmissionContent._comment_data self)) ->
          SubmissionContent.store self1 !! l' = Some d').
Proof.
  intros Hcd Hi Hl Hd Ht run.
  unfold SubmissionContent.toggle. unfold bind at 1.
  rewrite (get_comment self index 70 l d Hi Hl Hd).
  pose proof (only_shown_get_comment self 70 l d Hd) as Hshown0.
  pose proof (store_lookup_shown self 70 l d Hd) as Hd0.
  set (self0 := SubmissionContent.set_store _ self) in *.
  unfold bind at 1. unfold SubmissionContent.read at 1. rewrite Hd0.
  rewrite shown_type, Ht. cbn [String.eqb Ascii.eqb Bool.eqb].
  unfold bind at 1, gets at 1.
  destruct Hshown0 as (Hc0 & Hcd0 & Hfr0 & Hld0).
  assert (valid self l = true) as Hvl.
  { unfold valid. apply Nat.ltb_lt. now apply lookup_lt_Some in Hd. }
  destruct (hide_loop_run n_cols l
              (S (length (SubmissionContent._comment_data self0)))
              self0 (index + 1) 1 [l])
    as (self' & Hrun & Hshown' & Hout'); [lia| | |lia|].
  { rewrite Hcd0. unfold valid in *. now rewrite (cores_length _ _ Hc0). }
  { now rewrite (valid_cores _ _ l Hc0). }
  unfold bind at 1. rewrite Hrun.
  destruct Hshown' as (Hc' & Hcd' & Hfr' & Hld').
  assert (cores self' = cores self) as Hc by congruence.
  assert (valid self' l = true) as Hvl' by now rewrite (valid_cores _ _ l Hc).
  destruct (valid_lookup _ _ Hvl') as [d' Hd'].
  unfold bind at 1, SubmissionContent.read at 1. rewrite Hd'.
  unfold bind at 1, SubmissionContent.alloc at 1, modify.
  rewrite (level_at_lookup _ _ _ Hd'), (level_at_cores _ _ l Hc).
  rewrite <- (level_at_lookup _ _ _ Hd).
  rewrite (level_at_cores _ _ l Hc0), <- (level_at_lookup _ _ _ Hd).
  rewrite (level_at_cores _ _ l Hc0), <- (level_at_lookup _ _ _ Hd) in Hout'.
  rewrite Hcd0, (deeper_run_cores _ _ _ _ Hc0) in Hout'.
  rewrite Hcd0, (deeper_run_cores _ _ _ _ Hc0), (sum_counts_cores _ _ _ Hc0).
  replace (Z.to_nat (index + 1)) with (S (Z.to_nat index)) in * by lia.
  fold run in Hout'. fold run.
  eexists. split; [reflexivity|].
  split; [|split; [|split; [|split]]].
  - cbn [SubmissionContent._comment_data SubmissionContent.set_comment_data
         SubmissionContent.set_store].
    rewrite Hcd', Hcd0, (cores_length _ _ Hc). unfold splice, len.
    do 2 f_equal. f_equal. rewrite length_app. cbn [length]. lia.
  - unfold cores.
    cbn [SubmissionContent.store SubmissionContent.set_comment_data
         SubmissionContent.set_store].
    rewrite fmap_app. fold (cores self'). now rewrite Hc.
  - unfold frame in *. cbn in *. congruence.
  - cbn. congruence.
  - intros k dk Hdk Hk. apply not_elem_of_cons in Hk as [Hne Hk].
    cbn [SubmissionContent.store SubmissionContent.set_comment_data
         SubmissionContent.set_store].
    apply lookup_app_l_Some. rewrite (Hout' k Hk).
    unfold self0. cbn. rewrite list_lookup_insert_ne by congruence.
    exact Hdk.
Qed.

Lemma shown_cache self n_cols d : c_cache (shown self n_cols d) = c_cache d.
Proof. pose proof (core_shown self n_cols d) as E. unfold core in E. congruence. Qed.

(** [toggle] at a hidden comment: the dict is replaced by its cache. *)
Lemma toggle_unhide reply index n_cols self h hd cache :
  0 <= index ->
  SubmissionContent._comment_data self !! Z.to_nat index = Some h ->
  SubmissionContent.store self !! h = Some hd ->
  c_type hd = "HiddenComment"%string ->
  c_cache hd = Some cache ->
  exists self1,
    SubmissionContent.toggle reply index n_cols self = (Ok tt, self1)
    /\ SubmissionContent._comment_data self1 =
       take (Z.to_nat index) (SubmissionContent._comment_data self)
       ++ cache
       ++ drop (S (Z.to_nat index)) (SubmissionContent._comment_data self)
    /\ cores self1 = cores self
    /\ frame self1 = frame self
    /\ SubmissionContent._loader self1 = SubmissionContent._loader self
    /\ (forall k, k <> h ->
          SubmissionContent.store self1 !! k =
          SubmissionContent.store self !! k).
Proof.
  intros Hi Hl Hd Ht Hcache.
  unfold SubmissionContent.toggle. unfold bind at 1.
  rewrite (get_comment self index 70 h hd Hi Hl Hd).
  pose proof (only_shown_get_comment self 70 h hd Hd) as Hshown0.
  pose proof (store_lookup_shown self 70 h hd Hd) as Hd0.
  set (self0 := SubmissionContent.set_store _ self) in *.
  unfold bind at 1. unfold SubmissionContent.read at 1. rewrite Hd0.
  rewrite shown_type, Ht, shown_cache, Hcache.
  cbn [String.eqb Ascii.eqb Bool.eqb]. unfold modify.
  destruct Hshown0 as (Hc0 & Hcd0 & Hfr0 & Hld0).
  eexists. split; [reflexivity|].
  split; [|split; [|split; [|split]]]; try assumption.
  - cbn [SubmissionContent._comment_data SubmissionContent.set_comment_data].
    rewrite Hcd0. unfold splice. do 3 f_equal. lia.
  - intros k Hk. unfold self0. cbn. now apply list_lookup_insert_ne.
Qed.

(** [toggle] at a marker whose fetch raised: nothing is spliced. *)
Lemma toggle_more_failed e index n_cols self l d :
  0 <= index ->
  SubmissionContent._comment_data self !! Z.to_nat index = Some l ->
  SubmissionContent.store self !! l = Some d ->
  c_type d = "MoreComments"%string ->
  swallowed e = true ->
  exists r self1,
    SubmissionContent.toggle (FetchRaised e) index n_cols self = (r, self1)
    /\ (depth (SubmissionContent._loader self) = O ->
        r = Ok tt /\ exception (SubmissionContent._loader self1) = Some e)
    /\ SubmissionContent._comment_data self1 =
       SubmissionContent._comment_data self
    /\ cores self1 = cores self
    /\ frame self1 = frame self.
Proof.
  intros Hi Hl Hd Ht He.
  unfold SubmissionContent.toggle. unfold bind at 1.
  rewrite (get_comment self index 70 l d Hi Hl Hd).
  pose proof (only_shown_get_comment self 70 l d Hd) as Hshown0.
  pose proof (store_lookup_shown self 70 l d Hd) as Hd0.
  set (self0 := SubmissionContent.set_store _ self) in *.
  unfold bind at 1. unfold SubmissionContent.read at 1. rewrite Hd0.
  rewrite shown_type, Ht.
  cbn [String.eqb Ascii.eqb Bool.eqb].
  destruct Hshown0 as (Hc0 & Hcd0 & Hfr0 & Hld0).
  unfold bind at 1, gets at 1. rewrite Hld0. unfold enter.
  destruct (Nat.eqb (depth (SubmissionContent._loader self)) 0) eqn:Hz.
  - apply Nat.eqb_eq in Hz. rewrite Hz. cbn [depth Nat.eqb].
    unfold bind at 1. cbn [leave]. rewrite He.
    unfold bind at 1. cbn.
    eexists _, _. split; [reflexivity|]. repeat split; try assumption.
  - eexists _, _. split; [reflexivity|].
    apply Nat.eqb_neq in Hz.
    repeat split; try assumption; try contradiction.
Qed.

Lemma cores_lookup_inv self l c :
  cores self !! l = Some c ->
  exists d, SubmissionContent.store self !! l = Some d /\ core d = c.
Proof.
  unfold cores. rewrite list_lookup_fmap. intros Hl.
  destruct (SubmissionContent.store self !! l) as [d|]; [|discriminate].
  exists d. split; [reflexivity|]. cbn in Hl. congruence.
Qed.

Lemma cores_grown s1 s2 extra l d :
  cores s2 = cores s1 ++ extra ->
  SubmissionContent.store s1 !! l = Some d ->
  exists d2, SubmissionContent.store s2 !! l = Some d2 /\ core d2 = core d.
Proof.
  intros Hc Hd. apply cores_lookup_inv. rewrite Hc.
  apply lookup_app_l_Some. unfold cores. now rewrite list_lookup_fmap, Hd.
Qed.

Lemma wf_comment_data self :
  wf self = true ->
  forallb (valid self) (SubmissionContent._comment_data self) = true.
Proof. unfold wf. intros Hwf. now apply andb_prop in Hwf. Qed.

Lemma wf_hidden_cache self l d :
  wf self = true ->
  SubmissionContent.store self !! l = Some d ->
  c_type d = "HiddenComment"%string ->
  exists cache, c_cache d = Some cache.
Proof.
  unfold wf. intros Hwf Hd Ht. apply andb_prop in Hwf as [_ Hst].
  rewrite forallb_forall in Hst.
  assert (dict_ok self d = true) as Hok.
  { apply Hst. apply list_elem_of_In. eapply list_elem_of_lookup_2. exact Hd. }
  unfold dict_ok in Hok. destruct (c_cache d) as [cache|]; [now exists cache|].
  rewrite Ht in Hok. discriminate Hok.
Qed.

Lemma spliced_lookup {A} (l rest : list A) (i : nat) (x : A) :
  (i <= length l)%nat -> (take i l ++ [x] ++ rest) !! i = Some x.
Proof.
  intros Hi. apply list_lookup_middle. rewrite length_take_le; lia.
Qed.

(** Splicing [x :: run] back where one element stood for it gives the list
    it was cut from. *)
Lemma splice_back {A} (l run : list A) (i : nat) (x h : A) :
  l !! i = Some x ->
  run ++ drop (length run) (drop (S i) l) = drop (S i) l ->
  let l1 := take i l ++ [h] ++ drop (S i + length run) l in
  take i l1 ++ (x :: run) ++ drop (S i) l1 = l.
Proof.
  intros Hx Hrun l1. pose proof (lookup_lt_Some _ _ _ Hx) as Hlt.
  assert (length (take i l) = i) as Hlen by (rewrite length_take_le; lia).
  unfold l1. rewrite take_app_length' by now rewrite Hlen.
  rewrite (app_assoc (take i l) [h]).
  rewrite drop_app_length' by (rewrite length_app, Hlen; cbn; lia).
  rewrite <- drop_drop. cbn [app]. rewrite Hrun.
  now apply take_drop_middle.
Qed.

(** C2.  At a valid index holding a ['Comment'] dict, [toggle] followed by
    [toggle] at the same index gives back the comment list it started from:
    the same dicts (the same addresses), in the same order, hence the same
    length; and every dict the object had keeps its depth, body, type, count,
    object and cache ([core]). *)
Theorem toggle_twice_restores reply reply' index n_cols n_cols' self l d :
  wf self = true ->
  0 <= index ->
  SubmissionContent._comment_data self !! Z.to_nat index = Some l ->
  SubmissionContent.store self !! l = Some d ->
  c_type d = "Comment"%string ->
  exists self1 self2,
    SubmissionContent.toggle reply index n_cols self = (Ok tt, self1)
    /\ SubmissionContent.toggle reply' index n_cols' self1 = (Ok tt, self2)
    /\ SubmissionContent._comment_data self2 =
       SubmissionContent._comment_data self
    /\ forall l' d',
         SubmissionContent.store self !! l' = Some d' ->
         exists d2,
           SubmissionContent.store self2 !! l' = Some d2 /\ core d2 = core d'.
Proof.
  intros Hwf Hi Hl Hd Ht.
  pose proof (wf_comment_data _ Hwf) as Hcd.
  destruct (toggle_hide reply index n_cols self l d Hcd Hi Hl Hd Ht)
    as (self1 & Hrun1 & Hcd1 & Hc1 & _).
  set (run := deeper_run self (c_level d)
                (drop (S (Z.to_nat index))
                   (SubmissionContent._comment_data self))) in *.
  set (h := length (SubmissionContent.store self)) in *.
  pose proof (lookup_lt_Some _ _ _ Hl) as Hlt.
  assert (SubmissionContent._comment_data self1 !! Z.to_nat index = Some h)
    as Hh by (rewrite Hcd1; apply spliced_lookup; lia).
  destruct (cores_lookup_inv self1 h
              (None, c_level d, "HiddenComment"%string,
               Some (1 + sum_counts self run), "Hidden"%string,
               Some (l :: run)))
    as (hd & Hhd & Hcore).
  { rewrite Hc1. apply list_lookup_middle. unfold cores, h.
    now rewrite length_fmap. }
  unfold core in Hcore.
  destruct (toggle_unhide reply' index n_cols' self1 h hd (l :: run) Hi Hh Hhd)
    as (self2 & Hrun2 & Hcd2 & Hc2 & _); [congruence|congruence|].
  exists self1, self2. repeat split; try assumption.
  - rewrite Hcd2, Hcd1. apply splice_back; [exact Hl|].
    apply deeper_run_prefix.
  - intros l' d' Hd'. eapply cores_grown; [|exact Hd'].
    rewrite Hc2. exact Hc1.
Qed.

(** C3.  [toggle] at a ['Comment'] dict puts one ['HiddenComment'] dict in its
    place.  The cache of that dict is the comment followed by [run], the
    longest run of dicts right after it that lie strictly deeper; its count
    is 1 plus, for each dict of the run, the dict's own count if it has one
    and 1 if it has none. *)
Theorem toggle_collects_subtree reply index n_cols self l d :
  wf self = true ->
  0 <= index ->
  SubmissionContent._comment_data self !! Z.to_nat index = Some l ->
  SubmissionContent.store self !! l = Some d ->
  c_type d = "Comment"%string ->
  exists self1 h hidden run rest,
    SubmissionContent.toggle reply index n_cols self = (Ok tt, self1)
    /\ drop (S (Z.to_nat index)) (SubmissionContent._comment_data self) =
       run ++ rest
    /\ Forall (fun x => c_level d < level_at self x) run
    /\ match rest with
       | [] => True
       | x :: _ => level_at self x <= c_level d
       end
    /\ SubmissionContent._comment_data self1 =
       take (Z.to_nat index) (SubmissionContent._comment_data self)
       ++ [h] ++ rest
    /\ SubmissionContent.store self1 !! h = Some hidden
    /\ c_type hidden = "HiddenComment"%string
    /\ c_level hidden = c_level d
    /\ c_cache hidden = Some (l :: run)
    /\ c_count hidden =
       Some (1 + foldr (fun x acc => count_at self x + acc) 0 run).
Proof.
  intros Hwf Hi Hl Hd Ht.
  pose proof (wf_comment_data _ Hwf) as Hcd.
  destruct (toggle_hide reply index n_cols self l d Hcd Hi Hl Hd Ht)
    as (self1 & Hrun1 & Hcd1 & Hc1 & _).
  set (tail := drop (S (Z.to_nat index))
                 (SubmissionContent._comment_data self)) in *.
  set (run := deeper_run self (c_level d) tail) in *.
  destruct (cores_lookup_inv self1 (length (SubmissionContent.store self))
              (None, c_level d, "HiddenComment"%string,
               Some (1 + sum_counts self run), "Hidden"%string,
               Some (l :: run)))
    as (hd & Hhd & Hcore).
  { rewrite Hc1. apply list_lookup_middle. unfold cores.
    now rewrite length_fmap. }
  unfold core in Hcore.
  exists self1, (length (SubmissionContent.store self)), hd, run,
    (drop (length run) tail).
  split; [exact Hrun1|]. split; [symmetry; apply deeper_run_prefix|].
  split; [apply deeper_run_deeper|].
  split; [apply deeper_run_maximal|].
  split; [rewrite Hcd1; unfold tail; now rewrite drop_drop|].
  split; [exact Hhd|].
  unfold sum_counts in Hcore. repeat split; congruence.
Qed.

(** C6.  [toggle] at a ['MoreComments'] dict whose fetch raises an exception
    the guard captures: the comment list is the list it was, with the marker
    at its index; no dict is created and none loses a key that [get] does
    not write.  When no other guard scope is open the call returns normally
    with the exception left on the guard. *)
Theorem toggle_fetch_failure_keeps_sequence e index n_cols self l d :
  0 <= index ->
  SubmissionContent._comment_data self !! Z.to_nat index = Some l ->
  SubmissionContent.store self !! l = Some d ->
  c_type d = "MoreComments"%string ->
  swallowed e = true ->
  exists r self1,
    SubmissionContent.toggle (FetchRaised e) index n_cols self = (r, self1)
    /\ (depth (SubmissionContent._loader self) = O ->
        r = Ok tt /\ exception (SubmissionContent._loader self1) = Some e)
    /\ SubmissionContent._comment_data self1 =
       SubmissionContent._comment_data self
    /\ SubmissionContent._comment_data self1 !! Z.to_nat index = Some l
    /\ cores self1 = cores self
    /\ frame self1 = frame self.
Proof.
  intros Hi Hl Hd Ht He.
  destruct (toggle_more_failed e index n_cols self l d Hi Hl Hd Ht He)
    as (r & self1 & Hrun & Hok & Hcd & Hc & Hfr).
  exists r, self1. repeat split; try assumption; try (now apply Hok).
  now rewrite Hcd.
Qed.

(** C10.  [toggle] at a ['Comment'] or ['HiddenComment'] dict rewrites one
    segment of the comment list, starting at the index: [old] becomes [new],
    and what lies before the index and what lies after the segment ([rest])
    are the same addresses in the same order.  At a ['Comment'] the segment
    is the comment with the longest run of strictly deeper dicts after it,
    and one new dict of type ['HiddenComment'], holding the segment as its
    cache, takes its place.  At a ['HiddenComment'] the segment is that dict
    alone, and its cache takes its place.  The submission's dict and [name],
    [order], [indent_size], [max_indent_level] are what they were.  Every
    dict the object had keeps the keys [get] does not write, and the dicts
    outside the segment are untouched key for key, but for the one right
    after the segment, whose display keys the loop's last [get] rewrites. *)
Theorem toggle_frame reply index n_cols self l d :
  wf self = true ->
  0 <= index ->
  SubmissionContent._comment_data self !! Z.to_nat index = Some l ->
  SubmissionContent.store self !! l = Some d ->
  c_type d = "Comment"%string \/ c_type d = "HiddenComment"%string ->
  exists self1 old new rest,
    SubmissionContent.toggle reply index n_cols self = (Ok tt, self1)
    /\ SubmissionContent._comment_data self =
       take (Z.to_nat index) (SubmissionContent._comment_data self)
       ++ old ++ rest
    /\ SubmissionContent._comment_data self1 =
       take (Z.to_nat index) (SubmissionContent._comment_data self)
       ++ new ++ rest
    /\ (c_type d = "Comment"%string ->
        exists run hidden,
          old = l :: run
          /\ Forall (fun x => c_level d < level_at self x) run
          /\ match rest with
             | [] => True
             | x :: _ => level_at self x <= c_level d
             end
          /\ new = [length (SubmissionContent.store self)]
          /\ SubmissionContent.store self1
               !! length (SubmissionContent.store self) = Some hidden
          /\ c_type hidden = "HiddenComment"%string
          /\ c_cache hidden = Some old)
    /\ (c_type d = "HiddenComment"%string ->
        old = [l] /\ c_cache d = Some new)
    /\ SubmissionContent._submission_data self1 =
       SubmissionContent._submission_data self
    /\ SubmissionContent.name self1 = SubmissionContent.name self
    /\ SubmissionContent.order self1 = SubmissionContent.order self
    /\ SubmissionContent.indent_size self1 = SubmissionContent.indent_size self
    /\ SubmissionContent.max_indent_level self1 =
       SubmissionContent.max_indent_level self
    /\ (forall l' d',
          SubmissionContent.store self !! l' = Some d' ->
          exists d1,
            SubmissionContent.store self1 !! l' = Some d1
            /\ core d1 = core d')
    /\ (forall l' d',
          SubmissionContent.store self !! l' = Some d' ->
          l' ∉ old ++ take 1 rest ->
          SubmissionContent.store self1 !! l' = Some d').
Proof.
  intros Hwf Hi Hl Hd [Ht|Ht].
  - pose proof (wf_comment_data _ Hwf) as Hcd.
    destruct (toggle_hide reply index n_cols self l d Hcd Hi Hl Hd Ht)
      as (self1 & Hrun1 & Hcd1 & Hc1 & Hfr & _ & Hout).
    set (tail := drop (S (Z.to_nat index))
                   (SubmissionContent._comment_data self)) in *.
    set (run := deeper_run self (c_level d) tail) in *.
    destruct (cores_lookup_inv self1 (length (SubmissionContent.store self))
                (None, c_level d, "HiddenComment"%string,
                 Some (1 + sum_counts self run), "Hidden"%string,
                 Some (l :: run)))
      as (hd & Hhd & Hcore).
    { rewrite Hc1. apply list_lookup_middle. unfold cores.
      now rewrite length_fmap. }
    unfold core in Hcore.
    exists self1, (l :: run), [length (SubmissionContent.store self)],
      (drop (length run) tail).
    unfold frame in Hfr.
    split; [exact Hrun1|].
    split.
    { cbn [app]. unfold run. rewrite deeper_run_prefix.
      symmetry. now apply take_drop_middle. }
    split.
    { rewrite Hcd1. unfold tail. now rewrite drop_drop. }
    split.
    { intros _. exists run, hd.
      split; [reflexivity|].
      split; [apply deeper_run_deeper|].
      split; [apply deeper_run_maximal|].
      split; [reflexivity|].
      split; [exact Hhd|].
      split; congruence. }
    split.
    { intros Ht'. rewrite Ht in Ht'. discriminate Ht'. }
    repeat (split; [congruence|]).
    split.
    { intros l' d' Hd'. eapply cores_grown; [exact Hc1|exact Hd']. }
    intros l' d' Hd' Hl'. apply (Hout l' d' Hd').
    intros Hin. apply Hl'. cbn [app]. apply elem_of_cons in Hin as [->|Hin];
      [now left|right].
    rewrite <- (deeper_run_prefix self (c_level d) tail) in Hin. fold run in Hin.
    rewrite take_app in Hin.
    rewrite take_ge in Hin by lia.
    replace (S (length run) - length run)%nat with 1%nat in Hin by lia.
    exact Hin.
  - destruct (wf_hidden_cache _ _ _ Hwf Hd Ht) as [cache Hcache].
    destruct (toggle_unhide reply index n_cols self l d cache Hi Hl Hd Ht Hcache)
      as (self1 & Hrun1 & Hcd1 & Hc1 & Hfr & _ & Hout).
    exists self1, [l], cache,
      (drop (S (Z.to_nat index)) (SubmissionContent._comment_data self)).
    unfold frame in Hfr.
    split; [exact Hrun1|].
    split.
    { cbn [app]. symmetry. now apply take_drop_middle. }
    split; [exact Hcd1|].
    split.
    { intros Ht'. rewrite Ht in Ht'. discriminate Ht'. }
    split.
    { intros _. split; [reflexivity|exact Hcache]. }
    repeat (split; [congruence|]).
    split.
    { intros l' d' Hd'. eapply (cores_grown self self1 []); [|exact Hd'].
      now rewrite app_nil_r. }
    intros l' d' Hd' Hl'. rewrite Hout; [exact Hd'|].
    intros ->. apply Hl'. now left.
Qed.

End SubmissionToggle.

(** ** SubmissionContent: the invariant *)

Section SubmissionInvariant.
Context `{TextLayout}.

Lemma alloc_all_spec ds : forall self,
  SubmissionContent.alloc_all ds self =
  (Ok (seq (length (SubmissionContent.store self)) (length ds)),
   SubmissionContent.set_store (SubmissionContent.store self ++ ds) self).
Proof.
  induction ds as [|d ds IH]; intros self.
  - cbn. rewrite app_nil_r. now destruct self.
  - cbn [SubmissionContent.alloc_all]. unfold bind at 1.
    unfold SubmissionContent.alloc at 1. unfold bind at 1. rewrite IH.
    cbn. rewrite length_app. cbn [length].
    replace (length (SubmissionContent.store self) + 1)%nat
      with (S (length (SubmissionContent.store self))) by lia.
    now rewrite <- app_assoc.
Qed.

Lemma dict_ok_core_fine self d :
  dict_ok self d = core_fine (length (SubmissionContent.store self)) (core d).
Proof. reflexivity. Qed.

Lemma core_fine_mono n m c : (n <= m)%nat -> core_fine n c = true -> core_fine m c = true.
Proof.
  intros Hle. unfold core_fine. destruct (snd c) as [cache|]; [|trivial].
  rewrite !forallb_forall. intros Hall l Hl. specialize (Hall l Hl).
  apply Nat.ltb_lt in Hall. apply Nat.ltb_lt. lia.
Qed.

Lemma forallb_Forall {A} (f : A -> bool) l :
  forallb f l = true <-> Forall (fun x => f x = true) l.
Proof.
  induction l as [|x l IH]; cbn.
  - split; [constructor|reflexivity].
  - rewrite andb_true_iff, IH. split.
    + intros [Hx Hl]. now constructor.
    + intros Hall. apply Forall_cons in Hall. exact Hall.
Qed.

Lemma wf_spec self :
  wf self = true <->
  Forall (fun l => (l < length (cores self))%nat)
    (SubmissionContent._comment_data self)
  /\ Forall (fun c => core_fine (length (cores self)) c = true) (cores self).
Proof.
  unfold wf, cores. rewrite length_fmap, andb_true_iff.
  rewrite Forall_fmap, !forallb_Forall.
  unfold valid. split; intros [Ha Hb]; (split; [|exact Hb]).
  - eapply Forall_impl; [exact Ha|]. cbn. intros l Hl.
    now apply Nat.ltb_lt in Hl.
  - eapply Forall_impl; [exact Ha|]. cbn. intros l Hl.
    now apply Nat.ltb_lt.
Qed.

(** The invariant survives when the comment list changes to valid
    addresses and dicts are only added, each of them in order. *)
Lemma wf_grow self self1 extra :
  wf self = true ->
  cores self1 = cores self ++ extra ->
  Forall (fun c => core_fine (length (cores self) + length extra) c = true)
    extra ->
  Forall (fun l => (l < length (cores self) + length extra)%nat)
    (SubmissionContent._comment_data self1) ->
  wf self1 = true.
Proof.
  intros Hwf Hc Hextra Hcd. apply wf_spec in Hwf as [_ Hst].
  apply wf_spec. rewrite Hc, length_app. split; [exact Hcd|].
  apply Forall_app. split; [|exact Hextra].
  eapply Forall_impl; [exact Hst|]. cbn. intros c.
  apply core_fine_mono. lia.
Qed.

Lemma wf_only_shown self self1 :
  wf self = true -> only_shown self self1 -> wf self1 = true.
Proof.
  intros Hwf (Hc & Hcd & _ & _). pose proof Hwf as Hwf'.
  apply wf_spec in Hwf' as [Ha _].
  apply (wf_grow self self1 []); try assumption.
  - now rewrite app_nil_r.
  - constructor.
  - rewrite Hcd. eapply Forall_impl; [exact Ha|]. cbn. intros; lia.
Qed.

Lemma strip_praw_comment_fine n e :
  core_fine n (core (strip_praw_comment e)) = true.
Proof. now destruct e as [[c r|count handle] lvl]. Qed.

Lemma stripped_fine n comments :
  Forall (fun c => core_fine n c = true)
    (core <$> map strip_praw_comment comments).
Proof.
  apply Forall_fmap. apply Forall_forall. intros d Hd.
  apply list_elem_of_In, in_map_iff in Hd as (e & <- & _).
  apply strip_praw_comment_fine.
Qed.

(** The dicts [alloc_all] creates for flattened comments keep the invariant,
    when the comment list is then set to valid addresses. *)
Lemma wf_alloc_stripped self comments cd :
  wf self = true ->
  Forall (fun l =>
            (l < length (SubmissionContent.store self) + length comments)%nat)
    cd ->
  wf (SubmissionContent.set_comment_data cd
        (SubmissionContent.set_store
           (SubmissionContent.store self ++ map strip_praw_comment comments)
           self)) = true.
Proof.
  intros Hwf Hcd.
  apply (wf_grow self _ (core <$> map strip_praw_comment comments) Hwf).
  - unfold cores. cbn. now rewrite fmap_app.
  - apply stripped_fine.
  - unfold cores. rewrite !length_fmap. rewrite ?length_map. exact Hcd.
Qed.

(** X11.  What [__init__] builds satisfies the invariant. *)
Lemma init_wf submission loader indent_size max_indent_level order self :
  SubmissionContent.init submission loader indent_size max_indent_level order
  = Ok self ->
  wf self = true.
Proof.
  unfold SubmissionContent.init.
  destruct (flatten_comments (sub_comments submission) 0) as [comments|e|];
    try discriminate.
  rewrite alloc_all_spec. intros Heq. injection Heq as <-.
  match goal with |- wf (SubmissionContent.set_comment_data _
                           (SubmissionContent.set_store _ ?s)) = true =>
    apply (wf_alloc_stripped s comments) end; [reflexivity|].
  cbn. rewrite length_map. apply Forall_seq. intros; lia.
Qed.

Lemma splice_valid n (index hi : Z) (new cd : list loc) :
  Forall (fun l => (l < n)%nat) new ->
  Forall (fun l => (l < n)%nat) cd ->
  Forall (fun l => (l < n)%nat) (splice index hi new cd).
Proof.
  intros Hnew Hcd. unfold splice. repeat apply Forall_app_2.
  - now apply Forall_take.
  - exact Hnew.
  - now apply Forall_drop.
Qed.

(** X15.  [toggle] keeps the invariant, however it ends. *)
Theorem toggle_preserves_wf reply index n_cols self r self1 :
  wf self = true ->
  SubmissionContent.toggle reply index n_cols self = (r, self1) ->
  wf self1 = true.
Proof.
  intros Hwf Hrun. pose proof (wf_comment_data _ Hwf) as Hcd.
  destruct (Z_lt_le_dec index 0) as [Hneg|Hpos].
  { unfold SubmissionContent.toggle, bind, SubmissionContent.get in Hrun.
    destruct (index <? -1) eqn:E1; [now injection Hrun as <- <-|].
    destruct (index =? -1) eqn:E2; [|lia].
    now injection Hrun as <- <-. }
  destruct (SubmissionContent._comment_data self !! Z.to_nat index)
    as [l|] eqn:Hl.
  2:{ unfold SubmissionContent.toggle in Hrun. unfold bind at 1 in Hrun.
      rewrite (get_out_of_range self index 70 Hpos Hl) in Hrun.
      now injection Hrun as <- <-. }
  assert (valid self l = true) as Hvl.
  { rewrite forallb_forall in Hcd. apply Hcd.
    apply list_elem_of_In. eapply list_elem_of_lookup_2. exact Hl. }
  destruct (valid_lookup _ _ Hvl) as [d Hd].
  destruct (c_type d =? "Comment")%string eqn:Ecomment.
  { apply String.eqb_eq in Ecomment.
    destruct (toggle_hide reply index n_cols self l d Hcd Hpos Hl Hd Ecomment)
      as (self' & Hrun' & Hcd' & Hc' & _).
    rewrite Hrun' in Hrun. injection Hrun as <- <-.
    pose proof Hwf as Hwf'. apply wf_spec in Hwf' as [Ha _].
    eapply wf_grow; [exact Hwf|exact Hc'| |].
    - repeat constructor. unfold core_fine. cbn [snd]. cbn [forallb].
      apply andb_true_iff. split.
      + apply Nat.ltb_lt. unfold valid in Hvl. apply Nat.ltb_lt in Hvl.
        unfold cores. rewrite length_fmap. cbn. lia.
      + apply forallb_Forall.
        assert (Forall (fun x => (x < length (cores self))%nat)
                  (drop (S (Z.to_nat index))
                     (SubmissionContent._comment_data self))) as Htail
          by now apply Forall_drop.
        revert Htail. generalize (drop (S (Z.to_nat index))
                                    (SubmissionContent._comment_data self)).
        intros tail Htail. induction Htail as [|x tail Hx Htail IH]; cbn.
        * constructor.
        * destruct (level_at self x <=? c_level d); constructor.
          -- apply Nat.ltb_lt. cbn. lia.
          -- exact IH.
    - rewrite Hcd'. repeat apply Forall_app_2.
      + apply Forall_take. eapply Forall_impl; [exact Ha|]. cbn. intros; lia.
      + repeat constructor. unfold cores. rewrite length_fmap. cbn. lia.
      + apply Forall_drop. eapply Forall_impl; [exact Ha|]. cbn. intros; lia. }
  destruct (c_type d =? "HiddenComment")%string eqn:Ehidden.
  { apply String.eqb_eq in Ehidden.
    destruct (wf_hidden_cache _ _ _ Hwf Hd Ehidden) as [cache Hcache].
    destruct (toggle_unhide reply index n_cols self l d cache Hpos Hl Hd
                Ehidden Hcache) as (self' & Hrun' & Hcd' & Hc' & _).
    rewrite Hrun' in Hrun. injection Hrun as <- <-.
    pose proof Hwf as Hwf'. apply wf_spec in Hwf' as [Ha Hb].
    apply (wf_grow self self' []); try assumption.
    - now rewrite app_nil_r.
    - constructor.
    - rewrite Hcd', Nat.add_0_r. repeat apply Forall_app_2.
      + now apply Forall_take.
      + rewrite Forall_forall in Hb.
        assert (core_fine (length (cores self)) (core d) = true) as Hfine.
        { apply Hb. unfold cores. apply list_elem_of_fmap_2.
          eapply list_elem_of_lookup_2. exact Hd. }
        unfold core_fine in Hfine. cbn [snd core] in Hfine.
        rewrite Hcache in Hfine. apply forallb_Forall in Hfine.
        eapply Forall_impl; [exact Hfine|]. cbn. intros x Hx.
        now apply Nat.ltb_lt in Hx.
      + now apply Forall_drop. }
  (* the other types leave the list alone or add stripped comments *)
  unfold SubmissionContent.toggle in Hrun. unfold bind at 1 in Hrun.
  rewrite (get_comment self index 70 l d Hpos Hl Hd) in Hrun.
  pose proof (only_shown_get_comment self 70 l d Hd) as Hshown0.
  pose proof (store_lookup_shown self 70 l d Hd) as Hd0.
  set (self0 := SubmissionContent.set_store _ self) in *.
  pose proof (wf_only_shown _ _ Hwf Hshown0) as Hwf0.
  unfold bind at 1 in Hrun. unfold SubmissionContent.read at 1 in Hrun.
  rewrite Hd0 in Hrun. rewrite shown_type, Ecomment, Ehidden in Hrun.
  destruct (c_type d =? "Submission")%string;
    [now injection Hrun as <- <-|].
  destruct (c_type d =? "MoreComments")%string;
    [|now injection Hrun as <- <-].
  unfold bind at 1 in Hrun.
  assert (forall ldr, wf (SubmissionContent.set_loader ldr self0) = true)
    as Hwfl by (intros ldr; exact Hwf0).
  destruct (enter (SubmissionContent._loader self0)) as [ldr|e0|];
    [|injection Hrun as <- <-; exact Hwf0..].
  destruct (Nat.eqb (depth ldr) 1).
  2:{ unfold bind at 1 in Hrun. cbn [leave swallowed] in Hrun.
      injection Hrun as <- <-. apply Hwfl. }
  destruct reply as [comments|e].
  2:{ unfold bind at 1 in Hrun. cbn [leave] in Hrun.
      destruct (swallowed e).
      - unfold bind at 1, gets at 1 in Hrun. cbn in Hrun.
        injection Hrun as <- <-. apply Hwfl.
      - injection Hrun as <- <-. apply Hwfl. }
  unfold bind at 1 in Hrun. cbn [leave] in Hrun.
  unfold bind at 1, gets at 1 in Hrun.
  cbn [exception exit SubmissionContent._loader SubmissionContent.set_loader]
    in Hrun.
  destruct (flatten_comments comments (c_level (shown self 70 d)))
    as [flat|e|]; try (injection Hrun as <- <-; apply Hwfl).
  unfold bind at 1 in Hrun. rewrite alloc_all_spec in Hrun.
  unfold modify in Hrun. injection Hrun as <- <-.
  match goal with |- wf (SubmissionContent.set_comment_data _
                           (SubmissionContent.set_store _ ?s)) = true =>
    apply (wf_alloc_stripped s flat) end; [apply Hwfl|].
  apply splice_valid.
  - unfold self0.
    cbn [SubmissionContent.store SubmissionContent.set_loader
         SubmissionContent.set_store].
    rewrite length_map. apply Forall_seq. intros; lia.
  - apply wf_spec in Hwf0 as [Ha _]. unfold cores in Ha.
    rewrite length_fmap in Ha.
    eapply Forall_impl; [exact Ha|]. cbn. intros; lia.
Qed.

End SubmissionInvariant.

(** ** Listings: the lazy cache *)

Section ListingCache.
Context {A D : Type}.
Variable project : Z -> A -> D.
Variable render : Z -> D -> D.

#[local] Abbreviation fill := (Listing.fill project).
#[local] Abbreviation lget := (Listing.get project render).

(** Nothing is pulled for an index the store already has. *)
Lemma fill_resolved fuel index (self : Listing.t A D) :
  index < len (Listing._data self) ->
  fill fuel index self = (Ok tt, self).
Proof.
  intros Hlt. destruct fuel; cbn;
    destruct (index >=? len (Listing._data self)) eqn:E; try reflexivity; lia.
Qed.

Lemma get_cached index n_cols (self : Listing.t A D) d :
  0 <= index ->
  Listing._data self !! Z.to_nat index = Some d ->
  lget index n_cols self =
  (Ok (render n_cols d),
   Listing.Build (Listing.name self) (Listing.order self)
     (Listing._loader self) (Listing._source self)
     (<[Z.to_nat index := render n_cols d]> (Listing._data self))).
Proof.
  intros Hi Hd. unfold Listing.get.
  destruct (index <? 0) eqn:E; [lia|].
  rewrite fill_resolved.
  - now rewrite Hd.
  - apply lookup_lt_Some in Hd. unfold len. lia.
Qed.



(** The loop either resolves the index or ends in an exception; its fuel is
    enough, and the store only grows. *)
Lemma fill_outcome fuel : forall index (self : Listing.t A D),
  (Z.to_nat (index + 1 - len (Listing._data self)) <= fuel)%nat ->
  exists r self',
    fill fuel index self = (r, self')
    /\ r <> Stuck
    /\ (r = Ok tt -> index < len (Listing._data self'))
    /\ (len (Listing._data self) <= len (Listing._data self')).
Proof.
  induction fuel as [|fuel IH]; intros index self Hfuel.
  - exists (Ok tt), self. rewrite fill_resolved by lia.
    repeat split; [discriminate|lia|lia].
  - cbn [Listing.fill].
    destruct (index >=? len (Listing._data self)) eqn:E.
    2:{ exists (Ok tt), self. repeat split; [discriminate|lia|lia]. }
    unfold enter.
    destruct (Nat.eqb (depth (Listing._loader self)) 0).
    2:{ eexists _, _. split; [reflexivity|].
        repeat split; [discriminate|discriminate|lia]. }
    unfold next.
    destruct (answers (Listing._source self)) as [|[a|e] rest] eqn:Ha.
    + cbn. eexists _, _. split; [reflexivity|].
      repeat split; [discriminate|discriminate|cbn; lia].
    + cbn [leave exit exception Listing._loader Listing._data
           Listing._source Listing.name Listing.order].
      match goal with |- context [fill fuel index ?s] =>
        destruct (IH index s) as (r & self' & Hrun & Hns & Hok & Hmono) end.
      { cbn. unfold len in *. rewrite length_app. cbn. lia. }
      exists r, self'. rewrite Hrun. repeat split; try assumption.
      cbn in Hmono. unfold len in *. rewrite length_app in Hmono. lia.
    + cbn [leave]. destruct (swallowed e) eqn:Hsw.
      * cbn. eexists _, _. split; [reflexivity|].
        repeat split; [discriminate|discriminate|cbn; lia].
      * destruct e; try discriminate Hsw; cbn;
          (eexists _, _; split; [reflexivity|];
           repeat split; [discriminate|discriminate|cbn; lia]).
Qed.

(** C8 for a listing: a second [get] at the same index and width returns the
    same dict and changes nothing. *)
Lemma listing_get_idempotent index n_cols (self self1 : Listing.t A D) r :
  (forall w d, render w (render w d) = render w d) ->
  lget index n_cols self = (Ok r, self1) ->
  lget index n_cols self1 = (Ok r, self1).
Proof.
  intros Hrender. unfold Listing.get at 1.
  destruct (index <? 0) eqn:E; [discriminate|].
  destruct (fill _ index self) as [[u|e|] selfF] eqn:Hfill; try discriminate.
  destruct (Listing._data selfF !! Z.to_nat index) as [d|] eqn:Hd;
    [|discriminate].
  intros Heq. injection Heq as <- <-.
  pose proof (lookup_lt_Some _ _ _ Hd) as Hlt.
  erewrite get_cached; [|lia|].
  2:{ cbn. now apply list_lookup_insert_eq. }
  rewrite Hrender. cbn. now rewrite list_insert_insert_eq.
Qed.

(** What one run of the loop does to the guard, the store and the generator,
    however it ends: a guard with no scope open is left with no scope open;
    an exception leaves the index unresolved; the generator is never asked
    less than before, and it is asked at least once when the index is not
    resolved and no scope is open. *)
Lemma fill_effects fuel : forall index (self self1 : Listing.t A D) r,
  fill fuel index self = (r, self1) ->
  (depth (Listing._loader self) = O -> depth (Listing._loader self1) = O)
  /\ (forall e, r = Raise e -> len (Listing._data self1) <= index)
  /\ (pulls (Listing._source self) <= pulls (Listing._source self1))%nat
  /\ (depth (Listing._loader self) = O ->
      len (Listing._data self) <= index ->
      (0 < fuel)%nat ->
      (pulls (Listing._source self) < pulls (Listing._source self1))%nat).
Proof.
  induction fuel as [|fuel IH]; intros index self self1 r Hrun.
  - cbn in Hrun.
    destruct (index >=? len (Listing._data self)); injection Hrun as <- <-;
      (split; [tauto|]); (split; [discriminate|]); split; lia.
  - cbn [Listing.fill] in Hrun.
    destruct (index >=? len (Listing._data self)) eqn:E.
    2:{ injection Hrun as <- <-. split; [tauto|]. split; [discriminate|].
        split; lia. }
    unfold enter in Hrun.
    destruct (Nat.eqb (depth (Listing._loader self)) 0) eqn:Hz.
    2:{ injection Hrun as <- <-. apply Nat.eqb_neq in Hz.
        split; [tauto|]. split; [intros; lia|]. split; [lia|tauto]. }
    apply Nat.eqb_eq in Hz. rewrite Hz in Hrun.
    unfold next in Hrun.
    destruct (answers (Listing._source self)) as [|[a|e] rest] eqn:Ha.
    + cbn in Hrun. injection Hrun as <- <-. cbn.
      split; [tauto|]. split; [intros; lia|]. split; intros; lia.
    + cbn [leave exit exception Listing._loader Listing._data
           Listing._source Listing.name Listing.order] in Hrun.
      apply IH in Hrun as (Hdepth & Hraise & Hmono & _).
      cbn [Listing._loader Listing._source Listing._data depth pulls Nat.pred]
        in Hdepth, Hmono.
      split; [intros _; now apply Hdepth|].
      split; [exact Hraise|]. split; intros; lia.
    + cbn [leave] in Hrun. destruct (swallowed e).
      * cbn in Hrun. injection Hrun as <- <-. cbn.
        split; [tauto|]. split; [intros; lia|]. split; intros; lia.
      * destruct e; cbn in Hrun; injection Hrun as <- <-; cbn;
          (split; [tauto|]); (split; [intros; lia|]); split; intros; lia.
Qed.

(** The loop ends in [IndexError] only after a pull: no scope was open. *)
Lemma fill_index_error fuel index (self self1 : Listing.t A D) :
  fill fuel index self = (Raise IndexError, self1) ->
  depth (Listing._loader self) = O.
Proof.
  destruct fuel as [|fuel]; cbn [Listing.fill];
    destruct (index >=? len (Listing._data self)); try discriminate.
  unfold enter.
  destruct (Nat.eqb (depth (Listing._loader self)) 0) eqn:Hz;
    [intros _; now apply Nat.eqb_eq|discriminate].
Qed.

(** When the loop ends in an exception after a pull, a generator in the
    Python sense is used up. *)
Lemma fill_raise fuel : forall index (self self1 : Listing.t A D) e,
  depth (Listing._loader self) = O ->
  raises_last (answers (Listing._source self)) = true ->
  fill fuel index self = (Raise e, self1) ->
  answers (Listing._source self1) = [].
Proof.
  induction fuel as [|fuel IH]; intros index self self1 e Hz Hgen Hrun.
  - cbn in Hrun.
    destruct (index >=? len (Listing._data self)); discriminate.
  - cbn [Listing.fill] in Hrun.
    destruct (index >=? len (Listing._data self)) eqn:E; [|discriminate].
    unfold enter in Hrun. rewrite Hz in Hrun. cbn [Nat.eqb] in Hrun.
    unfold next in Hrun.
    destruct (answers (Listing._source self)) as [|[a|e'] rest] eqn:Ha.
    + cbn in Hrun. now injection Hrun as <- <-.
    + cbn [leave exit exception Listing._loader Listing._data
           Listing._source Listing.name Listing.order] in Hrun.
      apply IH in Hrun; [exact Hrun|reflexivity|exact Hgen].
    + cbn [raises_last] in Hgen. destruct rest; [|discriminate Hgen].
      cbn [leave] in Hrun.
      destruct (swallowed e') eqn:Hsw.
      * cbn in Hrun. now injection Hrun as <- <-.
      * destruct e'; try discriminate Hsw; cbn in Hrun;
          now injection Hrun as <- <-.
Qed.

(** A [get] beyond the store asks the generator at least once more, unless a
    scope is open. *)
Lemma get_pulls_again index n_cols (self self1 : Listing.t A D) r :
  depth (Listing._loader self) = O ->
  len (Listing._data self) <= index ->
  lget index n_cols self = (r, self1) ->
  (pulls (Listing._source self) < pulls (Listing._source self1))%nat.
Proof.
  intros Hz Hle. unfold Listing.get.
  assert (0 <= len (Listing._data self)) by (unfold len; lia).
  destruct (index <? 0) eqn:E; [lia|].
  destruct (fill _ index self) as [rF selfF] eqn:Hfill.
  destruct (fill_effects _ _ _ _ _ Hfill) as (_ & _ & _ & Hpull).
  specialize (Hpull Hz Hle ltac:(lia)).
  destruct rF as [u|e|]; [|now intros [= <- <-]..].
  destruct (Listing._data selfF !! Z.to_nat index);
    now intros [= <- <-].
Qed.

(** A [get] beyond the store of an object whose generator is used up: one
    more pull, [IndexError], and the store is what it was. *)
Lemma get_exhausted index n_cols (self : Listing.t A D) :
  depth (Listing._loader self) = O ->
  len (Listing._data self) <= index ->
  answers (Listing._source self) = [] ->
  lget index n_cols self =
  (Raise IndexError,
   Listing.Build (Listing.name self) (Listing.order self)
     (mkLoadScreen 0 (Some StopIteration))
     (Generator [] (S (pulls (Listing._source self))))
     (Listing._data self)).
Proof.
  intros Hz Hle Ha. unfold Listing.get.
  assert (0 <= len (Listing._data self)) by (unfold len; lia).
  destruct (index <? 0) eqn:E; [lia|].
  destruct (Z.to_nat (index + 1 - len (Listing._data self))) as [|fuel] eqn:Hf;
    [lia|].
  cbn [Listing.fill].
  destruct (index >=? len (Listing._data self)) eqn:E'; [|lia].
  unfold enter, next. rewrite Hz, Ha. reflexivity.
Qed.

Lemma get_each_exhausted calls : forall (self : Listing.t A D),
  depth (Listing._loader self) = O ->
  answers (Listing._source self) = [] ->
  Forall (fun c => len (Listing._data self) <= fst c) calls ->
  exists self2,
    @get_each _ _ lget calls self =
    (map (fun _ => Raise IndexError) calls, self2)
    /\ Listing._data self2 = Listing._data self
    /\ answers (Listing._source self2) = []
    /\ pulls (Listing._source self2) =
       (pulls (Listing._source self) + length calls)%nat.
Proof.
  induction calls as [|[j w] calls IH]; intros self Hz Ha Hcalls.
  - exists self. cbn. repeat split; [assumption|lia].
  - apply Forall_cons in Hcalls as [Hj Hcalls]. cbn [fst] in Hj.
    cbn [get_each]. unfold get at 1.
    rewrite (get_exhausted j w self Hz Hj Ha).
    match goal with |- context [get_each calls ?s] =>
      destruct (IH s) as (self2 & Hrun & Hdata & Ha2 & Hp) end;
      [reflexivity|reflexivity|exact Hcalls|].
    rewrite Hrun. exists self2. cbn in *. repeat split; try assumption. lia.
Qed.

(** C1, for the shared cache.  [get(k, w)] ended in [IndexError]: the index
    is still not resolved, and a [get(j, w')] with [j >= k] that follows asks
    the generator again.  On a generator in the Python sense every later
    [get(j, w')] with [j >= k] asks it once more, ends in [IndexError], and
    leaves the store as it is. *)
Lemma listing_failure_is_final k w (self self1 : Listing.t A D) :
  0 <= k ->
  lget k w self = (Raise IndexError, self1) ->
  len (Listing._data self1) <= k
  /\ (forall j w' r self2,
        k <= j ->
        lget j w' self1 = (r, self2) ->
        (pulls (Listing._source self1) < pulls (Listing._source self2))%nat)
  /\ (raises_last (answers (Listing._source self)) = true ->
      forall calls,
        Forall (fun c => k <= fst c) calls ->
        exists self2,
          @get_each _ _ lget calls self1 =
          (map (fun _ => Raise IndexError) calls, self2)
          /\ Listing._data self2 = Listing._data self1
          /\ (len (Listing._data self) = k -> len (Listing._data self2) = k)
          /\ pulls (Listing._source self2) =
             (pulls (Listing._source self1) + length calls)%nat).
Proof.
  intros Hk Hrun. unfold Listing.get in Hrun.
  destruct (k <? 0) eqn:E; [lia|].
  destruct (fill_outcome
              (Z.to_nat (k + 1 - len (Listing._data self))) k self)
    as (r & selfF & Hfill & Hns & Hok & Hmono); [lia|].
  rewrite Hfill in Hrun.
  destruct r as [u|e|]; [| |contradiction].
  { destruct (Listing._data selfF !! Z.to_nat k); discriminate. }
  injection Hrun as -> ->.
  pose proof (fill_index_error _ _ _ _ Hfill) as Hz.
  destruct (fill_effects _ _ _ _ _ Hfill) as (Hdepth & Hraise & _).
  specialize (Hdepth Hz). specialize (Hraise _ eq_refl).
  split; [exact Hraise|]. split.
  { intros j w' r self2 Hj Hget.
    eapply get_pulls_again; [exact Hdepth| |exact Hget]. lia. }
  intros Hgen calls Hcalls.
  pose proof (fill_raise _ _ _ _ _ Hz Hgen Hfill) as Ha.
  destruct (get_each_exhausted calls self1 Hdepth Ha)
    as (self2 & Hrun2 & Hd & _ & Hp).
  { eapply Forall_impl; [exact Hcalls|]. cbn. intros c Hc. lia. }
  exists self2. repeat split; try assumption.
  intros Hlen. rewrite Hd. lia.
Qed.

End ListingCache.

Section ListingProbe.
Context {A D : Type}.
Variable project : Z -> A -> D.
Variable render : Z -> D -> D.

#[local] Abbreviation lget := (Listing.get project render).
#[local] Abbreviation linit := (Listing.init project render).


Lemma init_probe_succeeds error name order loader (source : generator A)
    r self :
  lget 0 70 (Listing.Build name order loader source []) = (Ok r, self) ->
  linit error name order loader source = Ok self.
Proof. unfold Listing.init. now intros ->. Qed.





(** Backward through a listing: from index [n - 1] down to index 0, then the
    generator finishes. *)
Lemma listing_iterate_backward n : forall fuel n_cols (self : Listing.t A D),
  (n <= length (Listing._data self))%nat ->
  (n < fuel)%nat ->
  exists rs self',
    @iterate _ _ lget fuel (Z.of_nat n - 1) (-1) n_cols self = (Ok rs, self')
    /\ map fst rs = countdown n
    /\ length (Listing._data self') = length (Listing._data self).
Proof.
  induction n as [|n IH]; intros [|fuel] n_cols self Hn Hfuel; try lia.
  - exists [], self. repeat split.
  - cbn [iterate]. unfold iterate_next.
    replace (Z.of_nat (S n) - 1) with (Z.of_nat n) by lia.
    replace (Z.of_nat n <? 0) with false by lia. rewrite andb_false_r.
    destruct (lookup_lt_is_Some_2 (Listing._data self) n) as [d Hd]; [lia|].
    unfold get at 1. rewrite (get_cached project render (Z.of_nat n) n_cols self d);
      [|lia|now rewrite Nat2Z.id].
    replace (Z.of_nat n + -1) with (Z.of_nat n - 1) by lia.
    match goal with |- context [iterate fuel _ _ _ ?s] =>
      destruct (IH fuel n_cols s) as (rs & self' & Hrun & Hrs & Hlen) end.
    { cbn. rewrite length_insert. lia. }
    { lia. }
    rewrite Hrun. eexists _, _. split; [reflexivity|]. split.
    + cbn. now rewrite Hrs.
    + rewrite Hlen. cbn. now rewrite length_insert.
Qed.

End ListingProbe.

(** ** The generator [iterate], for any content class *)

Section Iterate.
Context {S R : Type} `{!Content S R}.

(** In the negative direction nothing is read below index 0: the generator
    finishes before it calls [get]. *)
Lemma iterate_next_backward_stop index step n_cols (s : S) :
  step < 0 -> index < 0 -> iterate_next index step n_cols s = Stop s.
Proof.
  intros Hs Hi. unfold iterate_next.
  replace (step <? 0) with true by lia. now replace (index <? 0) with true by lia.
Qed.

Lemma iterate_stop_on_index_error fuel index step n_cols (s s' : S) :
  (step <? 0) && (index <? 0) = false ->
  get index n_cols s = (Raise IndexError, s') ->
  iterate (Datatypes.S fuel) index step n_cols s = (Ok [], s').
Proof.
  intros Hg Hget. cbn [iterate]. unfold iterate_next. now rewrite Hg, Hget.
Qed.

Lemma iterate_yield fuel index step n_cols (s s' s'' : S) r rest :
  (step <? 0) && (index <? 0) = false ->
  get index n_cols s = (Ok r, s') ->
  iterate fuel (index + step) step n_cols s' = (Ok rest, s'') ->
  iterate (Datatypes.S fuel) index step n_cols s = (Ok ((index, r) :: rest), s'').
Proof.
  intros Hg Hget Hrest. cbn [iterate]. unfold iterate_next.
  now rewrite Hg, Hget, Hrest.
Qed.

Lemma iterate_backward_indices fuel : forall index step n_cols (s s' : S) rs,
  step < 0 ->
  iterate fuel index step n_cols s = (Ok rs, s') ->
  Forall (fun p => 0 <= fst p <= index) rs.
Proof.
  induction fuel as [|fuel IH]; intros index step n_cols s s' rs Hs Hrun;
    [discriminate|].
  cbn [iterate] in Hrun. unfold iterate_next in Hrun.
  replace (step <? 0) with true in Hrun by lia. cbn [andb] in Hrun.
  destruct (index <? 0) eqn:Hi.
  - injection Hrun as <- <-. constructor.
  - destruct (get index n_cols s) as [[r|e|] s1].
    + destruct (iterate fuel (index + step) step n_cols s1)
        as [[rest|e|] s2] eqn:Hrest; try discriminate.
      injection Hrun as <- <-. constructor; [cbn; lia|].
      apply IH in Hrest; [|exact Hs].
      eapply Forall_impl; [exact Hrest|]. cbn. intros p Hp. lia.
    + destruct e; try discriminate. injection Hrun as <- <-. constructor.
    + discriminate.
Qed.

End Iterate.

(** ** [get] twice *)

Section GetTwice.
Context `{TextLayout}.

Lemma shown_set_store v self n_cols d :
  shown (SubmissionContent.set_store v self) n_cols d = shown self n_cols d.
Proof. reflexivity. Qed.

Lemma submission_get_idempotent index n_cols self r self1 :
  SubmissionContent.get index n_cols self = (Ok r, self1) ->
  SubmissionContent.get index n_cols self1 = (Ok r, self1).
Proof.
  intros Hget. destruct (Z_lt_le_dec index 0) as [Hneg|Hpos].
  - unfold SubmissionContent.get in *.
    destruct (index <? -1) eqn:E1; [discriminate|].
    destruct (index =? -1) eqn:E2; [|lia].
    injection Hget as <- <-. reflexivity.
  - destruct (SubmissionContent._comment_data self !! Z.to_nat index)
      as [l|] eqn:Hl.
    2:{ rewrite (get_out_of_range self index n_cols Hpos Hl) in Hget.
        discriminate. }
    destruct (SubmissionContent.store self !! l) as [d|] eqn:Hd.
    2:{ unfold SubmissionContent.get in Hget.
        destruct (index <? -1) eqn:E1; [discriminate|].
        destruct (index =? -1) eqn:E2; [lia|].
        rewrite Hl, Hd in Hget. discriminate. }
    rewrite (get_comment self index n_cols l d Hpos Hl Hd) in Hget.
    injection Hget as <- <-.
    rewrite (get_comment _ index n_cols l (shown self n_cols d) Hpos);
      [|exact Hl|now apply store_lookup_shown].
    rewrite (shown_set_store _ self), shown_shown. cbn.
    now rewrite list_insert_insert_eq.
Qed.

Lemma subreddit_render_idempotent w d :
  SubredditContent.render w (SubredditContent.render w d) =
  SubredditContent.render w d.
Proof. reflexivity. Qed.

Lemma subscription_render_idempotent w d :
  SubscriptionContent.render w (SubscriptionContent.render w d) =
  SubscriptionContent.render w d.
Proof. reflexivity. Qed.

(** C8.  For each of the three content classes: when [get(index, n_cols)]
    returns a dict, the same call made again, with nothing in between,
    returns the same dict with the same contents, and leaves the object as
    the first call left it. *)
Theorem get_twice_same_record :
  (forall index n_cols self r self1,
     SubmissionContent.get index n_cols self = (Ok r, self1) ->
     SubmissionContent.get index n_cols self1 = (Ok r, self1))
  /\ (forall index n_cols self r self1,
       SubredditContent.get index n_cols self = (Ok r, self1) ->
       SubredditContent.get index n_cols self1 = (Ok r, self1))
  /\ (forall index n_cols self r self1,
       SubscriptionContent.get index n_cols self = (Ok r, self1) ->
       SubscriptionContent.get index n_cols self1 = (Ok r, self1)).
Proof.
  split; [|split].
  - intros index n_cols self r self1 Hget.
    exact (submission_get_idempotent _ _ _ _ _ Hget).
  - intros index n_cols self r self1 Hget.
    eapply listing_get_idempotent; [apply subreddit_render_idempotent|].
    exact Hget.
  - intros index n_cols self r self1 Hget.
    eapply listing_get_idempotent; [apply subscription_render_idempotent|].
    exact Hget.
Qed.

End GetTwice.

(** ** Listings, constructors and iteration *)

Section ContentProperties.
Context `{TextLayout}.

(** C1, as the code has it.  [get(k, w)] with [k >= 0] ended in [IndexError]
    because the pull raised or the generator was used up.  The store then
    holds at most [k] dicts, and the failure is not remembered: a
    [get(j, w')] with [j >= k] that follows asks the generator again, at
    least once.  On a generator in the Python sense (an exception is its last
    answer) every later [get(j, w')] with [j >= k] asks it exactly once more,
    finds it used up and ends in [IndexError], and the store keeps its
    length: [k] when [k] was the first unresolved index. *)
Theorem listing_failure_stays_out_of_range :
  (forall k w (self self1 : SubredditContent.t),
     0 <= k ->
     SubredditContent.get k w self = (Raise IndexError, self1) ->
     len (Listing._data self1) <= k
     /\ (forall j w' r self2,
           k <= j ->
           SubredditContent.get j w' self1 = (r, self2) ->
           (pulls (Listing._source self1) < pulls (Listing._source self2))%nat)
     /\ (raises_last (answers (Listing._source self)) = true ->
         forall calls,
           Forall (fun c => k <= fst c) calls ->
           exists self2,
             get_each calls self1 =
               (map (fun _ => Raise IndexError) calls, self2)
             /\ Listing._data self2 = Listing._data self1
             /\ (len (Listing._data self) = k ->
                 len (Listing._data self2) = k)
             /\ pulls (Listing._source self2) =
                (pulls (Listing._source self1) + length calls)%nat))
  /\ (forall k w (self self1 : SubscriptionContent.t),
        0 <= k ->
        SubscriptionContent.get k w self = (Raise IndexError, self1) ->
        len (Listing._data self1) <= k
        /\ (forall j w' r self2,
              k <= j ->
              SubscriptionContent.get j w' self1 = (r, self2) ->
              (pulls (Listing._source self1)
               < pulls (Listing._source self2))%nat)
        /\ (raises_last (answers (Listing._source self)) = true ->
            forall calls,
              Forall (fun c => k <= fst c) calls ->
              exists self2,
                get_each calls self1 =
                  (map (fun _ => Raise IndexError) calls, self2)
                /\ Listing._data self2 = Listing._data self1
                /\ (len (Listing._data self) = k ->
                    len (Listing._data self2) = k)
                /\ pulls (Listing._source self2) =
                   (pulls (Listing._source self1) + length calls)%nat)).
Proof.
  split; intros k w self self1 Hk Hget.
  - exact (listing_failure_is_final SubredditContent.project
             SubredditContent.render k w self self1 Hk Hget).
  - exact (listing_failure_is_final SubscriptionContent.project
             SubscriptionContent.render k w self self1 Hk Hget).
Qed.

Lemma alloc_all_nil self : SubmissionContent.alloc_all [] self = (Ok [], self).
Proof. reflexivity. Qed.




(** C9.  One resumption of [iterate] calls [get] at the current index, yields
    what it returns and moves the index by [step]; an [IndexError] ends the
    iteration without an error.  With a negative step the generator finishes
    before it reads any index below 0, so nothing below -1 is read and the
    submission itself (index -1) is never yielded backwards:
    [iterate(-1, -1, 70)] on a submission yields nothing, and backward
    iteration over a listing from [start] yields the indices [start] down to
    0 and stops. *)
Theorem iterate_steps_and_stops :
  (forall (S R : Type) (C : Content S R) fuel index step n_cols
          (s s' s'' : S) r rest,
     (step <? 0) && (index <? 0) = false ->
     get index n_cols s = (Ok r, s') ->
     iterate fuel (index + step) step n_cols s' = (Ok rest, s'') ->
     iterate (Datatypes.S fuel) index step n_cols s =
     (Ok ((index, r) :: rest), s''))
  /\ (forall (S R : Type) (C : Content S R) fuel index step n_cols (s s' : S),
       (step <? 0) && (index <? 0) = false ->
       get index n_cols s = (Raise IndexError, s') ->
       iterate (Datatypes.S fuel) index step n_cols s = (Ok [], s'))
  /\ (forall (S R : Type) (C : Content S R) index step n_cols (s : S),
       step < 0 -> index < 0 ->
       iterate_next index step n_cols s = Stop s)
  /\ (forall (S R : Type) (C : Content S R) fuel index step n_cols
            (s s' : S) rs,
       step < 0 ->
       iterate fuel index step n_cols s = (Ok rs, s') ->
       Forall (fun p => 0 <= fst p <= index) rs)
  /\ (forall fuel (self : SubmissionContent.t),
       iterate (Datatypes.S fuel) (-1) (-1) 70 self = (Ok [], self))
  /\ (forall fuel start n_cols (self : SubredditContent.t),
       0 <= start < len (Listing._data self) ->
       (Z.to_nat start + 1 < fuel)%nat ->
       exists rs self',
         iterate fuel start (-1) n_cols self = (Ok rs, self')
         /\ map fst rs = countdown (Datatypes.S (Z.to_nat start)))
  /\ (forall fuel start n_cols (self : SubscriptionContent.t),
       0 <= start < len (Listing._data self) ->
       (Z.to_nat start + 1 < fuel)%nat ->
       exists rs self',
         iterate fuel start (-1) n_cols self = (Ok rs, self')
         /\ map fst rs = countdown (Datatypes.S (Z.to_nat start))).
Proof.
  split; [|split; [|split; [|split; [|split; [|split]]]]].
  - intros S R C fuel index step n_cols s s' s'' r rest.
    apply iterate_yield.
  - intros S R C fuel index step n_cols s s'.
    apply iterate_stop_on_index_error.
  - intros S R C index step n_cols s. apply iterate_next_backward_stop.
  - intros S R C fuel index step n_cols s s' rs.
    apply iterate_backward_indices.
  - intros fuel self. reflexivity.
  - intros fuel start n_cols self Hstart Hfuel.
    destruct (listing_iterate_backward SubredditContent.project
                SubredditContent.render (Datatypes.S (Z.to_nat start)) fuel
                n_cols self) as (rs & self' & Hrun & Hrs & _).
    { unfold len in Hstart. lia. }
    { lia. }
    assert (Z.of_nat (Datatypes.S (Z.to_nat start)) - 1 = start) as E by lia.
    rewrite E in Hrun. exists rs, self'. split; [exact Hrun|exact Hrs].
  - intros fuel start n_cols self Hstart Hfuel.
    destruct (listing_iterate_backward SubscriptionContent.project
                SubscriptionContent.render (Datatypes.S (Z.to_nat start)) fuel
                n_cols self) as (rs & self' & Hrun & Hrs & _).
    { unfold len in Hstart. lia. }
    { lia. }
    assert (Z.of_nat (Datatypes.S (Z.to_nat start)) - 1 = start) as E by lia.
    rewrite E in Hrun. exists rs, self'. split; [exact Hrun|exact Hrs].
Qed.

End ContentProperties.

(** * Further properties of the code *)

(** ** [toggle]: how it ends *)

Section ToggleOutcomes.
Context `{TextLayout}.

Lemma get_comment_only_shown index n_cols self r self1 :
  0 <= index ->
  SubmissionContent.get index n_cols self = (r, self1) ->
  only_shown self self1.
Proof.
  intros Hi Hget.
  destruct (SubmissionContent._comment_data self !! Z.to_nat index)
    as [l|] eqn:Hl.
  2:{ rewrite (get_out_of_range self index n_cols Hi Hl) in Hget.
      injection Hget as <- <-. apply only_shown_refl. }
  destruct (SubmissionContent.store self !! l) as [d|] eqn:Hd.
  - rewrite (get_comment self index n_cols l d Hi Hl Hd) in Hget.
    injection Hget as <- <-. now apply only_shown_get_comment.
  - unfold SubmissionContent.get in Hget.
    destruct (index <? -1) eqn:E1; [lia|].
    destruct (index =? -1) eqn:E2; [lia|].
    rewrite Hl, Hd in Hget. injection Hget as <- <-. apply only_shown_refl.
Qed.

(** However the loop of [toggle] ends, it has written display keys only. *)
Lemma hide_loop_only_shown n_cols data fuel :
  forall self index count cache r self',
    0 <= index ->
    SubmissionContent.hide_loop fuel data index n_cols count cache self =
      (r, self') ->
    only_shown self self'.
Proof.
  induction fuel as [|fuel IH]; intros self index count cache r self' Hi Hrun.
  - cbn in Hrun. injection Hrun as <- <-. apply only_shown_refl.
  - cbn [SubmissionContent.hide_loop] in Hrun. unfold iterate_next in Hrun.
    change (1 <? 0) with false in Hrun. cbn [andb] in Hrun.
    unfold get, SubmissionContent.content in Hrun.
    destruct (SubmissionContent.get index n_cols self) as [[ref|e|] s1] eqn:Hget;
      pose proof (get_comment_only_shown _ _ _ _ _ Hi Hget) as Hshown.
    + destruct ref as [|l]; [now injection Hrun as <- <-|].
      destruct (SubmissionContent.store s1 !! l) as [d|];
        [|now injection Hrun as <- <-].
      destruct (SubmissionContent.store s1 !! data) as [dat|];
        [|now injection Hrun as <- <-].
      destruct (c_level d <=? c_level dat); [now injection Hrun as <- <-|].
      apply IH in Hrun; [|lia].
      eapply only_shown_trans; eassumption.
    + destruct e; now injection Hrun as <- <-.
    + now injection Hrun as <- <-.
Qed.

(** X16.  A [toggle] that raises has changed neither the comment list nor any
    key of a dict that [get] does not write, nor the submission's dict:
    whatever the index, the type of the dict and the answer of the content
    API. *)
Theorem toggle_raise_keeps_sequence reply index n_cols self e self1 :
  SubmissionContent.toggle reply index n_cols self = (Raise e, self1) ->
  SubmissionContent._comment_data self1 = SubmissionContent._comment_data self
  /\ cores self1 = cores self
  /\ frame self1 = frame self.
Proof.
  intros Hrun.
  destruct (Z_lt_le_dec index 0) as [Hneg|Hpos].
  { unfold SubmissionContent.toggle, bind, SubmissionContent.get in Hrun.
    destruct (index <? -1) eqn:E1; [now injection Hrun as <- <-|].
    destruct (index =? -1) eqn:E2; [discriminate|lia]. }
  unfold SubmissionContent.toggle in Hrun. unfold bind at 1 in Hrun.
  destruct (SubmissionContent.get index 70 self) as [[ref|e0|] self0] eqn:Hget;
    pose proof (get_comment_only_shown _ _ _ _ _ Hpos Hget)
      as (Hc0 & Hcd0 & Hfr0 & Hld0);
    [|now injection Hrun as <- <-|discriminate].
  destruct ref as [|l]; [discriminate|].
  unfold bind at 1 in Hrun. unfold SubmissionContent.read at 1 in Hrun.
  destruct (SubmissionContent.store self0 !! l) as [d|]; [|discriminate].
  destruct (c_type d =? "Submission")%string; [discriminate|].
  destruct (c_type d =? "Comment")%string.
  { unfold bind at 1, gets at 1 in Hrun. unfold bind at 1 in Hrun.
    destruct (SubmissionContent.hide_loop _ l (index + 1) n_cols 1 [l] self0)
      as [[[count cache]|e1|] s1] eqn:Hloop; [| |discriminate].
    - unfold bind at 1, SubmissionContent.read at 1 in Hrun.
      destruct (SubmissionContent.store s1 !! l); discriminate.
    - injection Hrun as <- <-.
      apply hide_loop_only_shown in Hloop as (Hc1 & Hcd1 & Hfr1 & _); [|lia].
      repeat split; congruence. }
  destruct (c_type d =? "HiddenComment")%string.
  { destruct (c_cache d); [discriminate|].
    injection Hrun as <- <-. now repeat split. }
  destruct (c_type d =? "MoreComments")%string;
    [|injection Hrun as <- <-; now repeat split].
  unfold bind at 1 in Hrun.
  assert (forall ldr,
            SubmissionContent._comment_data
              (SubmissionContent.set_loader ldr self0) =
            SubmissionContent._comment_data self
            /\ cores (SubmissionContent.set_loader ldr self0) = cores self
            /\ frame (SubmissionContent.set_loader ldr self0) = frame self)
    as Hset by (intros ldr; now repeat split).
  destruct (enter (SubmissionContent._loader self0)) as [ldr|e0|];
    [|injection Hrun as <- <-; now repeat split|discriminate].
  destruct (Nat.eqb (depth ldr) 1).
  2:{ unfold bind at 1 in Hrun. cbn [leave swallowed] in Hrun.
      injection Hrun as <- <-. apply Hset. }
  destruct reply as [comments|e1].
  2:{ unfold bind at 1 in Hrun. cbn [leave] in Hrun.
      destruct (swallowed e1); [discriminate|].
      injection Hrun as <- <-. apply Hset. }
  unfold bind at 1 in Hrun. cbn [leave] in Hrun.
  unfold bind at 1, gets at 1 in Hrun.
  cbn [exception exit SubmissionContent._loader SubmissionContent.set_loader]
    in Hrun.
  destruct (flatten_comments comments (c_level d)) as [flat|e1|];
    [|injection Hrun as <- <-; apply Hset|discriminate].
  unfold bind at 1 in Hrun. rewrite alloc_all_spec in Hrun. discriminate.
Qed.

Lemma shown_level self n_cols d : c_level (shown self n_cols d) = c_level d.
Proof. pose proof (core_shown self n_cols d) as E. unfold core in E. congruence. Qed.

(** X17.  [toggle] at a ['MoreComments'] dict whose fetch succeeds, with no
    other guard scope open: the answer is flattened from the marker's depth,
    one new dict is made for each flattened node, in order, and their addresses
    take the marker's place in the comment list.  An empty answer removes the
    marker. *)
Theorem toggle_more_comments_splices comments flat index n_cols self l d :
  0 <= index ->
  SubmissionContent._comment_data self !! Z.to_nat index = Some l ->
  SubmissionContent.store self !! l = Some d ->
  c_type d = "MoreComments"%string ->
  depth (SubmissionContent._loader self) = O ->
  flatten_comments comments (c_level d) = Ok flat ->
  exists self1,
    SubmissionContent.toggle (Fetched comments) index n_cols self =
      (Ok tt, self1)
    /\ SubmissionContent._comment_data self1 =
       take (Z.to_nat index) (SubmissionContent._comment_data self)
       ++ seq (length (SubmissionContent.store self)) (length flat)
       ++ drop (S (Z.to_nat index)) (SubmissionContent._comment_data self)
    /\ (forall k e,
          flat !! k = Some e ->
          SubmissionContent.store self1
            !! (length (SubmissionContent.store self) + k)%nat
          = Some (strip_praw_comment e))
    /\ cores self1 = cores self ++ (core <$> map strip_praw_comment flat)
    /\ frame self1 = frame self
    /\ exception (SubmissionContent._loader self1) = None.
Proof.
  intros Hi Hl Hd Ht Hdepth Hflat.
  unfold SubmissionContent.toggle. unfold bind at 1.
  rewrite (get_comment self index 70 l d Hi Hl Hd).
  pose proof (only_shown_get_comment self 70 l d Hd) as Hshown0.
  pose proof (store_lookup_shown self 70 l d Hd) as Hd0.
  set (self0 := SubmissionContent.set_store _ self) in *.
  unfold bind at 1. unfold SubmissionContent.read at 1. rewrite Hd0.
  rewrite shown_type, Ht, shown_level.
  cbn [String.eqb Ascii.eqb Bool.eqb].
  destruct Hshown0 as (Hc0 & Hcd0 & Hfr0 & Hld0).
  unfold bind at 1. rewrite Hld0.
  unfold enter. rewrite Hdepth. cbn [depth Nat.eqb].
  unfold bind at 1. cbn [leave].
  unfold bind at 1, gets at 1.
  cbn [exception exit SubmissionContent._loader SubmissionContent.set_loader].
  rewrite Hflat. unfold bind at 1. rewrite alloc_all_spec. unfold modify.
  eexists. split; [reflexivity|].
  assert (length (SubmissionContent.store self0) =
          length (SubmissionContent.store self)) as Hlen
    by exact (cores_length _ _ Hc0).
  split; [|split; [|split; [|split]]].
  - cbn [SubmissionContent._comment_data SubmissionContent.set_comment_data
         SubmissionContent.set_store SubmissionContent.set_loader
         SubmissionContent.store].
    fold (SubmissionContent.store self0). rewrite Hlen.
    change (SubmissionContent._comment_data self0)
      with (SubmissionContent._comment_data self).
    unfold splice. rewrite length_map. do 3 f_equal. lia.
  - intros k e Hk.
    cbn [SubmissionContent._comment_data SubmissionContent.set_comment_data
         SubmissionContent.set_store SubmissionContent.set_loader
         SubmissionContent.store].
    fold (SubmissionContent.store self0). rewrite <- Hlen.
    rewrite lookup_app_r by lia.
    replace (length (SubmissionContent.store self0) + k
             - length (SubmissionContent.store self0))%nat with k by lia.
    change (map strip_praw_comment flat) with (strip_praw_comment <$> flat).
    now rewrite list_lookup_fmap, Hk.
  - unfold cores.
    cbn [SubmissionContent._comment_data SubmissionContent.set_comment_data
         SubmissionContent.set_store SubmissionContent.set_loader
         SubmissionContent.store].
    fold (SubmissionContent.store self0). rewrite fmap_app.
    fold (cores self0). now rewrite Hc0.
  - exact Hfr0.
  - reflexivity.
Qed.

End ToggleOutcomes.

(** ** Hiding and the number of comments *)

Section HiddenCounts.
Context `{TextLayout}.

Lemma sum_counts_app self ls1 ls2 :
  sum_counts self (ls1 ++ ls2) = sum_counts self ls1 + sum_counts self ls2.
Proof.
  unfold sum_counts. induction ls1 as [|x ls1 IH]; cbn [foldr app]; lia.
Qed.

Lemma count_at_grown s1 s2 extra k :
  cores s2 = cores s1 ++ extra ->
  (k < length (SubmissionContent.store s1))%nat ->
  count_at s2 k = count_at s1 k.
Proof.
  intros Hc Hk. apply lookup_lt_is_Some_2 in Hk as [d1 Hd1].
  destruct (cores_grown s1 s2 extra k d1 Hc Hd1) as (d2 & Hd2 & Hcore).
  unfold count_at. rewrite Hd1, Hd2. cbn.
  unfold declared_count, core in *. congruence.
Qed.

Lemma sum_counts_grown s1 s2 extra ls :
  cores s2 = cores s1 ++ extra ->
  Forall (fun k => (k < length (SubmissionContent.store s1))%nat) ls ->
  sum_counts s2 ls = sum_counts s1 ls.
Proof.
  intros Hc Hls. unfold sum_counts.
  induction Hls as [|k ls Hk Hls IH]; cbn [foldr]; [reflexivity|].
  now rewrite IH, (count_at_grown s1 s2 extra k Hc Hk).
Qed.

(** X18.  Hiding a comment keeps the total of the declared counts along the
    comment list (a dict without a count counts 1): the hidden dict stands
    for as many comments as the dicts it replaced. *)
Theorem toggle_hide_keeps_total_count reply index n_cols self l d :
  wf self = true ->
  0 <= index ->
  SubmissionContent._comment_data self !! Z.to_nat index = Some l ->
  SubmissionContent.store self !! l = Some d ->
  c_type d = "Comment"%string ->
  c_count d = None ->
  exists self1,
    SubmissionContent.toggle reply index n_cols self = (Ok tt, self1)
    /\ sum_counts self1 (SubmissionContent._comment_data self1) =
       sum_counts self (SubmissionContent._comment_data self).
Proof.
  intros Hwf Hi Hl Hd Ht Hcount.
  pose proof (wf_comment_data _ Hwf) as Hcd.
  destruct (toggle_hide reply index n_cols self l d Hcd Hi Hl Hd Ht)
    as (self1 & Hrun1 & Hcd1 & Hc1 & _).
  exists self1. split; [exact Hrun1|].
  set (cd := SubmissionContent._comment_data self) in *.
  set (tail := drop (S (Z.to_nat index)) cd) in *.
  set (run := deeper_run self (c_level d) tail) in *.
  assert (Forall (fun k => (k < length (SubmissionContent.store self))%nat) cd)
    as Hvalid.
  { apply forallb_Forall in Hcd. eapply Forall_impl; [exact Hcd|].
    cbn. intros k Hk. unfold valid in Hk. now apply Nat.ltb_lt in Hk. }
  assert (cd = take (Z.to_nat index) cd ++ [l] ++ run ++ drop (length run) tail)
    as Hsplit.
  { unfold run. rewrite deeper_run_prefix. symmetry.
    now apply take_drop_middle. }
  assert (drop (S (Z.to_nat index) + length run) cd = drop (length run) tail)
    as Hrest by (unfold tail; now rewrite drop_drop).
  rewrite Hrest in Hcd1. rewrite Hcd1.
  assert (Forall (fun k => (k < length (SubmissionContent.store self))%nat)
            (take (Z.to_nat index) cd ++ [l] ++ run ++ drop (length run) tail))
    as Hvalid' by (rewrite <- Hsplit; exact Hvalid).
  replace (sum_counts self cd)
    with (sum_counts self
            (take (Z.to_nat index) cd ++ [l] ++ run ++ drop (length run) tail))
    by (now rewrite <- Hsplit).
  apply Forall_app in Hvalid' as [Hv1 Hvalid'].
  apply Forall_app in Hvalid' as [Hvl Hvalid'].
  apply Forall_app in Hvalid' as [Hvrun Hvrest].
  rewrite !sum_counts_app.
  rewrite (sum_counts_grown self self1 _ _ Hc1 Hv1).
  rewrite (sum_counts_grown self self1 _ _ Hc1 Hvrest).
  assert (count_at self1 (length (SubmissionContent.store self)) =
          1 + sum_counts self run) as Hnew.
  { destruct (cores_lookup_inv self1 (length (SubmissionContent.store self))
                (None, c_level d, "HiddenComment"%string,
                 Some (1 + sum_counts self run), "Hidden"%string,
                 Some (l :: run))) as (hd & Hhd & Hcore).
    { rewrite Hc1. apply list_lookup_middle. unfold cores.
      now rewrite length_fmap. }
    unfold count_at. rewrite Hhd. cbn. unfold declared_count, core in *.
    replace (c_count hd) with (Some (1 + sum_counts self run)) by congruence.
    reflexivity. }
  assert (count_at self l = 1) as Hone.
  { unfold count_at. rewrite Hd. cbn. unfold declared_count. now rewrite Hcount. }
  unfold sum_counts at 2 4 5. cbn [foldr]. rewrite Hnew, Hone.
  unfold sum_counts. lia.
Qed.

End HiddenCounts.

(** ** [get] at another width *)

Section GetWidths.
Context `{TextLayout}.

Lemma shown_overwrites self w1 w2 d :
  shown self w2 (shown self w1 d) = shown self w2 d.
Proof.
  unfold shown. cbn [set_offset c_type c_level c_body].
  destruct (c_type d =? "Comment")%string eqn:Ht; cbn; rewrite ?Ht; reflexivity.
Qed.

Lemma submission_get_rewraps index w1 w2 self r self1 :
  SubmissionContent.get index w1 self = (Ok r, self1) ->
  SubmissionContent.get index w2 self1 = SubmissionContent.get index w2 self.
Proof.
  intros Hget. destruct (Z_lt_le_dec index 0) as [Hneg|Hpos].
  - unfold SubmissionContent.get in *.
    destruct (index <? -1) eqn:E1; [discriminate|].
    destruct (index =? -1) eqn:E2; [|lia].
    injection Hget as <- <-. reflexivity.
  - destruct (SubmissionContent._comment_data self !! Z.to_nat index)
      as [l|] eqn:Hl.
    2:{ rewrite (get_out_of_range self index w1 Hpos Hl) in Hget.
        discriminate. }
    destruct (SubmissionContent.store self !! l) as [d|] eqn:Hd.
    2:{ unfold SubmissionContent.get in Hget.
        destruct (index <? -1) eqn:E1; [discriminate|].
        destruct (index =? -1) eqn:E2; [lia|].
        rewrite Hl, Hd in Hget. discriminate. }
    rewrite (get_comment self index w1 l d Hpos Hl Hd) in Hget.
    injection Hget as <- <-.
    rewrite (get_comment _ index w2 l (shown self w1 d) Hpos);
      [|exact Hl|now apply store_lookup_shown].
    rewrite (get_comment self index w2 l d Hpos Hl Hd).
    rewrite (shown_set_store _ self), shown_overwrites. cbn.
    now rewrite list_insert_insert_eq.
Qed.

Lemma listing_get_rewraps {A D} (project : Z -> A -> D) (render : Z -> D -> D)
    index w1 w2 (self self1 : Listing.t A D) r :
  (forall u v d, render v (render u d) = render v d) ->
  Listing.get project render index w1 self = (Ok r, self1) ->
  Listing.get project render index w2 self1 =
  Listing.get project render index w2 self.
Proof.
  intros Hrender Hget. unfold Listing.get at 2. unfold Listing.get in Hget.
  destruct (index <? 0) eqn:E; [discriminate|].
  destruct (Listing.fill project _ index self) as [[u|e|] selfF] eqn:Hfill;
    try discriminate.
  destruct (Listing._data selfF !! Z.to_nat index) as [d|] eqn:Hd;
    [|discriminate].
  injection Hget as <- <-.
  pose proof (lookup_lt_Some _ _ _ Hd) as Hlt.
  erewrite get_cached; [|lia|].
  2:{ cbn. now apply list_lookup_insert_eq. }
  rewrite Hrender. cbn. now rewrite list_insert_insert_eq.
Qed.

(** X13.  The width of the last [get] decides what a dict shows: after a [get]
    at width [w1] that returned a dict, a [get] at the same index and width
    [w2] returns what it would have returned without the first call, and leaves
    the same object.  Nothing wrapped for [w1] survives. *)
Theorem get_last_width_wins :
  (forall index w1 w2 self r self1,
     SubmissionContent.get index w1 self = (Ok r, self1) ->
     SubmissionContent.get index w2 self1 =
     SubmissionContent.get index w2 self)
  /\ (forall index w1 w2 self r self1,
       SubredditContent.get index w1 self = (Ok r, self1) ->
       SubredditContent.get index w2 self1 =
       SubredditContent.get index w2 self)
  /\ (forall index w1 w2 self r self1,
       SubscriptionContent.get index w1 self = (Ok r, self1) ->
       SubscriptionContent.get index w2 self1 =
       SubscriptionContent.get index w2 self).
Proof.
  split; [|split].
  - intros index w1 w2 self r self1 Hget.
    exact (submission_get_rewraps _ _ _ _ _ _ Hget).
  - intros index w1 w2 self r self1 Hget.
    eapply listing_get_rewraps; [|exact Hget]. reflexivity.
  - intros index w1 w2 self r self1 Hget.
    eapply listing_get_rewraps; [|exact Hget]. reflexivity.
Qed.

End GetWidths.

(** ** Listings: what a [get] pulls and what it keeps *)

Section ListingGrowth.
Context {A D : Type}.
Variable project : Z -> A -> D.
Variable render : Z -> D -> D.

#[local] Abbreviation fill := (Listing.fill project).
#[local] Abbreviation lget := (Listing.get project render).

(** The loop only appends: the elements it pulled, in order, each projected
    with the index that was asked for. *)
Lemma fill_appends fuel : forall index (self self' : Listing.t A D) r,
  fill fuel index self = (r, self') ->
  exists items,
    Listing._data self' = Listing._data self ++ map (project index) items
    /\ (r = Ok tt ->
        answers (Listing._source self) =
          map Item items ++ answers (Listing._source self')
        /\ pulls (Listing._source self') =
           (pulls (Listing._source self) + length items)%nat
        /\ length items = Z.to_nat (index + 1 - len (Listing._data self))).
Proof.
  induction fuel as [|fuel IH]; intros index self self' r Hrun.
  - cbn in Hrun. destruct (index >=? len (Listing._data self)) eqn:E;
      injection Hrun as <- <-; exists []; cbn; rewrite app_nil_r;
      (split; [reflexivity|]); [discriminate|].
    intros _. repeat split; lia.
  - cbn [Listing.fill] in Hrun.
    destruct (index >=? len (Listing._data self)) eqn:E.
    2:{ injection Hrun as <- <-. exists []. cbn. rewrite app_nil_r.
        split; [reflexivity|]. intros _. repeat split; lia. }
    unfold enter in Hrun.
    destruct (Nat.eqb (depth (Listing._loader self)) 0).
    2:{ injection Hrun as <- <-. exists []. cbn. rewrite app_nil_r.
        split; [reflexivity|discriminate]. }
    unfold next in Hrun.
    destruct (answers (Listing._source self)) as [|[a|e] rest] eqn:Ha.
    + cbn in Hrun. injection Hrun as <- <-. exists []. cbn.
      rewrite app_nil_r. split; [reflexivity|discriminate].
    + cbn [leave exit exception Listing._loader Listing._data
           Listing._source Listing.name Listing.order] in Hrun.
      apply IH in Hrun as (items & Hdata & Hok).
      cbn [Listing._data Listing._source answers pulls] in Hdata, Hok.
      exists (a :: items). split.
      * rewrite Hdata. cbn [map]. now rewrite <- app_assoc.
      * intros ->. destruct (Hok eq_refl) as (Hans & Hp & Hlen).
        repeat split.
        -- cbn [map app]. now rewrite Hans.
        -- rewrite Hp. cbn [length]. lia.
        -- cbn [length]. rewrite Hlen. unfold len in *.
           rewrite length_app. cbn [length]. lia.
    + cbn [leave] in Hrun. destruct (swallowed e).
      * cbn in Hrun. injection Hrun as <- <-. exists []. cbn.
        rewrite app_nil_r. split; [reflexivity|discriminate].
      * destruct e; cbn in Hrun; injection Hrun as <- <-; exists []; cbn;
          rewrite app_nil_r; (split; [reflexivity|discriminate]).
Qed.

(** X23.  A [get] that returns a dict has pulled exactly the elements that were
    missing up to its index, in order, and none when the index was resolved
    already; the store is the old store followed by their dicts, with the
    dict at the index rendered.  The dicts it adds are made with the index
    that was asked for, whatever their own position. *)
Theorem listing_get_pulls_what_is_missing index n_cols
    (self self1 : Listing.t A D) r :
  lget index n_cols self = (Ok r, self1) ->
  exists items d,
    answers (Listing._source self) =
      map Item items ++ answers (Listing._source self1)
    /\ length items = Z.to_nat (index + 1 - len (Listing._data self))
    /\ pulls (Listing._source self1) =
       (pulls (Listing._source self) + length items)%nat
    /\ (Listing._data self ++ map (project index) items) !! Z.to_nat index
       = Some d
    /\ r = render n_cols d
    /\ Listing._data self1 =
       <[Z.to_nat index := r]>
         (Listing._data self ++ map (project index) items).
Proof.
  unfold Listing.get. destruct (index <? 0) eqn:E; [discriminate|].
  destruct (fill _ index self) as [[u|e|] selfF] eqn:Hfill; try discriminate.
  destruct (Listing._data selfF !! Z.to_nat index) as [d|] eqn:Hd;
    [|discriminate].
  intros Heq. injection Heq as <- <-.
  destruct (fill_appends _ _ _ _ _ Hfill) as (items & Hdata & Hok).
  destruct u. destruct (Hok eq_refl) as (Hans & Hp & Hlen).
  exists items, d. rewrite <- Hdata. cbn. repeat split; assumption.
Qed.

(** X24.  Whatever a [get] does, and however it ends, the dicts the store had
    stay where they were, key for key, except the one at the index that was
    asked for; the store never shrinks. *)
Theorem listing_get_keeps_resolved index n_cols (self self1 : Listing.t A D)
    r p d :
  lget index n_cols self = (r, self1) ->
  Listing._data self !! p = Some d ->
  p <> Z.to_nat index ->
  Listing._data self1 !! p = Some d
  /\ (length (Listing._data self) <= length (Listing._data self1))%nat.
Proof.
  unfold Listing.get. intros Hget Hd Hp.
  destruct (index <? 0) eqn:E; [injection Hget as <- <-; split; [exact Hd|lia]|].
  destruct (fill _ index self) as [[u|e|] selfF] eqn:Hfill;
    destruct (fill_appends _ _ _ _ _ Hfill) as (items & Hdata & _).
  - destruct (Listing._data selfF !! Z.to_nat index) as [d'|];
      injection Hget as <- <-; cbn.
    + rewrite length_insert, list_lookup_insert_ne by congruence.
      rewrite Hdata, length_app. split; [now apply lookup_app_l_Some|lia].
    + rewrite Hdata, length_app. split; [now apply lookup_app_l_Some|lia].
  - injection Hget as <- <-.
    rewrite Hdata, length_app. split; [now apply lookup_app_l_Some|lia].
  - injection Hget as <- <-.
    rewrite Hdata, length_app. split; [now apply lookup_app_l_Some|lia].
Qed.

End ListingGrowth.

Section SubredditStamps.
Context `{TextLayout}.

(** X25.  Every dict a [SubredditContent.get(index)] adds to the store carries
    the index that was asked for, and that index plus one in front of its
    title, not its own position: the two agree when indices are resolved one at
    a time, and differ for the dicts a jump ahead pulls on its way. *)
Theorem subreddit_get_stamps_requested_index index n_cols self self1 r p d :
  SubredditContent.get index n_cols self = (r, self1) ->
  (length (Listing._data self) <= p)%nat ->
  Listing._data self1 !! p = Some d ->
  s_index d = Some index
  /\ s_title d = (str (index + 1) ++ ". " ++ sub_title (s_object d))%string.
Proof.
  unfold SubredditContent.get, Listing.get. intros Hget Hp Hd.
  destruct (index <? 0) eqn:E.
  { injection Hget as <- <-. apply lookup_lt_Some in Hd. lia. }
  destruct (Listing.fill _ _ index self) as [[u|e|] selfF] eqn:Hfill;
    destruct (fill_appends _ _ _ _ _ _ Hfill) as (items & Hdata & _).
  - assert (forall x, Listing._data selfF !! p = Some x ->
              s_index x = Some index
              /\ s_title x =
                 (str (index + 1) ++ ". " ++ sub_title (s_object x))%string)
      as Hnew.
    { intros x Hx. rewrite Hdata in Hx. rewrite lookup_app_r in Hx by lia.
      change (map (SubredditContent.project index) items)
        with (SubredditContent.project index <$> items) in Hx.
      rewrite list_lookup_fmap in Hx.
      destruct (items !! (p - length (Listing._data self))%nat) as [a|];
        [|discriminate].
      cbn in Hx. injection Hx as <-. split; reflexivity. }
    destruct (Listing._data selfF !! Z.to_nat index) as [d'|] eqn:Hd';
      injection Hget as <- <-; cbn [Listing._data] in Hd; [|now apply Hnew].
    destruct (decide (Z.to_nat index = p)) as [Heq|Hne].
    + subst p.
      rewrite list_lookup_insert_eq in Hd by now apply lookup_lt_Some in Hd'.
      injection Hd as <-. cbn. now apply Hnew.
    + rewrite list_lookup_insert_ne in Hd by exact Hne. now apply Hnew.
  - injection Hget as <- <-. rewrite Hdata in Hd.
    rewrite lookup_app_r in Hd by lia.
    change (map (SubredditContent.project index) items)
      with (SubredditContent.project index <$> items) in Hd.
    rewrite list_lookup_fmap in Hd.
    destruct (items !! (p - length (Listing._data self))%nat) as [a|];
      [|discriminate].
    cbn in Hd. injection Hd as <-. split; reflexivity.
  - injection Hget as <- <-. rewrite Hdata in Hd.
    rewrite lookup_app_r in Hd by lia.
    change (map (SubredditContent.project index) items)
      with (SubredditContent.project index <$> items) in Hd.
    rewrite list_lookup_fmap in Hd.
    destruct (items !! (p - length (Listing._data self))%nat) as [a|];
      [|discriminate].
    cbn in Hd. injection Hd as <-. split; reflexivity.
Qed.

End SubredditStamps.

(** ** [flatten_comments]: termination, bounds, repairs *)

(** X1.  The work-list loop of [flatten_comments] terminates on every forest,
    and it ends in one of two ways: with the flattened list, or with the
    [IndexError] of [stack.pop(0)] on an empty work list. *)
Theorem flatten_comments_ends comments root_level :
  (exists out, flatten_comments comments root_level = Ok out)
  \/ flatten_comments comments root_level = Raise IndexError.
Proof. apply flatten_loop_ends. lia. Qed.

Lemma flatten_loop_bounds fuel : forall stack retval out floor,
  Forall (fun e => floor <= snd e) stack ->
  Forall (fun e => floor <= snd e) retval ->
  flatten_loop fuel stack retval = Ok out ->
  Forall (fun e => floor <= snd e) out
  /\ (length out <= length retval + stack_size stack)%nat.
Proof.
  induction fuel as [|fuel IH]; intros [|[item lvl] stack] retval out floor
    Hstack Hacc Hrun; simpl in Hrun; try discriminate;
    try (injection Hrun as <-; split; [assumption|apply Nat.le_add_r]).
  unfold leveled in *.
  apply Forall_cons in Hstack as [Hlvl Hstack]. cbn [snd] in Hlvl.
  change (stack_size ((item, lvl) :: stack))
    with (node_size item + stack_size stack)%nat.
  destruct item as [c [nested|]|count handle].
  - apply IH with (floor := floor) in Hrun as [Hout Hlen].
    + split; [exact Hout|]. rewrite node_size_replies.
      rewrite length_app, stack_size_app, stack_size_set_nested_level in Hlen.
      cbn [length] in Hlen. lia.
    + apply Forall_app. split; [|exact Hstack].
      unfold set_nested_level. apply Forall_forall. intros e He.
      apply list_elem_of_In, in_map_iff in He as (n & <- & _). cbn. lia.
    + apply Forall_app. split; [exact Hacc|]. repeat constructor. exact Hlvl.
  - destruct stack as [|[adopted lvl'] stack]; [discriminate|].
    apply Forall_cons in Hstack as [_ Hstack].
    apply IH with (floor := floor) in Hrun as [Hout Hlen].
    + split; [exact Hout|]. rewrite length_app in Hlen. cbn [length] in Hlen.
      unfold stack_size in *. simpl in *. lia.
    + constructor; [cbn; lia|exact Hstack].
    + apply Forall_app. split; [exact Hacc|]. repeat constructor. exact Hlvl.
  - destruct (count =? 0).
    + apply IH with (floor := floor) in Hrun as [Hout Hlen];
        [|exact Hstack|exact Hacc].
      split; [exact Hout|]. simpl. lia.
    + apply IH with (floor := floor) in Hrun as [Hout Hlen]; [|exact Hstack|].
      * split; [exact Hout|]. rewrite length_app in Hlen. simpl in *. lia.
      * apply Forall_app. split; [exact Hacc|]. repeat constructor. exact Hlvl.
Qed.

(** X2.  What [flatten_comments] returns: no node lies above [root_level], no
    marker counts zero, and there are at most as many entries as the forest
    has nodes (nothing is listed twice). *)
Theorem flatten_comments_output_bounds comments root_level out :
  flatten_comments comments root_level = Ok out ->
  Forall (fun e => root_level <= snd e) out
  /\ Forall (fun e => is_zero_marker (fst e) = false) out
  /\ (length out <= forest_size comments)%nat.
Proof.
  intros Hrun. pose proof Hrun as Hrun'.
  apply flatten_loop_bounds with (floor := root_level) in Hrun as [Hlvl Hlen].
  - split; [exact Hlvl|]. split.
    + eapply flatten_loop_no_zero_marker; [|exact Hrun']. constructor.
    + rewrite stack_size_set_nested_level in Hlen. cbn in Hlen. exact Hlen.
  - unfold set_nested_level. apply Forall_forall. intros e He.
    apply list_elem_of_In, in_map_iff in He as (n & <- & _). cbn. lia.
  - constructor.
Qed.

(** A well-formed front part of the work list is walked in preorder, one
    unit of fuel per node, before the loop reaches what follows it. *)
Lemma flatten_loop_front n : forall front back retval fuel,
  stack_size front = n ->
  well_formed_stack front = true ->
  flatten_loop (n + fuel) (front ++ back) retval =
  flatten_loop fuel back (retval ++ preorder_stack front).
Proof.
  induction n as [|n IH]; intros [|[item lvl] front] back retval fuel Hsz Hwf.
  - cbn. now rewrite app_nil_r.
  - exfalso. pose proof (node_size_pos item).
    unfold stack_size in Hsz. simpl in Hsz. lia.
  - discriminate Hsz.
  - change (well_formed_stack ((item, lvl) :: front))
      with (well_formed item && well_formed_stack front) in Hwf.
    apply andb_prop in Hwf as [Hitem Hfront].
    change (stack_size ((item, lvl) :: front))
      with (node_size item + stack_size front)%nat in Hsz.
    destruct item as [c [nested|]|count handle].
    + rewrite node_size_replies in Hsz. rewrite well_formed_replies in Hitem.
      cbn [flatten_loop app Nat.add]. rewrite app_assoc. rewrite IH.
      * rewrite preorder_stack_app, preorder_stack_set_nested_level.
        cbn [preorder_stack foldr fst snd]. rewrite preorder_replies.
        now rewrite <- !app_assoc.
      * rewrite stack_size_app, stack_size_set_nested_level. lia.
      * rewrite well_formed_stack_app, well_formed_stack_set_nested_level.
        now rewrite Hitem, Hfront.
    + discriminate Hitem.
    + simpl in Hitem. cbn [flatten_loop app Nat.add].
      destruct (count =? 0); [discriminate Hitem|].
      rewrite IH; [|simpl in Hsz; lia|assumption].
      cbn [preorder_stack foldr fst snd preorder].
      now rewrite <- !app_assoc.
Qed.

Lemma flatten_comments_unset_at_end before c root_level :
  well_formed_forest before = true ->
  flatten_comments (before ++ [Comment c None]) root_level = Raise IndexError.
Proof.
  intros Hwf. unfold flatten_comments, set_nested_level.
  rewrite map_app. fold (set_nested_level root_level before).
  rewrite stack_size_app, stack_size_set_nested_level.
  rewrite (flatten_loop_front (forest_size before)).
  - reflexivity.
  - apply stack_size_set_nested_level.
  - now rewrite well_formed_stack_set_nested_level.
Qed.

(** X3.  The anomaly [flatten_comments] cannot repair: when the last root is a
    comment with unset replies, after any well-formed roots, the call raises
    [IndexError]. *)
Theorem flatten_comments_last_root_unset before c root_level :
  well_formed_forest before = true ->
  flatten_comments (before ++ [Comment c None]) root_level = Raise IndexError.
Proof. apply flatten_comments_unset_at_end. Qed.

(** X4.  The repair, when there is something to adopt: a root with unset replies
    takes the next root as its only reply, and that root with everything
    below it is listed one level deeper than it stood. *)
Theorem flatten_comments_adopts_next_root before c next after root_level :
  well_formed_forest before = true ->
  well_formed next = true ->
  well_formed_forest after = true ->
  flatten_comments (before ++ Comment c None :: next :: after) root_level =
  Ok (preorder_forest root_level before
      ++ (Comment c (Some [next]), root_level)
      :: preorder (root_level + 1) next
      ++ preorder_forest root_level after).
Proof.
  intros Hbefore Hnext Hafter. unfold flatten_comments, set_nested_level.
  rewrite map_app. fold (set_nested_level root_level before).
  cbn [map]. fold (set_nested_level root_level after).
  rewrite stack_size_app, stack_size_set_nested_level.
  rewrite (flatten_loop_front (forest_size before)).
  - cbn [flatten_loop stack_size map fst forest_size foldr node_size Nat.add].
    rewrite flatten_loop_preorder.
    + cbn [preorder_stack foldr fst snd app].
      fold (preorder_stack (set_nested_level root_level after)).
      rewrite !preorder_stack_set_nested_level.
      now rewrite <- !app_assoc.
    + cbn [well_formed_stack forallb fst].
      fold (well_formed_stack (set_nested_level root_level after)).
      now rewrite Hnext, well_formed_stack_set_nested_level.
    + unfold stack_size. cbn [map fst forest_size foldr]. lia.
  - apply stack_size_set_nested_level.
  - now rewrite well_formed_stack_set_nested_level.
Qed.

(** ** Reading a submission page *)

Section SubmissionPage.
Context `{TextLayout}.

Lemma submission_iterate_comments n_cols fuel :
  forall self index,
    0 <= index ->
    forallb (valid self) (SubmissionContent._comment_data self) = true ->
    (length (SubmissionContent._comment_data self) - Z.to_nat index < fuel)%nat ->
    exists rs self',
      iterate fuel index 1 n_cols self = (Ok rs, self')
      /\ map snd rs =
         map CommentRef
           (drop (Z.to_nat index) (SubmissionContent._comment_data self))
      /\ map fst rs =
         map Z.of_nat
           (seq (Z.to_nat index)
              (length (SubmissionContent._comment_data self)
               - Z.to_nat index))
      /\ only_shown self self'.
Proof.
  induction fuel as [|fuel IH]; intros self index Hi Hcd Hfuel; [lia|].
  cbn [iterate]. unfold iterate_next.
  change (1 <? 0) with false. cbn [andb].
  change (get index n_cols self) with (SubmissionContent.get index n_cols self).
  destruct (SubmissionContent._comment_data self !! Z.to_nat index)
    as [l|] eqn:Hl.
  - assert (valid self l = true) as Hvl.
    { rewrite forallb_forall in Hcd. apply Hcd.
      apply list_elem_of_In. eapply list_elem_of_lookup_2. exact Hl. }
    destruct (valid_lookup _ _ Hvl) as [d Hd].
    rewrite (get_comment self index n_cols l d Hi Hl Hd).
    pose proof (only_shown_get_comment self n_cols l d Hd) as Hshown.
    set (self1 := SubmissionContent.set_store _ self) in *.
    pose proof Hshown as (Hc & Hcd1 & _ & _).
    pose proof (lookup_lt_Some _ _ _ Hl) as Hlt.
    destruct (IH self1 (index + 1)) as (rs & self' & Hrun & Hrefs & Hidx & Hsh);
      [lia| |rewrite Hcd1; lia|].
    { rewrite Hcd1. unfold valid in *. now rewrite (cores_length _ _ Hc). }
    rewrite Hrun. eexists _, _. split; [reflexivity|].
    rewrite Hcd1 in Hrefs, Hidx.
    replace (Z.to_nat (index + 1)) with (S (Z.to_nat index)) in * by lia.
    split; [|split].
    + cbn [map snd]. rewrite Hrefs, (drop_S _ _ _ Hl). reflexivity.
    + cbn [map fst]. rewrite Hidx.
      replace (length (SubmissionContent._comment_data self) - Z.to_nat index)%nat
        with (S (length (SubmissionContent._comment_data self)
                 - S (Z.to_nat index))) by lia.
      cbn [seq map]. f_equal. lia.
    + eapply only_shown_trans; eassumption.
  - rewrite (get_out_of_range self index n_cols Hi Hl).
    apply lookup_ge_None in Hl.
    exists [], self. split; [reflexivity|].
    rewrite (drop_ge _ _ Hl).
    replace (length (SubmissionContent._comment_data self) - Z.to_nat index)%nat
      with O by lia.
    repeat split; apply only_shown_refl.
Qed.

(** X14.  Iterating forward from the submission itself lists the whole page
    once: the submission's dict (index -1), then every dict of the comment list
    in order, and then it stops.  The comment list is not changed by it. *)
Theorem submission_iterate_forward_lists_page n_cols fuel self :
  wf self = true ->
  (length (SubmissionContent._comment_data self) + 1 < fuel)%nat ->
  exists rs self',
    iterate fuel (-1) 1 n_cols self = (Ok rs, self')
    /\ map snd rs =
       SubmissionRef :: map CommentRef (SubmissionContent._comment_data self)
    /\ map fst rs =
       -1 :: map Z.of_nat
               (seq 0 (length (SubmissionContent._comment_data self)))
    /\ SubmissionContent._comment_data self' =
       SubmissionContent._comment_data self
    /\ cores self' = cores self.
Proof.
  intros Hwf Hfuel. destruct fuel as [|fuel]; [lia|].
  pose proof (wf_comment_data _ Hwf) as Hcd.
  cbn [iterate]. unfold iterate_next.
  change (1 <? 0) with false. cbn [andb].
  change (get (-1) n_cols self) with (SubmissionContent.get (-1) n_cols self).
  unfold SubmissionContent.get at 1.
  change (-1 <? -1) with false. change (-1 =? -1) with true.
  cbn beta iota zeta. change (-1 + 1) with 0.
  match goal with |- context [iterate fuel 0 1 n_cols ?s] =>
    destruct (submission_iterate_comments n_cols fuel s 0)
      as (rs & self' & Hrun & Hrefs & Hidx & Hc & Hcd' & _) end;
    [lia|exact Hcd|cbn; lia|].
  rewrite Hrun.
  eexists _, _. split; [reflexivity|].
  cbn [map snd fst]. rewrite Hrefs, Hidx. cbn.
  rewrite Nat.sub_0_r. repeat split; assumption.
Qed.

(** X12.  What [get] writes on a comment dict: the indent is the dict's depth
    times the indent size, with the depth capped at [max_indent_level], so for
    non-negative settings it lies between 0 and [max_indent_level *
    indent_size] however deep the comment is; and the dict takes at least one
    row. *)
Theorem get_indent_is_capped index n_cols self l self1 :
  SubmissionContent.get index n_cols self = (Ok (CommentRef l), self1) ->
  0 <= SubmissionContent.indent_size self ->
  0 <= SubmissionContent.max_indent_level self ->
  exists d offset n_rows,
    SubmissionContent.store self1 !! l = Some d
    /\ c_offset d = Some offset
    /\ c_n_rows d = Some n_rows
    /\ offset =
       Z.min (c_level d) (SubmissionContent.max_indent_level self)
       * SubmissionContent.indent_size self
    /\ offset <=
       SubmissionContent.max_indent_level self
       * SubmissionContent.indent_size self
    /\ (0 <= c_level d -> 0 <= offset)
    /\ 1 <= n_rows.
Proof.
  intros Hget Hsize Hmax.
  unfold SubmissionContent.get in Hget.
  destruct (index <? -1); [discriminate|].
  destruct (index =? -1); [discriminate|].
  destruct (SubmissionContent._comment_data self !! Z.to_nat index)
    as [l'|]; [|discriminate].
  destruct (SubmissionContent.store self !! l') as [d|] eqn:Hd; [|discriminate].
  injection Hget as <- <-. cbn [SubmissionContent.store
    SubmissionContent.set_store].
  rewrite list_lookup_insert_eq by now apply lookup_lt_Some in Hd.
  cbn [set_offset c_type].
  destruct (c_type d =? "Comment")%string;
    (eexists _, _, _; split; [reflexivity|]); cbn;
    (split; [reflexivity|]); (split; [reflexivity|]);
    (split; [reflexivity|]); (split; [nia|]); (split; [nia|]);
    unfold len; lia.
Qed.

(** X8.  [wrap_text] keeps every paragraph: each line of [splitlines] gives at
    least one output line (an empty string where [wrap] returns nothing), so
    the output is empty only for a text without lines. *)
Theorem wrap_text_keeps_paragraphs text width :
  (length (splitlines text) <= length (wrap_text text width))%nat
  /\ (wrap_text text width = [] <-> splitlines text = []).
Proof.
  unfold wrap_text.
  assert (forall ps : list string,
            (length ps <=
             length (flat_map
                       (fun paragraph =>
                          match wrap paragraph width with
                          | [] => [""%string]
                          | lines => lines
                          end) ps))%nat) as Hlen.
  { induction ps as [|p ps IH]; cbn [flat_map length]; [lia|].
    rewrite length_app.
    destruct (wrap p width) as [|x xs]; cbn [length]; lia. }
  split; [apply Hlen|]. split.
  - intros Hnil. specialize (Hlen (splitlines text)). rewrite Hnil in Hlen.
    cbn in Hlen. destruct (splitlines text); [reflexivity|cbn in Hlen; lia].
  - now intros ->.
Qed.

End SubmissionPage.

(** ** [from_name]: how a name is read *)

Section NameStrings.

Lemma lstrip_all_in chars pre s :
  all_in chars pre = true -> lstrip chars (pre ++ s) = lstrip chars s.
Proof.
  induction pre as [|c pre IH]; cbn; [reflexivity|].
  intros Hall. apply andb_prop in Hall as [-> Hall]. now apply IH.
Qed.

Lemma lstrip_first_kept chars s :
  first_kept chars s = true -> lstrip chars s = s.
Proof.
  destruct s as [|c s]; cbn; [discriminate|].
  now destruct (char_in c chars).
Qed.

Lemma rstrip_all_in chars post :
  all_in chars post = true -> rstrip chars post = EmptyString.
Proof.
  induction post as [|c post IH]; cbn; [reflexivity|].
  intros Hall. apply andb_prop in Hall as [-> Hall]. now rewrite IH.
Qed.

Lemma rstrip_app_all_in chars s post :
  all_in chars post = true -> rstrip chars (s ++ post) = rstrip chars s.
Proof.
  intros Hall. induction s as [|c s IH]; cbn.
  - now apply rstrip_all_in.
  - now rewrite IH.
Qed.

Lemma rstrip_last_kept chars s :
  last_kept chars s = true -> rstrip chars s = s.
Proof.
  induction s as [|c s IH]; [discriminate|].
  destruct s as [|c' s].
  - cbn. now destruct (char_in c chars).
  - intros Hlast. change (last_kept chars (String c (String c' s)))
      with (last_kept chars (String c' s)) in Hlast.
    change (rstrip chars (String c (String c' s)))
      with (match rstrip chars (String c' s) with
            | EmptyString =>
                if char_in c chars then EmptyString else String c EmptyString
            | kept => String c kept
            end).
    now rewrite (IH Hlast).
Qed.

Lemma first_kept_app chars a b :
  first_kept chars a = true -> first_kept chars (a ++ b) = true.
Proof. now destruct a. Qed.

Lemma last_kept_app chars a b :
  last_kept chars b = true -> last_kept chars (a ++ b) = true.
Proof.
  intros Hb. induction a as [|c a IH]; [exact Hb|].
  cbn [append]. destruct (a ++ b)%string eqn:E; [discriminate IH|].
  exact IH.
Qed.

(** Blanks and slashes around a name are dropped, whatever lies between. *)
Lemma strip_around chars pre s post :
  all_in chars pre = true ->
  all_in chars post = true ->
  first_kept chars s = true ->
  last_kept chars s = true ->
  strip chars (pre ++ s ++ post) = s.
Proof.
  intros Hpre Hpost Hfirst Hlast. unfold strip.
  rewrite lstrip_all_in by exact Hpre.
  rewrite lstrip_first_kept by now apply first_kept_app.
  rewrite rstrip_app_all_in by exact Hpost.
  now apply rstrip_last_kept.
Qed.

Lemma contains_count c s : contains c s = true <-> (1 <= count_char c s)%nat.
Proof.
  induction s as [|c' s IH]; cbn.
  - split; [discriminate|lia].
  - destruct (Ascii.eqb c' c); cbn; [split; [lia|reflexivity]|exact IH].
Qed.

Lemma split_length sep s : length (split sep s) = S (count_char sep s).
Proof.
  induction s as [|c s IH]; cbn; [reflexivity|].
  destruct (Ascii.eqb c sep); cbn; [now rewrite IH|].
  destruct (split sep s); cbn in *; [discriminate IH|exact IH].
Qed.

Lemma split_without sep s : contains sep s = false -> split sep s = [s].
Proof.
  induction s as [|c s IH]; cbn; [reflexivity|].
  destruct (Ascii.eqb c sep); cbn; [discriminate|].
  intros Hs. now rewrite (IH Hs).
Qed.

Lemma split_at sep a b :
  contains sep a = false ->
  split sep (a ++ String sep b) = a :: split sep b.
Proof.
  induction a as [|c a IH]; cbn.
  - intros _. now rewrite Ascii.eqb_refl.
  - destruct (Ascii.eqb c sep); cbn; [discriminate|].
    intros Ha. now rewrite (IH Ha).
Qed.

Lemma contains_app c a b :
  contains c (a ++ b) = contains c a || contains c b.
Proof.
  induction a as [|c' a IH]; cbn; [reflexivity|].
  now rewrite IH, orb_assoc.
Qed.

Lemma split_parts_without sep s part :
  In part (split sep s) -> contains sep part = false.
Proof.
  revert part. induction s as [|c s IH]; cbn; intros part Hin.
  - destruct Hin as [<-|[]]. reflexivity.
  - destruct (Ascii.eqb c sep) eqn:E.
    + destruct Hin as [<-|Hin]; [reflexivity|now apply IH].
    + destruct (split sep s) as [|first others]; cbn in Hin.
      * destruct Hin as [<-|[]]. cbn. now rewrite E.
      * destruct Hin as [<-|Hin].
        -- cbn. rewrite E. cbn. apply IH. now left.
        -- apply IH. now right.
Qed.

End NameStrings.

Section FromName.
Context `{TextLayout}.

Lemma strip_kept chars s :
  first_kept chars s = true -> last_kept chars s = true -> strip chars s = s.
Proof.
  intros Hfirst Hlast. unfold strip.
  rewrite lstrip_first_kept by exact Hfirst. now apply rstrip_last_kept.
Qed.

Lemma from_name_error reddit name loader order query e :
  from_name reddit name loader order query = inl e <->
  resolve_name (is_oauth_session reddit) name order query = inl e.
Proof.
  unfold from_name.
  destruct (resolve_name _ name order query) as [e'|[[display ord] call]].
  - split; intros Heq; injection Heq as <-; reflexivity.
  - split; discriminate.
Qed.

Lemma choose_call_not_unpack oauth query n ord :
  choose_call oauth query n ord <> inl TooManyValues.
Proof.
  unfold choose_call.
  destruct (negb (recognized_order ord)); [discriminate|].
  destruct (n =? "me")%string.
  { destruct (negb oauth); [discriminate|]. destruct (truthy ord); discriminate. }
  destruct (truthy query).
  { destruct (n =? "front")%string; discriminate. }
  destruct (n =? "front")%string.
  { destruct (dispatch_front _); discriminate. }
  destruct (dispatch_subreddit _); discriminate.
Qed.

(** X19.  [from_name] ends in the [ValueError] of the tuple unpacking exactly
    for the names that still hold two or more slashes once blanks and slashes
    around them and a leading [r/] are removed; the order, the query and the
    session play no part. *)
Theorem from_name_too_many_slashes reddit name loader order query :
  from_name reddit name loader order query = inl TooManyValues <->
  (2 <= count_char "/" (cleaned_name name))%nat.
Proof.
  rewrite from_name_error. unfold resolve_name, unpack_name.
  fold (cleaned_name name). set (n := cleaned_name name).
  pose proof (split_length "/" n) as Hlen.
  pose proof (contains_count "/" n) as Hcount.
  destruct (contains "/" n) eqn:Hc.
  - assert (1 <= count_char "/" n)%nat as H1 by now apply Hcount.
    destruct (split "/" n) as [|a [|b [|c rest]]]; cbn [length] in Hlen;
      try lia.
    + split; [|lia]. intros Hrun. now apply choose_call_not_unpack in Hrun.
    + split; [intros _; lia|reflexivity].
  - assert (count_char "/" n = 0)%nat as H0.
    { destruct (count_char "/" n) as [|k]; [reflexivity|]. exfalso.
      assert (false = true) as Habs by (apply Hcount; lia).
      discriminate Habs. }
    split; [|lia]. intros Hrun. now apply choose_call_not_unpack in Hrun.
Qed.

Lemma dispatch_front_recognized order :
  recognized_order order = true -> dispatch_front order <> None.
Proof.
  destruct order as [o|]; [|discriminate]. cbn.
  destruct (o =? "hot")%string; [discriminate|].
  destruct (o =? "top")%string; [discriminate|].
  destruct (o =? "rising")%string; [discriminate|].
  destruct (o =? "new")%string; [discriminate|].
  destruct (o =? "controversial")%string; discriminate.
Qed.

Lemma dispatch_subreddit_recognized order :
  recognized_order order = true -> dispatch_subreddit order <> None.
Proof.
  destruct order as [o|]; [|discriminate]. cbn.
  destruct (o =? "hot")%string; [discriminate|].
  destruct (o =? "top")%string; [discriminate|].
  destruct (o =? "rising")%string; [discriminate|].
  destruct (o =? "new")%string; [discriminate|].
  destruct (o =? "controversial")%string; discriminate.
Qed.

Lemma unpack_name_without_slash name order n ord :
  unpack_name name order = inr (n, ord) -> contains "/" n = false.
Proof.
  unfold unpack_name. fold (cleaned_name name). set (c := cleaned_name name).
  destruct (contains "/" c) eqn:Hc.
  - destruct (split "/" c) as [|a [|b [|x rest]]] eqn:Hsplit; try discriminate.
    intros Heq. injection Heq as <- _.
    apply (split_parts_without "/" c). rewrite Hsplit. now left.
  - intros Heq. now injection Heq as <- _.
Qed.

(** X20.  What [from_name] passes on.  The lookup [dispatch[order]] never fails;
    and whenever a call to the content API is made, the order in force is
    [None] or one of the five recognized orders, the display name is [/r/]
    followed by a name without a slash, and the call is the one for that
    name.  An unrecognized order is reported before the session is looked
    at. *)
Theorem from_name_checks_before_it_calls oauth name order query :
  resolve_name oauth name order query <> inl MissingMethod
  /\ forall display ord call,
       resolve_name oauth name order query = inr (display, ord, call) ->
       recognized_order ord = true
       /\ exists n,
            display = ("/r/" ++ n)%string
            /\ contains "/" n = false
            /\ match call with
               | UserSubmitted _ => n = "me"%string /\ oauth = true
               | Search _ subreddit sort =>
                   sort = ord
                   /\ subreddit =
                      (if (n =? "front")%string then None else Some n)
               | FrontListing method =>
                   n = "front"%string /\ dispatch_front ord = Some method
               | SubredditListing n' method =>
                   n' = n /\ dispatch_subreddit ord = Some method
               end.
Proof.
  unfold resolve_name.
  destruct (unpack_name name order) as [e|[n ord0]] eqn:Hunpack.
  { split; [|intros; discriminate].
    unfold unpack_name in Hunpack.
    destruct (contains _ _); [|discriminate].
    destruct (split _ _) as [|a [|b [|x rest]]]; try discriminate;
      injection Hunpack as <-; discriminate. }
  apply unpack_name_without_slash in Hunpack as Hn.
  unfold choose_call.
  destruct (recognized_order ord0) eqn:Hord; cbn [negb];
    [|split; [discriminate|intros; discriminate]].
  destruct (n =? "me")%string eqn:Hme.
  { apply String.eqb_eq in Hme.
    destruct oauth; cbn [negb];
      [|split; [discriminate|intros; discriminate]].
    split; [destruct (truthy ord0); discriminate|].
    intros display ord call Hrun.
    destruct (truthy ord0); injection Hrun as <- <- <-;
      (split; [exact Hord|]); exists n; repeat split; assumption. }
  destruct (truthy query).
  { split; [destruct (n =? "front")%string; discriminate|].
    intros display ord call Hrun.
    destruct (n =? "front")%string eqn:Hfront; injection Hrun as <- <- <-;
      (split; [exact Hord|]); exists n; rewrite Hfront; repeat split;
      assumption. }
  destruct (n =? "front")%string eqn:Hfront.
  { pose proof (dispatch_front_recognized ord0 Hord) as Hd.
    destruct (dispatch_front ord0) as [method|] eqn:Hm; [|contradiction].
    split; [discriminate|]. intros display ord call Hrun.
    injection Hrun as <- <- <-. split; [exact Hord|]. exists n.
    apply String.eqb_eq in Hfront. repeat split; assumption. }
  pose proof (dispatch_subreddit_recognized ord0 Hord) as Hd.
  destruct (dispatch_subreddit ord0) as [method|] eqn:Hm; [|contradiction].
  split; [discriminate|]. intros display ord call Hrun.
  injection Hrun as <- <- <-. split; [exact Hord|]. exists n.
  repeat split; assumption.
Qed.

Lemma unpack_name_bare n order :
  bare n = true ->
  unpack_name n order =
  (if contains "/" n then
     match split "/" n with
     | [name; name_order] =>
         inr (name, if truthy order then order else Some name_order)
     | _ => inl TooManyValues
     end
   else inr (n, order)).
Proof.
  unfold bare. intros Hbare.
  apply andb_prop in Hbare as [Hbare Hprefix].
  apply andb_prop in Hbare as [Hfirst Hlast].
  unfold unpack_name. rewrite (strip_kept _ n Hfirst Hlast).
  apply negb_true_iff in Hprefix. now rewrite Hprefix.
Qed.

Lemma prefix_r_slash n :
  String.prefix "r/" ("r/" ++ n) = true /\ slice_from 2 ("r/" ++ n) = n.
Proof.
  split; [|reflexivity]. cbn.
  destruct (ascii_dec "r" "r") as [_|Hne]; [|now contradiction Hne].
  destruct (ascii_dec "/" "/") as [_|Hne]; [|now contradiction Hne].
  now destruct n.
Qed.

(** X21.  Reading a name starts by cleaning it: blanks and slashes around it,
    and one leading [r/], make no difference to what [from_name] does.
    [/r/python/], [r/python] and [python] are the same request. *)
Theorem from_name_cleans_name reddit pre n post loader order query :
  all_in [" "; "/"]%char pre = true ->
  all_in [" "; "/"]%char post = true ->
  bare n = true ->
  from_name reddit (pre ++ n ++ post) loader order query =
    from_name reddit n loader order query
  /\ from_name reddit (pre ++ ("r/" ++ n) ++ post) loader order query =
     from_name reddit n loader order query.
Proof.
  intros Hpre Hpost Hbare. pose proof Hbare as Hbare'. unfold bare in Hbare'.
  apply andb_prop in Hbare' as [Hbare' Hprefix].
  apply andb_prop in Hbare' as [Hfirst Hlast].
  apply negb_true_iff in Hprefix.
  assert (unpack_name (pre ++ n ++ post) order = unpack_name n order) as E1.
  { unfold unpack_name.
    rewrite (strip_around _ pre n post Hpre Hpost Hfirst Hlast).
    now rewrite (strip_kept _ n Hfirst Hlast). }
  assert (unpack_name (pre ++ ("r/" ++ n) ++ post) order = unpack_name n order)
    as E2.
  { unfold unpack_name.
    rewrite (strip_around _ pre ("r/" ++ n) post Hpre Hpost);
      [|reflexivity|now apply (last_kept_app _ "r/" n)].
    rewrite (strip_kept _ n Hfirst Hlast), Hprefix.
    destruct (prefix_r_slash n) as [-> ->]. reflexivity. }
  unfold from_name, resolve_name. now rewrite E1, E2.
Qed.

Lemma prefix_cons a b s1 s2 :
  String.prefix (String a s1) (String b s2) =
  (if ascii_dec a b then String.prefix s1 s2 else false).
Proof. reflexivity. Qed.

Lemma prefix_r_segment n o :
  segment n = true -> n <> "r"%string ->
  String.prefix "r/" (n ++ String "/" o) = false.
Proof.
  unfold segment, bare. intros Hseg Hn.
  apply andb_prop in Hseg as [Hbare Hslash].
  apply negb_true_iff in Hslash.
  destruct n as [|c1 [|c2 rest]].
  - discriminate Hbare.
  - change (String c1 "" ++ String "/" o)%string
      with (String c1 (String "/" o)).
    rewrite prefix_cons.
    destruct (ascii_dec "r" c1) as [<-|]; [now contradiction Hn|reflexivity].
  - change (String c1 (String c2 rest) ++ String "/" o)%string
      with (String c1 (String c2 (rest ++ String "/" o))).
    rewrite prefix_cons. destruct (ascii_dec "r" c1); [|reflexivity].
    rewrite prefix_cons. destruct (ascii_dec "/" c2) as [<-|]; [|reflexivity].
    cbn [contains] in Hslash. rewrite Ascii.eqb_refl in Hslash.
    cbn [orb] in Hslash. rewrite orb_true_r in Hslash. discriminate Hslash.
Qed.

(** X22.  An order can be written after the name: [python/new] is [python] in
    the order [new].  An order passed to [from_name] takes precedence over it,
    unless it is empty.  (The name [r] is the exception: [r/new] is the
    subreddit [new].) *)
Theorem from_name_order_after_slash reddit n o loader order query :
  segment n = true ->
  segment o = true ->
  n <> "r"%string ->
  from_name reddit (n ++ "/" ++ o) loader order query =
  from_name reddit n loader (if truthy order then order else Some o) query.
Proof.
  intros Hn Ho Hr. pose proof Hn as Hn'. pose proof Ho as Ho'.
  unfold segment in Hn', Ho'.
  apply andb_prop in Hn' as [Hbn Hsn]. apply andb_prop in Ho' as [Hbo Hso].
  apply negb_true_iff in Hsn. apply negb_true_iff in Hso.
  assert (bare (n ++ "/" ++ o) = true) as Hbare.
  { unfold bare in *.
    apply andb_prop in Hbn as [Hbn _]. apply andb_prop in Hbn as [Hfn _].
    apply andb_prop in Hbo as [Hbo _]. apply andb_prop in Hbo as [_ Hlo].
    rewrite (first_kept_app _ n _ Hfn).
    rewrite (last_kept_app _ n ("/" ++ o)) by now apply (last_kept_app _ "/" o).
    change ("/" ++ o)%string with (String "/" o).
    now rewrite (prefix_r_segment n o Hn Hr). }
  unfold from_name, resolve_name.
  rewrite (unpack_name_bare _ _ Hbare), (unpack_name_bare _ _ Hbn).
  rewrite Hsn. change ("/" ++ o)%string with (String "/" o).
  rewrite contains_app. cbn [contains]. rewrite Ascii.eqb_refl.
  cbn [orb]. rewrite orb_true_r.
  rewrite (split_at "/" n o Hsn), (split_without "/" o Hso).
  reflexivity.
Qed.

End FromName.

(** ** The url of a submission *)

Section UrlKinds.

Lemma prefix_nil s : String.prefix "" s = true.
Proof. now destruct s. Qed.

Lemma prefix_appended head url :
  String.prefix head url = true -> exists rest, url = (head ++ rest)%string.
Proof.
  revert url. induction head as [|a head IH]; intros url Hp.
  - now exists url.
  - destruct url as [|b url]; [discriminate Hp|].
    rewrite prefix_cons in Hp. destruct (ascii_dec a b) as [<-|]; [|discriminate].
    destruct (IH url Hp) as [rest ->]. now exists rest.
Qed.

Lemma count_char_app c a b :
  count_char c (a ++ b) = (count_char c a + count_char c b)%nat.
Proof.
  induction a as [|c' a IH]; cbn; [reflexivity|]. rewrite IH. lia.
Qed.

Lemma split_through sep a b :
  split sep (a ++ String sep b) = split sep a ++ split sep b.
Proof.
  induction a as [|c a IH]; cbn.
  - now rewrite Ascii.eqb_refl.
  - destruct (Ascii.eqb c sep); [now rewrite IH|].
    rewrite IH. pose proof (split_length sep a) as Hlen.
    destruct (split sep a); [discriminate Hlen|reflexivity].
Qed.

Lemma reddit_link_heads_shape :
  forallb (fun head =>
             (head =? chop head ++ "/")%string
             && Nat.eqb (count_char "/" (chop head)) 3)
    reddit_link_heads = true.
Proof. reflexivity. Qed.

Lemma reddit_link_head_stem head :
  In head reddit_link_heads ->
  head = (chop head ++ "/")%string /\ count_char "/" (chop head) = 3%nat.
Proof.
  intros Hin. pose proof reddit_link_heads_shape as Hall.
  rewrite forallb_forall in Hall. specialize (Hall head Hin).
  apply andb_prop in Hall as [Heq Hcount].
  apply String.eqb_eq in Heq. apply Nat.eqb_eq in Hcount. now split.
Qed.

Lemma reddit_link_match_head url :
  reddit_link_match url = true ->
  exists head rest,
    In head reddit_link_heads /\ url = (head ++ rest)%string.
Proof.
  unfold reddit_link_match. rewrite existsb_exists.
  intros (head & Hin & Hp). destruct (prefix_appended head url Hp) as [rest ->].
  now exists head, rest.
Qed.

Lemma append_assoc_string (a b c : string) :
  ((a ++ b) ++ c = a ++ (b ++ c))%string.
Proof. induction a as [|x a IH]; cbn; [reflexivity|now rewrite IH]. Qed.

(** X5.  The projection of a submission never fails on its url: a link that the
    pattern for reddit links matches has a fifth path component, so
    [url_full.split('/')[4]] cannot raise [IndexError]. *)
Theorem classify_url_never_raises permalink url_full subreddit :
  exists kind url, classify_url permalink url_full subreddit = Ok (kind, url).
Proof.
  unfold classify_url.
  destruct (_ =? _)%string; [now eexists _, _|].
  destruct (reddit_link_match url_full) eqn:Hm; [|now eexists _, _].
  destruct (reddit_link_match_head _ Hm) as (head & rest & Hin & ->).
  destruct (reddit_link_head_stem head Hin) as [Hhead Hcount].
  assert (5 <= length (split "/" (head ++ rest)))%nat as Hlen.
  { rewrite split_length, count_char_app, Hhead, count_char_app, Hcount.
    cbn. lia. }
  destruct (split "/" (head ++ rest) !! 4%nat) as [name|] eqn:Hname;
    [now eexists _, _|].
  apply lookup_ge_None in Hname. lia.
Qed.

(** X6.  A link into another subreddit is shown as [self.] and the name of that
    subreddit: for a url made of one of the sixteen reddit link heads, a
    name without a slash, and a path, when the submission is not a self
    post. *)
Theorem classify_url_cross_post permalink head name path subreddit :
  In head reddit_link_heads ->
  contains "/" name = false ->
  last_part (split_str "/r/" permalink) <>
    last_part (split_str "/r/" (head ++ name ++ "/" ++ path)) ->
  classify_url permalink (head ++ name ++ "/" ++ path) subreddit =
  Ok ("x-post"%string, ("self." ++ name)%string).
Proof.
  intros Hin Hname Hself. unfold classify_url.
  apply String.eqb_neq in Hself. rewrite Hself.
  assert (reddit_link_match (head ++ name ++ "/" ++ path) = true) as Hm.
  { unfold reddit_link_match. apply existsb_exists. exists head.
    split; [exact Hin|]. clear. induction head as [|a head IH]; cbn.
    - apply prefix_nil.
    - destruct (ascii_dec a a) as [_|Hne]; [exact IH|now contradiction Hne]. }
  rewrite Hm.
  destruct (reddit_link_head_stem head Hin) as [Hhead Hcount].
  rewrite Hhead at 1. rewrite append_assoc_string.
  change ("/" ++ name ++ "/" ++ path)%string
    with (String "/" (name ++ String "/" path)).
  rewrite split_through, (split_at "/" name path Hname).
  rewrite lookup_app_r by (rewrite split_length, Hcount; lia).
  rewrite split_length, Hcount. reflexivity.
Qed.

End UrlKinds.

(** ** Relative times *)

(** X7.  Up to thirty days the label is the elapsed time rounded down in the
    largest of minutes, hours and days that it fills at least once, so the
    number shown is from 1 to 59, 23 or 29; under a minute, and for a
    timestamp that lies in the future, it is [0min]. *)
Theorem humanize_timestamp_rounds_down months_of seconds :
  seconds < 30 * 86400 ->
  (seconds < 60 /\ humanize_timestamp months_of seconds false = "0min"%string)
  \/ exists n unit size limit,
       humanize_timestamp months_of seconds false = (str n ++ unit)%string
       /\ In (unit, size, limit)
            [("min"%string, 60, 60); ("hr"%string, 3600, 24);
             ("day"%string, 86400, 30)]
       /\ 1 <= n < limit
       /\ size * n <= seconds < size * (n + 1).
Proof.
  intros Hmonth. unfold humanize_timestamp.
  assert (forall a b, 0 < b -> b * (a / b) <= a < b * (a / b) + b) as Hdiv.
  { intros a b Hb. pose proof (Z.mul_div_le a b Hb).
    pose proof (Z.mul_succ_div_gt a b Hb). lia. }
  pose proof (Hdiv seconds 60 ltac:(lia)) as Hm.
  set (minutes := seconds / 60) in *.
  pose proof (Hdiv minutes 60 ltac:(lia)) as Hh.
  set (hours := minutes / 60) in *.
  pose proof (Hdiv hours 24 ltac:(lia)) as Hd.
  set (days := hours / 24) in *.
  destruct (seconds <? 60) eqn:E1; [left; split; [lia|reflexivity]|].
  right. cbn zeta.
  destruct (minutes <? 60) eqn:E2.
  { exists minutes, "min"%string, 60, 60.
    split; [reflexivity|]. split; [now left|]. lia. }
  destruct (hours <? 24) eqn:E3.
  { exists hours, "hr"%string, 3600, 24.
    split; [reflexivity|]. split; [right; now left|]. lia. }
  destruct (days <? 30) eqn:E4; [|lia].
  exists days, "day"%string, 86400, 30.
  split; [reflexivity|]. split; [right; right; now left|]. lia.
Qed.

(** ** Constructing the content of a submission *)

Lemma flatten_comments_well_formed comments root_level :
  well_formed_forest comments = true ->
  flatten_comments comments root_level =
  Ok (preorder_forest root_level comments).
Proof.
  intros Hwf. unfold flatten_comments.
  rewrite flatten_loop_preorder.
  - now rewrite preorder_stack_set_nested_level.
  - now rewrite well_formed_stack_set_nested_level.
  - lia.
Qed.

(** X9.  The constructor lists a well-formed comment tree in preorder: one dict
    per node, made by [strip_praw_comment] with the node's depth, at the
    addresses 0, 1, 2, ... in that order; the object is named after the
    permalink and nothing is wrapped yet. *)
Theorem submission_init_lists_preorder submission loader indent_size
    max_indent_level order :
  well_formed_forest (sub_comments submission) = true ->
  SubmissionContent.init submission loader indent_size max_indent_level order
  = Ok (SubmissionContent.Build indent_size max_indent_level
          (sub_permalink submission) order loader submission
          (strip_praw_submission submission)
          (seq 0 (length (preorder_forest 0 (sub_comments submission))))
          (map strip_praw_comment
             (preorder_forest 0 (sub_comments submission)))).
Proof.
  intros Hwf. unfold SubmissionContent.init.
  rewrite (flatten_comments_well_formed _ 0 Hwf), alloc_all_spec.
  cbn. now rewrite length_map.
Qed.

(** X10.  The constructor has no answer to the anomaly that [flatten_comments]
    cannot repair: a submission whose last top-level comment has unset
    replies is not constructed, the call ends in [IndexError]. *)
Theorem submission_init_fails_on_unset_last submission before c loader
    indent_size max_indent_level order :
  sub_comments submission = before ++ [Comment c None] ->
  well_formed_forest before = true ->
  SubmissionContent.init submission loader indent_size max_indent_level order
  = Raise IndexError.
Proof.
  intros Hc Hwf. unfold SubmissionContent.init.
  now rewrite Hc, (flatten_comments_unset_at_end before c 0 Hwf).
Qed.

(** ** The properties at the sample data *)

#[local] Existing Instance one_line.

(** [sample_content] is the object the constructor builds. *)
Example sample_content_constructed :
  SubmissionContent.init sample_submission idle 2 8 None = Ok sample_content.
Proof. reflexivity. Qed.

Lemma listing_failure_stays_out_of_range_witness :
  let self1 := snd (SubredditContent.get 3 70 sample_subreddit) in
  len (Listing._data self1) <= 3
  /\ (forall j w' r self2,
        3 <= j ->
        SubredditContent.get j w' self1 = (r, self2) ->
        (pulls (Listing._source self1) < pulls (Listing._source self2))%nat)
  /\ exists self2,
       get_each [(3, 70); (5, 40)] self1 =
       (map (fun _ => Raise IndexError) [(3, 70); (5, 40)], self2)
       /\ Listing._data self2 = Listing._data self1
       /\ (len (Listing._data sample_subreddit) = 3 ->
           len (Listing._data self2) = 3)
       /\ pulls (Listing._source self2) =
          (pulls (Listing._source self1) + length [(3, 70); (5, 40)])%nat.
Proof.
  intros self1.
  destruct (proj1 listing_failure_stays_out_of_range 3 70 sample_subreddit
              self1) as (Hlen & Hpull & Hgen); [lia|reflexivity|].
  split; [exact Hlen|]. split; [exact Hpull|].
  apply Hgen; [reflexivity|repeat constructor; simpl; lia].
Defined.

(** C1 as stated fails.  On [sample_subreddit] (three dicts resolved, the
    fourth pull raises) [get(3)] ends in [IndexError] with the store at
    length 3 after four pulls; [get(3)] again ends in [IndexError] too, but
    after a fifth pull.  On the five-element scenario of the specification,
    where an element follows the raising pull, the second [get(3)] returns a
    dict and the store grows to length 4. *)
Lemma listing_get_after_failure_pulls_again :
  (let first := SubredditContent.get 3 70 sample_subreddit in
   let second := SubredditContent.get 3 70 (snd first) in
   fst first = Raise IndexError
   /\ len (Listing._data (snd first)) = 3
   /\ pulls (Listing._source (snd first)) = 4%nat
   /\ fst second = Raise IndexError
   /\ pulls (Listing._source (snd second)) = 5%nat)
  /\ (let first := SubredditContent.get 3 70 sample_subreddit_five in
      let second := SubredditContent.get 3 70 (snd first) in
      fst first = Raise IndexError
      /\ len (Listing._data (snd first)) = 3
      /\ (exists data, fst second = Ok data)
      /\ len (Listing._data (snd second)) = 4).
Proof.
  split; vm_compute; repeat split. eexists. reflexivity.
Qed.

Lemma toggle_twice_restores_witness :
  exists self1 self2,
    SubmissionContent.toggle (Fetched []) 1 70 sample_content = (Ok tt, self1)
    /\ SubmissionContent.toggle (Fetched []) 1 70 self1 = (Ok tt, self2)
    /\ SubmissionContent._comment_data self2 =
       SubmissionContent._comment_data sample_content
    /\ forall l' d',
         SubmissionContent.store sample_content !! l' = Some d' ->
         exists d2,
           SubmissionContent.store self2 !! l' = Some d2 /\ core d2 = core d'.
Proof.
  apply (toggle_twice_restores (Fetched []) (Fetched []) 1 70 70
           sample_content 1%nat (strip_praw_comment (c2, 0)));
    [reflexivity|lia|reflexivity|reflexivity|reflexivity].
Defined.

(** The scenario of the specification: toggling [c2] hides three dicts behind
    one, with count 3; toggling again brings back [c2; c2a; c2b]. *)
Example toggle_c2_scenario :
  let self1 := snd (SubmissionContent.toggle (Fetched []) 1 70 sample_content) in
  let self2 := snd (SubmissionContent.toggle (Fetched []) 1 70 self1) in
  SubmissionContent._comment_data self1 = [0; 5; 4]%nat
  /\ (c_count <$> SubmissionContent.store self1 !! 5%nat) = Some (Some 3)
  /\ (c_cache <$> SubmissionContent.store self1 !! 5%nat)
     = Some (Some [1; 2; 3]%nat)
  /\ SubmissionContent._comment_data self2 = [0; 1; 2; 3; 4]%nat.
Proof. vm_compute. repeat split. Qed.

Lemma toggle_collects_subtree_witness :
  exists self1 h hidden run rest,
    SubmissionContent.toggle (Fetched []) 1 70 sample_content = (Ok tt, self1)
    /\ drop 2 (SubmissionContent._comment_data sample_content) = run ++ rest
    /\ Forall (fun x => 0 < level_at sample_content x) run
    /\ match rest with
       | [] => True
       | x :: _ => level_at sample_content x <= 0
       end
    /\ SubmissionContent._comment_data self1 =
       take 1 (SubmissionContent._comment_data sample_content) ++ [h] ++ rest
    /\ SubmissionContent.store self1 !! h = Some hidden
    /\ c_type hidden = "HiddenComment"%string
    /\ c_level hidden = 0
    /\ c_cache hidden = Some (1%nat :: run)
    /\ c_count hidden =
       Some (1 + foldr (fun x acc => count_at sample_content x + acc) 0 run).
Proof.
  apply (toggle_collects_subtree (Fetched []) 1 70 sample_content 1%nat
           (strip_praw_comment (c2, 0)));
    [reflexivity|lia|reflexivity|reflexivity|reflexivity].
Defined.

Lemma toggle_fetch_failure_keeps_sequence_witness :
  exists r self1,
    SubmissionContent.toggle (FetchRaised (Upstream 7)) 1 70
      sample_marker_content = (r, self1)
    /\ (depth (SubmissionContent._loader sample_marker_content) = O ->
        r = Ok tt
        /\ exception (SubmissionContent._loader self1) = Some (Upstream 7))
    /\ SubmissionContent._comment_data self1 =
       SubmissionContent._comment_data sample_marker_content
    /\ SubmissionContent._comment_data self1 !! Z.to_nat 1 = Some 1%nat
    /\ cores self1 = cores sample_marker_content
    /\ frame self1 = frame sample_marker_content.
Proof.
  apply (toggle_fetch_failure_keeps_sequence (Upstream 7) 1 70
           sample_marker_content 1%nat
           (strip_praw_comment (MoreComments 3 9, 0)));
    [lia|reflexivity|reflexivity|reflexivity|reflexivity].
Defined.



Lemma get_twice_same_record_witness :
  SubmissionContent.get 1 70 (snd (SubmissionContent.get 1 70 sample_content))
  = (Ok (CommentRef 1), snd (SubmissionContent.get 1 70 sample_content)).
Proof.
  apply (proj1 get_twice_same_record 1 70 sample_content (CommentRef 1)).
  reflexivity.
Defined.

Lemma iterate_steps_and_stops_witness :
  exists rs self',
    iterate 5 2 (-1) 70 sample_subreddit = (Ok rs, self')
    /\ map fst rs = countdown (S (Z.to_nat 2)).
Proof.
  apply (proj1 (proj2 (proj2 (proj2 (proj2 (proj2 iterate_steps_and_stops)))))
           5%nat 2 70 sample_subreddit).
  - vm_compute. split; [discriminate|reflexivity].
  - simpl. lia.
Defined.

Lemma toggle_frame_witness :
  exists self1 old new rest,
    SubmissionContent.toggle (Fetched []) 1 70 sample_content = (Ok tt, self1)
    /\ SubmissionContent._comment_data sample_content =
       take (Z.to_nat 1) (SubmissionContent._comment_data sample_content)
       ++ old ++ rest
    /\ SubmissionContent._comment_data self1 =
       take (Z.to_nat 1) (SubmissionContent._comment_data sample_content)
       ++ new ++ rest
    /\ (c_type (strip_praw_comment (c2, 0)) = "Comment"%string ->
        exists run hidden,
          old = 1%nat :: run
          /\ Forall (fun x => c_level (strip_praw_comment (c2, 0))
                              < level_at sample_content x) run
          /\ match rest with
             | [] => True
             | x :: _ =>
                 level_at sample_content x
                 <= c_level (strip_praw_comment (c2, 0))
             end
          /\ new = [length (SubmissionContent.store sample_content)]
          /\ SubmissionContent.store self1
               !! length (SubmissionContent.store sample_content)
             = Some hidden
          /\ c_type hidden = "HiddenComment"%string
          /\ c_cache hidden = Some old)
    /\ (c_type (strip_praw_comment (c2, 0)) = "HiddenComment"%string ->
        old = [1%nat] /\ c_cache (strip_praw_comment (c2, 0)) = Some new)
    /\ SubmissionContent._submission_data self1 =
       SubmissionContent._submission_data sample_content
    /\ SubmissionContent.name self1 = SubmissionContent.name sample_content
    /\ SubmissionContent.order self1 = SubmissionContent.order sample_content
    /\ SubmissionContent.indent_size self1 =
       SubmissionContent.indent_size sample_content
    /\ SubmissionContent.max_indent_level self1 =
       SubmissionContent.max_indent_level sample_content
    /\ (forall l' d',
          SubmissionContent.store sample_content !! l' = Some d' ->
          exists d1,
            SubmissionContent.store self1 !! l' = Some d1
            /\ core d1 = core d')
    /\ (forall l' d',
          SubmissionContent.store sample_content !! l' = Some d' ->
          l' ∉ old ++ take 1 rest ->
          SubmissionContent.store self1 !! l' = Some d').
Proof.
  apply (toggle_frame (Fetched []) 1 70 sample_content 1%nat
           (strip_praw_comment (c2, 0)));
    [reflexivity|lia|reflexivity|reflexivity|left; reflexivity].
Defined.

(** ** Further properties at the sample data *)

Lemma toggle_raise_keeps_sequence_witness :
  let self1 :=
    snd (SubmissionContent.toggle
           (Fetched [Comment (sample_comment "x") None]) 1 70
           sample_marker_content) in
  SubmissionContent._comment_data self1 =
    SubmissionContent._comment_data sample_marker_content
  /\ cores self1 = cores sample_marker_content
  /\ frame self1 = frame sample_marker_content.
Proof.
  apply (toggle_raise_keeps_sequence
           (Fetched [Comment (sample_comment "x") None]) 1 70
           sample_marker_content IndexError).
  reflexivity.
Defined.

Lemma toggle_more_comments_splices_witness :
  exists self1,
    SubmissionContent.toggle (Fetched [c2]) 1 70 sample_marker_content =
      (Ok tt, self1)
    /\ SubmissionContent._comment_data self1 =
       take (Z.to_nat 1) (SubmissionContent._comment_data sample_marker_content)
       ++ seq (length (SubmissionContent.store sample_marker_content))
            (length [(c2, 0); (c2a, 1); (c2b, 1)])
       ++ drop (S (Z.to_nat 1))
            (SubmissionContent._comment_data sample_marker_content)
    /\ (forall k e,
          [(c2, 0); (c2a, 1); (c2b, 1)] !! k = Some e ->
          SubmissionContent.store self1
            !! (length (SubmissionContent.store sample_marker_content) + k)%nat
          = Some (strip_praw_comment e))
    /\ cores self1 =
       cores sample_marker_content
       ++ (core <$> map strip_praw_comment [(c2, 0); (c2a, 1); (c2b, 1)])
    /\ frame self1 = frame sample_marker_content
    /\ exception (SubmissionContent._loader self1) = None.
Proof.
  apply (toggle_more_comments_splices [c2] [(c2, 0); (c2a, 1); (c2b, 1)] 1 70
           sample_marker_content 1%nat
           (strip_praw_comment (MoreComments 3 9, 0)));
    [lia|reflexivity|reflexivity|reflexivity|reflexivity|reflexivity].
Defined.

Lemma toggle_hide_keeps_total_count_witness :
  exists self1,
    SubmissionContent.toggle (Fetched []) 1 70 sample_content = (Ok tt, self1)
    /\ sum_counts self1 (SubmissionContent._comment_data self1) =
       sum_counts sample_content (SubmissionContent._comment_data sample_content).
Proof.
  apply (toggle_hide_keeps_total_count (Fetched []) 1 70 sample_content 1%nat
           (strip_praw_comment (c2, 0)));
    [reflexivity|lia|reflexivity|reflexivity|reflexivity|reflexivity].
Defined.

Lemma get_last_width_wins_witness :
  SubmissionContent.get 1 40 (snd (SubmissionContent.get 1 70 sample_content))
  = SubmissionContent.get 1 40 sample_content.
Proof.
  apply (proj1 get_last_width_wins 1 70 40 sample_content (CommentRef 1)).
  reflexivity.
Defined.

Lemma listing_get_pulls_what_is_missing_witness :
  exists items d,
    answers (Listing._source fresh_subreddit) =
      map Item items
      ++ answers (Listing._source (snd (SubredditContent.get 1 70 fresh_subreddit)))
    /\ length items =
       Z.to_nat (1 + 1 - len (Listing._data fresh_subreddit))
    /\ pulls (Listing._source (snd (SubredditContent.get 1 70 fresh_subreddit)))
       = (pulls (Listing._source fresh_subreddit) + length items)%nat
    /\ (Listing._data fresh_subreddit
        ++ map (SubredditContent.project 1) items) !! Z.to_nat 1 = Some d
    /\ SubredditContent.render 70
         (SubredditContent.project 1 sample_submission)
       = SubredditContent.render 70 d
    /\ Listing._data (snd (SubredditContent.get 1 70 fresh_subreddit)) =
       <[Z.to_nat 1 :=
           SubredditContent.render 70
             (SubredditContent.project 1 sample_submission)]>
         (Listing._data fresh_subreddit
          ++ map (SubredditContent.project 1) items).
Proof.
  apply (listing_get_pulls_what_is_missing SubredditContent.project
           SubredditContent.render 1 70 fresh_subreddit).
  reflexivity.
Defined.

Lemma listing_get_keeps_resolved_witness :
  Listing._data (snd (SubredditContent.get 0 40 sample_subreddit)) !! 1%nat
  = Some (SubredditContent.project 2 sample_submission)
  /\ (length (Listing._data sample_subreddit)
      <= length (Listing._data (snd (SubredditContent.get 0 40 sample_subreddit))))%nat.
Proof.
  apply (listing_get_keeps_resolved SubredditContent.project
           SubredditContent.render 0 40 sample_subreddit _
           (fst (SubredditContent.get 0 40 sample_subreddit)));
    [reflexivity|reflexivity|discriminate].
Defined.

(** A jump to index 2 on an empty store: the dict at position 0 is numbered
    as if it were the third. *)
Lemma subreddit_get_stamps_requested_index_witness :
  s_index (SubredditContent.project 2 sample_submission) = Some 2
  /\ s_title (SubredditContent.project 2 sample_submission) =
     (str (2 + 1) ++ ". "
      ++ sub_title (s_object (SubredditContent.project 2 sample_submission)))%string.
Proof.
  apply (subreddit_get_stamps_requested_index 2 70 fresh_subreddit
           (snd (SubredditContent.get 2 70 fresh_subreddit))
           (fst (SubredditContent.get 2 70 fresh_subreddit)) 0%nat);
    [reflexivity|simpl; lia|reflexivity].
Defined.

Lemma flatten_comments_output_bounds_witness :
  Forall (fun e => 0 <= snd e) [(c1, 0); (c2, 0); (c2a, 1); (c2b, 1); (c3, 0)]
  /\ Forall (fun e => is_zero_marker (fst e) = false)
       [(c1, 0); (c2, 0); (c2a, 1); (c2b, 1); (c3, 0)]
  /\ (length [(c1, 0); (c2, 0); (c2a, 1); (c2b, 1); (c3, 0)]
      <= forest_size sample_forest)%nat.
Proof.
  apply (flatten_comments_output_bounds sample_forest 0). reflexivity.
Defined.

Lemma flatten_comments_last_root_unset_witness :
  flatten_comments (sample_forest ++ [Comment (sample_comment "c4") None]) 0 =
  Raise IndexError.
Proof.
  apply (flatten_comments_last_root_unset sample_forest). reflexivity.
Defined.

Lemma flatten_comments_adopts_next_root_witness :
  flatten_comments ([c1] ++ Comment (sample_comment "p") None :: c2 :: [c3]) 0 =
  Ok (preorder_forest 0 [c1]
      ++ (Comment (sample_comment "p") (Some [c2]), 0)
      :: preorder (0 + 1) c2 ++ preorder_forest 0 [c3]).
Proof.
  apply (flatten_comments_adopts_next_root [c1] (sample_comment "p") c2 [c3] 0);
    reflexivity.
Defined.

Lemma submission_iterate_forward_lists_page_witness :
  exists rs self',
    iterate 7 (-1) 1 70 sample_content = (Ok rs, self')
    /\ map snd rs =
       SubmissionRef
       :: map CommentRef (SubmissionContent._comment_data sample_content)
    /\ map fst rs =
       -1 :: map Z.of_nat
               (seq 0 (length (SubmissionContent._comment_data sample_content)))
    /\ SubmissionContent._comment_data self' =
       SubmissionContent._comment_data sample_content
    /\ cores self' = cores sample_content.
Proof.
  apply (submission_iterate_forward_lists_page 70 7 sample_content);
    [reflexivity|simpl; lia].
Defined.

Lemma get_indent_is_capped_witness :
  exists d offset n_rows,
    SubmissionContent.store (snd (SubmissionContent.get 2 70 sample_content))
      !! 2%nat = Some d
    /\ c_offset d = Some offset
    /\ c_n_rows d = Some n_rows
    /\ offset =
       Z.min (c_level d) (SubmissionContent.max_indent_level sample_content)
       * SubmissionContent.indent_size sample_content
    /\ offset <=
       SubmissionContent.max_indent_level sample_content
       * SubmissionContent.indent_size sample_content
    /\ (0 <= c_level d -> 0 <= offset)
    /\ 1 <= n_rows.
Proof.
  apply (get_indent_is_capped 2 70 sample_content 2%nat);
    [reflexivity|simpl; lia|simpl; lia].
Defined.

Lemma init_wf_witness : wf sample_content = true.
Proof.
  apply (init_wf sample_submission idle 2 8 None sample_content). reflexivity.
Defined.

Lemma toggle_preserves_wf_witness :
  wf (snd (SubmissionContent.toggle (Fetched [c2]) 1 70 sample_marker_content))
  = true.
Proof.
  apply (toggle_preserves_wf (Fetched [c2]) 1 70 sample_marker_content
           (fst (SubmissionContent.toggle (Fetched [c2]) 1 70
                   sample_marker_content)));
    reflexivity.
Defined.

Lemma from_name_too_many_slashes_witness :
  from_name sample_reddit "/r/python/new/week" idle None None =
  inl TooManyValues.
Proof.
  apply (proj2 (from_name_too_many_slashes sample_reddit
                  "/r/python/new/week" idle None None)).
  simpl. lia.
Defined.

Lemma from_name_checks_before_it_calls_witness :
  recognized_order (Some "new"%string) = true
  /\ exists n,
       "/r/python"%string = ("/r/" ++ n)%string
       /\ contains "/" n = false
       /\ "python"%string = n
       /\ dispatch_subreddit (Some "new"%string) = Some get_new.
Proof.
  apply (proj2 (from_name_checks_before_it_calls true "python/new" None None)
           "/r/python"%string (Some "new"%string)
           (SubredditListing "python" get_new)).
  reflexivity.
Defined.

Lemma from_name_cleans_name_witness :
  from_name sample_reddit ("/" ++ "python" ++ "/ ") idle None None =
    from_name sample_reddit "python" idle None None
  /\ from_name sample_reddit ("/" ++ ("r/" ++ "python") ++ "/ ") idle None None
     = from_name sample_reddit "python" idle None None.
Proof.
  apply (from_name_cleans_name sample_reddit "/" "python" "/ " idle None None);
    reflexivity.
Defined.

Lemma from_name_order_after_slash_witness :
  from_name sample_reddit ("python" ++ "/" ++ "new") idle (Some "top"%string)
    None =
  from_name sample_reddit "python" idle
    (if truthy (Some "top"%string) then Some "top"%string
     else Some "new"%string) None.
Proof.
  apply (from_name_order_after_slash sample_reddit "python" "new" idle
           (Some "top"%string) None);
    [reflexivity|reflexivity|discriminate].
Defined.

Lemma classify_url_cross_post_witness :
  classify_url "https://www.reddit.com/r/python/comments/1/a/"
    ("https://np.reddit.com/r/" ++ "coq" ++ "/" ++ "comments/2/b/") "python" =
  Ok ("x-post"%string, ("self." ++ "coq")%string).
Proof.
  apply (classify_url_cross_post
           "https://www.reddit.com/r/python/comments/1/a/"
           "https://np.reddit.com/r/" "coq" "comments/2/b/" "python").
  - vm_compute. tauto.
  - reflexivity.
  - vm_compute. discriminate.
Defined.

Lemma humanize_timestamp_rounds_down_witness :
  (7200 < 60 /\ humanize_timestamp (fun d => d / 30) 7200 false = "0min"%string)
  \/ exists n unit size limit,
       humanize_timestamp (fun d => d / 30) 7200 false = (str n ++ unit)%string
       /\ In (unit, size, limit)
            [("min"%string, 60, 60); ("hr"%string, 3600, 24);
             ("day"%string, 86400, 30)]
       /\ 1 <= n < limit
       /\ size * n <= 7200 < size * (n + 1).
Proof.
  apply (humanize_timestamp_rounds_down (fun d => d / 30) 7200). lia.
Defined.

Lemma submission_init_lists_preorder_witness :
  SubmissionContent.init sample_submission idle 2 8 None
  = Ok (SubmissionContent.Build 2 8 (sub_permalink sample_submission) None idle
          sample_submission (strip_praw_submission sample_submission)
          (seq 0 (length (preorder_forest 0 (sub_comments sample_submission))))
          (map strip_praw_comment
             (preorder_forest 0 (sub_comments sample_submission)))).
Proof.
  apply (submission_init_lists_preorder sample_submission idle 2 8 None).
  reflexivity.
Defined.

Lemma submission_init_fails_on_unset_last_witness :
  SubmissionContent.init broken_submission idle 2 8 None = Raise IndexError.
Proof.
  apply (submission_init_fails_on_unset_last broken_submission sample_forest
           (sample_comment "c4") idle 2 8 None);
    reflexivity.
Defined.
